(** * EveryIBus: the iBUS telemetry responder, embedded in Rocq

    A shallow embedding of [src/EveryIBus.h] and [src/EveryIBus.cpp]:
    the sensor table, the request validation, the three request handlers
    and the polling step, followed by the properties of the protocol.

    Conventions.
    - A [uint8_t], [uint16_t] or [uint32_t] is a [Z] together with the
      wrap-around of its width, written [u8], [u16], [u32] at every place
      where the C++ code converts to that type.
    - The member functions run in the monad [M]: they read and write the
      object (and the two serial ports) and they fail ([None]) exactly where
      the C++ code has no defined behaviour: a null [_serial] dereferenced,
      an array indexed out of its bounds.
    - The bus transport [*_serial] and the diagnostic console [Serial] are
      two different ports, as on the board the library is written for
      ([Serial1] on D0/D1 is the default transport, [Serial] the USB
      console). *)

From Stdlib Require Import ZArith Lia Bool String.
From stdpp Require Import base tactics option list list_numbers.

Local Open Scope Z_scope.

(** ** Fixed-width integers *)

Definition u8 (x : Z) : Z := x mod 256.
Definition u16 (x : Z) : Z := x mod 65536.
Definition u32 (x : Z) : Z := x mod 4294967296.

Definition is_u8 (x : Z) : Prop := 0 <= x < 256.
Definition is_u16 (x : Z) : Prop := 0 <= x < 65536.

(** ** Constants of EveryIBus.h *)

Definition IBUS_SENSOR_INTERNAL_VOLTAGE : Z := 0x00.
Definition IBUS_SENSOR_TEMPERATURE : Z := 0x01.
Definition IBUS_SENSOR_RPM : Z := 0x02.
Definition IBUS_SENSOR_EXTERNAL_VOLTAGE : Z := 0x03.

Definition IBUS_CMD_DISCOVER : Z := 0x80.
Definition IBUS_CMD_TYPE : Z := 0x90.
Definition IBUS_CMD_MEASUREMENT : Z := 0xA0.

Definition MAX_SENSORS : Z := 4.

(** ** Data *)

(** [struct Sensor]. *)
Record Sensor : Type := mkSensor {
  type : Z;        (* uint8_t *)
  value : Z;       (* uint16_t *)
  hasValue : bool
}.

(** A [HardwareSerial] port, as far as the library uses it: the bytes
    received and not yet read (oldest first) and the bytes written so far
    (oldest first). *)
Record HardwareSerial : Type := mkSerial {
  rx : list Z;
  tx : list Z
}.

(** What the diagnostic console [Serial] has been asked to print. *)
Inductive ConsoleItem : Type :=
| PrintStr (s : string)
| PrintDec (n : Z)
| PrintHex (n : Z)
| NewLine.

(** The private members of [class EveryIBus]; [_serial] holds the port it
    points to ([None] is [nullptr]). The last field is not a member: it is
    the global console [Serial], threaded with the object. *)
Record EveryIBus : Type := mkEveryIBus {
  _serial : option HardwareSerial;
  _sensors : list Sensor;          (* Sensor _sensors[MAX_SENSORS] *)
  _currentSensorIndex : Z;         (* uint8_t *)
  _anyDiscovered : bool;
  _packetCount : Z;                (* uint32_t *)
  _responseCount : Z;              (* uint32_t *)
  _debug : bool;
  Serial : list ConsoleItem
}.

Definition set_serial (p : option HardwareSerial) (o : EveryIBus) : EveryIBus :=
  mkEveryIBus p (_sensors o) (_currentSensorIndex o) (_anyDiscovered o)
    (_packetCount o) (_responseCount o) (_debug o) (Serial o).
Definition set_sensors (l : list Sensor) (o : EveryIBus) : EveryIBus :=
  mkEveryIBus (_serial o) l (_currentSensorIndex o) (_anyDiscovered o)
    (_packetCount o) (_responseCount o) (_debug o) (Serial o).
Definition set_currentSensorIndex (i : Z) (o : EveryIBus) : EveryIBus :=
  mkEveryIBus (_serial o) (_sensors o) i (_anyDiscovered o)
    (_packetCount o) (_responseCount o) (_debug o) (Serial o).
Definition set_anyDiscovered (b : bool) (o : EveryIBus) : EveryIBus :=
  mkEveryIBus (_serial o) (_sensors o) (_currentSensorIndex o) b
    (_packetCount o) (_responseCount o) (_debug o) (Serial o).
Definition set_packetCount (n : Z) (o : EveryIBus) : EveryIBus :=
  mkEveryIBus (_serial o) (_sensors o) (_currentSensorIndex o) (_anyDiscovered o)
    n (_responseCount o) (_debug o) (Serial o).
Definition set_responseCount (n : Z) (o : EveryIBus) : EveryIBus :=
  mkEveryIBus (_serial o) (_sensors o) (_currentSensorIndex o) (_anyDiscovered o)
    (_packetCount o) n (_debug o) (Serial o).
Definition set_debug (b : bool) (o : EveryIBus) : EveryIBus :=
  mkEveryIBus (_serial o) (_sensors o) (_currentSensorIndex o) (_anyDiscovered o)
    (_packetCount o) (_responseCount o) b (Serial o).
Definition set_Serial (c : list ConsoleItem) (o : EveryIBus) : EveryIBus :=
  mkEveryIBus (_serial o) (_sensors o) (_currentSensorIndex o) (_anyDiscovered o)
    (_packetCount o) (_responseCount o) (_debug o) c.

(** ** The monad of member functions *)

Definition M (A : Type) : Type := EveryIBus -> option (A * EveryIBus).

#[global] Instance M_ret : MRet M := fun A (a : A) o => Some (a, o).
#[global] Instance M_bind : MBind M := fun A B (f : A -> M B) (m : M A) o =>
  match m o with
  | Some (a, o') => f a o'
  | None => None
  end.

Definition get {A} (f : EveryIBus -> A) : M A := fun o => Some (f o, o).
Definition modify (f : EveryIBus -> EveryIBus) : M unit := fun o => Some (tt, f o).
(** No defined behaviour. *)
Definition undefined {A} : M A := fun _ => None.
Definition when (b : bool) (m : M unit) : M unit := if b then m else mret tt.

(** [for (i = lo; i < lo + n; i++) body], where the body either falls
    through to the next round ([None]) or leaves the enclosing function
    with a result ([Some r]). *)
Fixpoint for_loop {R} (n : nat) (i : Z) (body : Z -> M (option R)) : M (option R) :=
  match n with
  | O => mret None
  | S n' =>
      r ← body i;
      match r with
      | Some x => mret (Some x)
      | None => for_loop n' (i + 1) body
      end
  end.

(** *** Arrays *)

(** [a[i]] for an array of [len] elements. *)
Definition index {A} (a : list A) (len : Z) (i : Z) : option A :=
  if bool_decide (0 <= i < len) then a !! Z.to_nat i else None.

(** [_sensors[i]] read, and [_sensors[i].field = ...]. *)
Definition sensor_at (i : Z) : M Sensor := fun o =>
  match index (_sensors o) MAX_SENSORS i with
  | Some s => Some (s, o)
  | None => None
  end.
Definition sensor_update (i : Z) (f : Sensor -> Sensor) : M unit :=
  s ← sensor_at i;
  modify (fun o => set_sensors (<[Z.to_nat i := f s]> (_sensors o)) o).

Definition set_type (t : Z) (s : Sensor) : Sensor := mkSensor t (value s) (hasValue s).
Definition set_value (v : Z) (s : Sensor) : Sensor := mkSensor (type s) v (hasValue s).
Definition set_hasValue (b : bool) (s : Sensor) : Sensor := mkSensor (type s) (value s) b.

(** *** The two ports *)

(** [Serial.print] and [Serial.println] on the console. *)
Definition Serial_print (items : list ConsoleItem) : M unit :=
  modify (fun o => set_Serial (Serial o ++ items) o).

(** [_serial->...]: a null pointer has no defined behaviour. *)
Definition with_serial {A} (f : HardwareSerial -> A * HardwareSerial) : M A := fun o =>
  match _serial o with
  | Some p => let '(a, p') := f p in Some (a, set_serial (Some p') o)
  | None => None
  end.

(** [available()]: the number of bytes waiting. *)
Definition available (p : HardwareSerial) : Z := Z.of_nat (length (rx p)).
(** [read()]: the oldest waiting byte, or -1 when none waits. *)
Definition read (p : HardwareSerial) : Z * HardwareSerial :=
  match rx p with
  | [] => (-1, p)
  | b :: rest => (b, mkSerial rest (tx p))
  end.
(** [write(b)]. *)
Definition write (b : Z) (p : HardwareSerial) : unit * HardwareSerial :=
  (tt, mkSerial (rx p) (tx p ++ [b])).
(** [flush()] waits for the written bytes to leave; the buffers of the
    model do not change. *)
Definition flush (p : HardwareSerial) : unit * HardwareSerial := (tt, p).

(** ** The member functions of EveryIBus.cpp *)

(** [data[i]] through a [uint8_t*]: defined inside the array only. *)
Definition elem (data : list Z) (i : Z) : option Z := index data (Z.of_nat (length data)) i.

(** A computation that touches neither the object nor the ports. *)
Definition pure {A} (x : option A) : M A := fun o =>
  match x with
  | Some a => Some (a, o)
  | None => None
  end.

(** [EveryIBus::EveryIBus()], run on the object's storage. *)
Definition EveryIBus_ctor : M unit :=
  modify (set_serial None);;
  modify (set_currentSensorIndex 0);;
  modify (set_anyDiscovered false);;
  modify (set_packetCount 0);;
  modify (set_responseCount 0);;
  modify (set_debug false);;
  (* Initialize all sensors as unused *)
  for_loop (R := unit) (Z.to_nat MAX_SENSORS) 0 (fun i =>
    sensor_update i (set_type 0xFF);;  (* Invalid type *)
    sensor_update i (set_value 0);;
    sensor_update i (set_hasValue false);;
    mret None);;
  mret tt.

(** [clearSerialBuffer]: [while (_serial && _serial->available()) _serial->read();]
    Each round removes one waiting byte, so one round more than the number
    of waiting bytes is enough. *)
Fixpoint clearSerialBuffer_loop (fuel : nat) : M unit :=
  match fuel with
  | O => undefined
  | S fuel' =>
      p ← get _serial;
      match p with
      | None => mret tt
      | Some q =>
          if bool_decide (available q ≠ 0)
          then with_serial read;; clearSerialBuffer_loop fuel'
          else mret tt
      end
  end.

Definition clearSerialBuffer : M unit :=
  p ← get _serial;
  clearSerialBuffer_loop (S (length (from_option rx [] p))).

(** [begin(serial)]; [serial] is the port as [serial.begin(115200)] and the
    settling [delay(100)] leave it. *)
Definition begin (serial : HardwareSerial) : M unit :=
  modify (set_serial (Some serial));;
  (* Clear any initial garbage *)
  clearSerialBuffer;;
  d ← get _debug;
  when d (Serial_print [PrintStr "EveryIBus: Multi-sensor mode initialized"; NewLine]).

Definition setDebug (enable : bool) : M unit := modify (set_debug enable).
Definition getPacketCount : M Z := get _packetCount.
Definition getResponseCount : M Z := get _responseCount.
Definition isDiscovered : M bool := get _anyDiscovered.

Definition debugPrint (message : string) : M unit :=
  d ← get _debug;
  when d (Serial_print [PrintStr message]).

Fixpoint debugPrintHex_loop (n : nat) (i : Z) (data : list Z) (length : Z) : M unit :=
  match n with
  | O => mret tt
  | S n' =>
      b ← pure (elem data i);
      when (b <? 0x10) (Serial_print [PrintStr "0"]);;
      Serial_print [PrintHex b];;
      when (i <? length - 1) (Serial_print [PrintStr " "]);;
      debugPrintHex_loop n' (u8 (i + 1)) data length
  end.

Definition debugPrintHex (data : list Z) (length : Z) : M unit :=
  d ← get _debug;
  when d (debugPrintHex_loop (Z.to_nat length) 0 data length).

(** [findSensorIndex]: the first occupied slot of this type, or -1. *)
Definition findSensorIndex (sensorType : Z) : M Z :=
  r ← for_loop (Z.to_nat MAX_SENSORS) 0 (fun i =>
         s ← sensor_at i;
         if hasValue s && (type s =? sensorType) then mret (Some i) else mret None);
  match r with
  | Some i => mret i
  | None => mret (-1)  (* Not found *)
  end.

Definition setSensorValue (sensorType rawValue : Z) : M unit :=
  (* Find existing sensor or create new one *)
  index ← findSensorIndex sensorType;
  if index =? -1 then
    (* Find empty slot *)
    r ← for_loop (Z.to_nat MAX_SENSORS) 0 (fun i =>
           s ← sensor_at i;
           if negb (hasValue s) then
             sensor_update i (set_type sensorType);;
             sensor_update i (set_value rawValue);;
             sensor_update i (set_hasValue true);;
             d ← get _debug;
             when d (Serial_print [PrintStr "EveryIBus: Added sensor type "; PrintDec sensorType;
                                   PrintStr " at index "; PrintDec i; NewLine]);;
             mret (Some tt)
           else mret None);
    match r with
    | Some _ => mret tt
    | None =>
        d ← get _debug;
        when d (Serial_print [PrintStr "EveryIBus: Warning - No free sensor slots"; NewLine])
    end
  else
    (* Update existing sensor *)
    sensor_update index (set_value rawValue).

(** The unit setters. The three that take a [float] compute
    [(uint16_t)(voltage * 100.0f)] or [(uint16_t)((tempC + 40.0f) * 10.0f)]
    first; floating point is outside this development, so they are given
    here from the converted [rawValue] on. *)
Definition setInternalVoltage (rawValue : Z) : M unit :=
  setSensorValue IBUS_SENSOR_INTERNAL_VOLTAGE (u16 rawValue).
Definition setExternalVoltage (rawValue : Z) : M unit :=
  setSensorValue IBUS_SENSOR_EXTERNAL_VOLTAGE (u16 rawValue).
Definition setTemperature (rawValue : Z) : M unit :=
  setSensorValue IBUS_SENSOR_TEMPERATURE (u16 rawValue).
Definition setRPM (rpm : Z) : M unit :=
  setSensorValue IBUS_SENSOR_RPM rpm.

Fixpoint getNextAvailableAddress_loop (n : nat) (i : Z) (count : Z) : M Z :=
  match n with
  | O => mret count
  | S n' =>
      s ← sensor_at i;
      getNextAvailableAddress_loop n' (i + 1) (if hasValue s then u8 (count + 1) else count)
  end.

Definition getNextAvailableAddress : M Z :=
  getNextAvailableAddress_loop (Z.to_nat MAX_SENSORS) 0 0.

(** [validatePacket]. *)
Definition validatePacket (packet : list Z) : option bool :=
  p0 ← elem packet 0;
  (* Check packet length *)
  if negb (p0 =? 0x04) then Some false
  else
    (* Verify checksum *)
    p1 ← elem packet 1;
    let expectedChecksum := u16 (0xFFFF - (p0 + p1)) in
    p3 ← elem packet 3;
    p2 ← elem packet 2;
    let receivedChecksum := u16 (Z.lor (Z.shiftl p3 8) p2) in
    Some (expectedChecksum =? receivedChecksum).

Fixpoint calculateChecksum_loop (n : nat) (i : Z) (data : list Z) (sum : Z) : option Z :=
  match n with
  | O => Some sum
  | S n' =>
      d ← elem data i;
      calculateChecksum_loop n' (u8 (i + 1)) data (u16 (sum + d))
  end.

Definition calculateChecksum (data : list Z) (length : Z) : option Z :=
  sum ← calculateChecksum_loop (Z.to_nat length) 0 data 0;
  Some (u16 (0xFFFF - sum)).

Fixpoint sendPacket_loop (n : nat) (i : Z) (data : list Z) : M unit :=
  match n with
  | O => mret tt
  | S n' =>
      b ← pure (elem data i);
      with_serial (write b);;
      sendPacket_loop n' (u8 (i + 1)) data
  end.

Definition sendPacket (data : list Z) (length : Z) : M unit :=
  p ← get _serial;
  match p with
  | None => mret tt
  | Some _ =>
      (* Send immediately - no delays for timing-critical iBUS protocol *)
      sendPacket_loop (Z.to_nat length) 0 data;;
      (* Ensure transmission completes *)
      with_serial flush
  end.

Definition sendDiscoveryResponse (address : Z) : M unit :=
  (* Echo back the discovery packet exactly *)
  let response0 := 0x04 in
  let response1 := u8 (Z.lor 0x80 address) in  (* Command + address *)
  (* Calculate checksum *)
  let checksum := u16 (0xFFFF - (response0 + response1)) in
  let response2 := u8 (Z.land checksum 0xFF) in
  let response3 := u8 (Z.land (Z.shiftr checksum 8) 0xFF) in
  sendPacket [response0; response1; response2; response3] 4;;
  n ← get _responseCount;
  modify (set_responseCount (u32 (n + 1))).

Definition handleDiscoveryCommand (address : Z) : M unit :=
  (* Check if we have a sensor for this address *)
  present ← (if address <=? MAX_SENSORS
             then s ← sensor_at (address - 1); mret (hasValue s)
             else mret false);
  if (present : bool) then
    sendDiscoveryResponse address;;
    modify (set_anyDiscovered true);;
    d ← get _debug;
    when d (debugPrint " -> DISCOVERY ADDR:";;
            Serial_print [PrintDec address];;
            debugPrint " [SENT]")
  else
    d ← get _debug;
    when d (debugPrint " -> DISCOVERY ADDR:";;
            Serial_print [PrintDec address];;
            debugPrint " (no sensor)").

Definition sendTypeResponse (address : Z) : M unit :=
  absent ← (if address >? MAX_SENSORS
            then mret true
            else s ← sensor_at (address - 1); mret (negb (hasValue s)));
  if (absent : bool) then mret tt
  else
    let response0 := 0x06 in                       (* Packet length *)
    let response1 := u8 (Z.lor 0x90 address) in    (* Command + address *)
    s ← sensor_at (address - 1);
    let response2 := type s in                     (* Sensor type *)
    let response3 := 0x02 in                       (* Always 0x02 *)
    (* Calculate checksum *)
    checksum ← pure (calculateChecksum [response0; response1; response2; response3] 4);
    let response4 := u8 (Z.land checksum 0xFF) in
    let response5 := u8 (Z.land (Z.shiftr checksum 8) 0xFF) in
    sendPacket [response0; response1; response2; response3; response4; response5] 6;;
    n ← get _responseCount;
    modify (set_responseCount (u32 (n + 1)));;
    d ← get _debug;
    when d (debugPrint " -> TYPE ADDR:";;
            Serial_print [PrintDec address];;
            debugPrint " [SENT]").

Definition sendMeasurementResponse (address : Z) : M unit :=
  absent ← (if address >? MAX_SENSORS
            then mret true
            else s ← sensor_at (address - 1); mret (negb (hasValue s)));
  if (absent : bool) then mret tt
  else
    let response0 := 0x06 in                       (* Packet length *)
    let response1 := u8 (Z.lor 0xA0 address) in    (* Command + address *)
    s ← sensor_at (address - 1);
    let value := value s in
    let response2 := u8 (Z.land value 0xFF) in               (* Value low byte *)
    let response3 := u8 (Z.land (Z.shiftr value 8) 0xFF) in  (* Value high byte *)
    (* Calculate checksum *)
    checksum ← pure (calculateChecksum [response0; response1; response2; response3] 4);
    let response4 := u8 (Z.land checksum 0xFF) in
    let response5 := u8 (Z.land (Z.shiftr checksum 8) 0xFF) in
    sendPacket [response0; response1; response2; response3; response4; response5] 6;;
    n ← get _responseCount;
    modify (set_responseCount (u32 (n + 1)));;
    d ← get _debug;
    when d (debugPrint " -> MEASUREMENT ADDR:";;
            Serial_print [PrintDec address];;
            debugPrint " [SENT]").

(** The four reads that fill [uint8_t packet[4]]. *)
Fixpoint read_packet (n : nat) : M (list Z) :=
  match n with
  | O => mret []
  | S n' =>
      b ← with_serial read;
      rest ← read_packet n';
      mret (u8 b :: rest)
  end.

Definition handlePacket : M unit :=
  (* Read 4-byte packet *)
  packet ← read_packet 4;
  n ← get _packetCount;
  modify (set_packetCount (u32 (n + 1)));;
  d ← get _debug;
  when d (debugPrint "RX: ";; debugPrintHex packet 4);;
  (* Validate packet structure and checksum *)
  valid ← pure (validatePacket packet);
  when valid (
    p1 ← pure (elem packet 1);
    let command := Z.land p1 0xF0 in
    let address := Z.land p1 0x0F in
    (* Handle addresses 1-4 for our sensors *)
    when ((1 <=? address) && (address <=? 4)) (
      if command =? IBUS_CMD_DISCOVER then handleDiscoveryCommand address
      else if command =? IBUS_CMD_TYPE then sendTypeResponse address
      else if command =? IBUS_CMD_MEASUREMENT then sendMeasurementResponse address
      else mret tt));;
  d ← get _debug;
  when d (Serial_print [NewLine]);;
  (* Clear buffer AFTER processing *)
  clearSerialBuffer.

Definition update : M unit :=
  p ← get _serial;
  match p with
  | None => mret tt
  | Some q =>
      (* Check for incoming packets *)
      when (4 <=? available q) handlePacket
  end.

(** ** Running the library *)

(** A slot as the constructor leaves it. *)
Definition unused : Sensor := mkSensor 0xFF 0 false.

(** The state of a freshly constructed engine: what the constructor makes
    of the object's storage, whatever that held ([EveryIBus_ctor_fresh]). *)
Definition fresh (console : list ConsoleItem) : EveryIBus :=
  mkEveryIBus None (replicate (Z.to_nat MAX_SENSORS) unused) 0 false 0 0 false console.

(** What can happen to a constructed engine: a call of one of its public
    member functions, a call of [setSensorValue] (private in the header,
    the common body of the four setters), or the arrival of bytes at the
    transport. Arguments are converted to the parameter's type at the call. *)
Inductive Op : Type :=
| OpBegin (serial : HardwareSerial)
| OpUpdate
| OpSetInternalVoltage (rawValue : Z)
| OpSetExternalVoltage (rawValue : Z)
| OpSetTemperature (rawValue : Z)
| OpSetRPM (rpm : Z)
| OpSetSensorValue (sensorType rawValue : Z)
| OpSetDebug (enable : bool)
| OpReceive (bytes : list Z).

(** Bytes arriving on the wire join the receive buffer of the attached port. *)
Definition receive (bytes : list Z) : M unit :=
  modify (fun o =>
    match _serial o with
    | Some p => set_serial (Some (mkSerial (rx p ++ (u8 <$> bytes)) (tx p))) o
    | None => o
    end).

Definition run_op (op : Op) : M unit :=
  match op with
  | OpBegin serial => begin serial
  | OpUpdate => update
  | OpSetInternalVoltage rawValue => setInternalVoltage rawValue
  | OpSetExternalVoltage rawValue => setExternalVoltage rawValue
  | OpSetTemperature rawValue => setTemperature rawValue
  | OpSetRPM rpm => setRPM (u16 rpm)
  | OpSetSensorValue sensorType rawValue => setSensorValue (u8 sensorType) (u16 rawValue)
  | OpSetDebug enable => setDebug enable
  | OpReceive bytes => receive bytes
  end.

Fixpoint run_ops (ops : list Op) : M unit :=
  match ops with
  | [] => mret tt
  | op :: ops' => run_op op;; run_ops ops'
  end.

(** The final state of a computation. *)
Definition exec {A} (m : M A) (o : EveryIBus) : option EveryIBus := snd <$> m o.

(** [o] is a state of an engine that was constructed and then used. *)
Definition reachable (o : EveryIBus) : Prop :=
  exists console ops, exec (run_ops ops) (fresh console) = Some o.

(** ** Requests as the bus master builds them *)

(** The checksum of a request with header [length, cmdAddr]. *)
Definition request_checksum (length cmdAddr : Z) : Z :=
  (0xFFFF - (length + cmdAddr)) mod 65536.

(** The 4-byte frame [length, cmdAddr, checksum & 0xFF, checksum >> 8]. *)
Definition request_frame (length cmdAddr : Z) : list Z :=
  let checksum := request_checksum length cmdAddr in
  [length; cmdAddr; Z.land checksum 0xFF; Z.shiftr checksum 8].

(** Bit [j] of byte number [k] of a frame flipped. *)
Definition flip_bit (k : nat) (j : Z) (frame : list Z) : list Z :=
  alter (fun b => Z.lxor b (2 ^ j)) k frame.

(** The checksum of a response: 0xFFFF minus the sum of its bytes. *)
Definition response_checksum (bytes : list Z) : Z :=
  0xFFFF - foldr Z.add 0 bytes.

(** ** Vocabulary of the properties *)

(** A [Sensor] holds a [uint8_t] and a [uint16_t]. *)
Definition sensor_ok (s : Sensor) : Prop := is_u8 (type s) /\ is_u16 (value s).

(** The table has its [MAX_SENSORS] elements, each of them a [Sensor]. *)
Definition table_ok (o : EveryIBus) : Prop :=
  length (_sensors o) = Z.to_nat MAX_SENSORS /\ Forall sensor_ok (_sensors o).

(** The slot behind bus address [a]. *)
Definition slot (o : EveryIBus) (a : Z) : option Sensor :=
  _sensors o !! Z.to_nat (a - 1).

(** The slot behind bus address [a] holds a value. *)
Definition occupied (o : EveryIBus) (a : Z) : bool :=
  match slot o a with
  | Some s => hasValue s
  | None => false
  end.

(** Between [o] and [o'] exactly [bytes] were written to the transport. *)
Definition writes (o o' : EveryIBus) (bytes : list Z) : Prop :=
  exists p p', _serial o = Some p /\ _serial o' = Some p' /\ tx p' = tx p ++ bytes.

(** The transport of [o] is attached and holds [bytes] unread. *)
Definition receiving (o : EveryIBus) (bytes : list Z) : Prop :=
  exists p, _serial o = Some p /\ rx p = bytes.

(** What [handlePacket] does with the packet it has read, between its two
    diagnostic prints: the body of [if (validatePacket(packet)) { ... }].
    [handlePacket_dispatch] below shows that it is that part of
    [handlePacket], literally. *)
Definition dispatch (packet : list Z) : M unit :=
  valid ← pure (validatePacket packet);
  when valid (
    p1 ← pure (elem packet 1);
    let command := Z.land p1 0xF0 in
    let address := Z.land p1 0x0F in
    when ((1 <=? address) && (address <=? 4)) (
      if command =? IBUS_CMD_DISCOVER then handleDiscoveryCommand address
      else if command =? IBUS_CMD_TYPE then sendTypeResponse address
      else if command =? IBUS_CMD_MEASUREMENT then sendMeasurementResponse address
      else mret tt)).

(** The state with the unread bytes of the transport dropped. *)
Definition discard_input (o : EveryIBus) : EveryIBus :=
  match _serial o with
  | Some p => set_serial (Some (mkSerial [] (tx p))) o
  | None => o
  end.

(** The state with [bytes] written to the transport. *)
Definition transmit (bytes : list Z) (o : EveryIBus) : EveryIBus :=
  match _serial o with
  | Some p => set_serial (Some (mkSerial (rx p) (tx p ++ bytes))) o
  | None => o
  end.

(** What [dispatch] can do to the state: write a response, count it, and
    note the discovery; the console apart. *)
Definition answered (o o' : EveryIBus) : Prop :=
  exists c bytes n d,
    o' = set_Serial c (set_anyDiscovered d (set_responseCount n (transmit bytes o))).

(** The state with one more response counted. *)
Definition count_response (o : EveryIBus) : EveryIBus :=
  set_responseCount (u32 (_responseCount o + 1)) o.

(** The responses, byte by byte: the checksum is 0xFFFF minus the sum of
    the bytes before it, low byte first. *)
Definition with_checksum (bytes : list Z) : list Z :=
  let checksum := response_checksum bytes in
  bytes ++ [Z.land checksum 0xFF; Z.shiftr checksum 8].

Definition discovery_response (a : Z) : list Z :=
  with_checksum [0x04; Z.lor 0x80 a].
Definition type_response (a t : Z) : list Z :=
  with_checksum [0x06; Z.lor 0x90 a; t; 0x02].
Definition measurement_response (a v : Z) : list Z :=
  with_checksum [0x06; Z.lor 0xA0 a; Z.land v 0xFF; Z.shiftr v 8].

(** A computation that returns and touches nothing but the console. *)
Definition console_only (m : M unit) : Prop :=
  forall o, exists c, m o = Some (tt, set_Serial c o).

(** The state once [handlePacket] has taken its four bytes, leaving [rest]
    unread, and has counted the packet. *)
Definition taken (rest : list Z) (o : EveryIBus) : EveryIBus :=
  match _serial o with
  | Some p => set_packetCount (u32 (_packetCount o + 1))
                (set_serial (Some (mkSerial rest (tx p))) o)
  | None => o
  end.

(** The handler of a command. *)
Definition handler (cmd a : Z) : M unit :=
  if cmd =? IBUS_CMD_DISCOVER then handleDiscoveryCommand a
  else if cmd =? IBUS_CMD_TYPE then sendTypeResponse a
  else if cmd =? IBUS_CMD_MEASUREMENT then sendMeasurementResponse a
  else mret tt.

(** The three commands. *)
Definition is_command (cmd : Z) : Prop :=
  cmd = IBUS_CMD_DISCOVER \/ cmd = IBUS_CMD_TYPE \/ cmd = IBUS_CMD_MEASUREMENT.

(** An engine on the bench: RPM 4294 registered first, then a temperature
    of raw value 0x10E8, so that they answer at addresses 1 and 2; the
    transport is attached, and [input] waits in it. *)
Definition bench (input : list Z) : EveryIBus :=
  mkEveryIBus (Some (mkSerial input []))
    [mkSensor IBUS_SENSOR_RPM 4294 true; mkSensor IBUS_SENSOR_TEMPERATURE 0x10E8 true;
     unused; unused]
    0 false 0 0 false [].

(** ** Vocabulary of the registry *)

(** The first slot that passes a test, with its index. *)
Definition find_slot (test : Sensor -> bool) (l : list Sensor) : option (nat * Sensor) :=
  list_find (fun s => test s = true) l.

(** The tests of the two loops of [setSensorValue]. *)
Definition holds (T : Z) (s : Sensor) : bool := hasValue s && (type s =? T).
Definition free (s : Sensor) : bool := negb (hasValue s).

(** The registry contract in the words of its description: if a slot with
    this type exists, overwrite its value; else occupy the first unoccupied
    slot, in index order; with no free slot, do nothing. *)
Definition register (T v : Z) (l : list Sensor) : list Sensor :=
  match find_slot (holds T) l with
  | Some (i, s) => <[i := set_value v s]> l
  | None =>
      match find_slot free l with
      | Some (j, _) => <[j := mkSensor T v true]> l
      | None => l
      end
  end.

(** At most one occupied slot has a given type. *)
Definition distinct_types (l : list Sensor) : Prop :=
  forall i j si sj,
    l !! i = Some si -> l !! j = Some sj ->
    hasValue si = true -> hasValue sj = true -> type si = type sj -> i = j.

(** Exactly one occupied slot has type [T]: it is slot [i], with value [v]. *)
Definition only_slot (T : Z) (i : nat) (v : Z) (l : list Sensor) : Prop :=
  (exists s, l !! i = Some s /\ hasValue s = true /\ type s = T /\ value s = v) /\
  forall j s, l !! j = Some s -> hasValue s = true -> type s = T -> j = i.

(** The occupied slots are the first [n]. *)
Definition occupied_prefix (n : nat) (l : list Sensor) : Prop :=
  forall i s, l !! i = Some s -> hasValue s = bool_decide (i < n)%nat.

(** The sensor type that an operation registers, if it is a registration. *)
Definition op_type (op : Op) : option Z :=
  match op with
  | OpSetInternalVoltage _ => Some IBUS_SENSOR_INTERNAL_VOLTAGE
  | OpSetExternalVoltage _ => Some IBUS_SENSOR_EXTERNAL_VOLTAGE
  | OpSetTemperature _ => Some IBUS_SENSOR_TEMPERATURE
  | OpSetRPM _ => Some IBUS_SENSOR_RPM
  | OpSetSensorValue sensorType _ => Some (u8 sensorType)
  | _ => None
  end.

(** The distinct types of a sequence of registrations, in the order of
    their first registration. *)
Definition first_seen (seen : list Z) (T : Z) : list Z :=
  if decide (T ∈ seen) then seen else seen ++ [T].
Definition distinct (ts : list Z) : list Z := foldl first_seen [] ts.
Definition registered (ops : list Op) : list Z := distinct (omap op_type ops).

(** [begin] is not among the operations. *)
Definition never_begun (ops : list Op) : Prop :=
  Forall (fun op => match op with OpBegin _ => False | _ => True end) ops.

(** The slots of a table agree with a list [D] of distinct types: slot [k]
    is occupied by the type [D !! k] if there is one, and is free if not. *)
Definition assigned (D : list Z) (l : list Sensor) : Prop :=
  forall k, (k < 4)%nat ->
    exists s, l !! k = Some s /\
      match D !! k with
      | Some T => hasValue s = true /\ type s = T
      | None => hasValue s = false
      end.

(** An engine with all four slots taken, by the four setters of the
    public interface. *)
Definition full_bench : EveryIBus :=
  mkEveryIBus None
    [mkSensor IBUS_SENSOR_RPM 4294 true; mkSensor IBUS_SENSOR_TEMPERATURE 611 true;
     mkSensor IBUS_SENSOR_INTERNAL_VOLTAGE 508 true;
     mkSensor IBUS_SENSOR_EXTERNAL_VOLTAGE 1241 true]
    0 false 0 0 false [].

(** ** Vocabulary of the further properties *)

(** What the source does with a packet, as a function of the state: a valid
    request for one of the three commands at an occupied address in 1..4 is
    answered and counted, a DISCOVER request also noted; everything else
    leaves the state alone. *)
Definition respond (packet : list Z) (o : EveryIBus) : EveryIBus :=
  match validatePacket packet, elem packet 1 with
  | Some true, Some p1 =>
      let command := Z.land p1 0xF0 in
      let address := Z.land p1 0x0F in
      if (1 <=? address) && (address <=? 4) then
        match slot o address with
        | Some s =>
            if hasValue s then
              if command =? IBUS_CMD_DISCOVER then
                set_anyDiscovered true
                  (count_response (transmit (discovery_response address) o))
              else if command =? IBUS_CMD_TYPE then
                count_response (transmit (type_response address (type s)) o)
              else if command =? IBUS_CMD_MEASUREMENT then
                count_response (transmit (measurement_response address (value s)) o)
              else o
            else o
        | None => o
        end
      else o
  | _, _ => o
  end.

(** One polling step as a function of the state: with four bytes waiting,
    they are taken and counted, the packet is answered, and the rest of the
    input is dropped; with fewer, or without a transport, nothing happens. *)
Definition protocol_step (o : EveryIBus) : EveryIBus :=
  match _serial o with
  | Some p =>
      match rx p with
      | b0 :: b1 :: b2 :: b3 :: rest =>
          discard_input (respond [u8 b0; u8 b1; u8 b2; u8 b3] (taken rest o))
      | _ => o
      end
  | None => o
  end.

(** The state without its diagnostics: the switch off, the console blank. *)
Definition quiet (o : EveryIBus) : EveryIBus := set_Serial [] (set_debug false o).

(** A frame as it goes over the wire: bytes, the first of which is the
    number of bytes, the last two of which are the checksum of the others,
    low byte first. *)
Definition sum_bytes (bytes : list Z) : Z := foldr Z.add 0 bytes.
Definition is_frame (bytes : list Z) : bool :=
  let n := length bytes in
  forallb (fun b => (0 <=? b) && (b <? 256)) bytes &&
  (hd 0 bytes =? Z.of_nat n) &&
  match drop (n - 2) bytes with
  | [lo; hi] => hi * 256 + lo =? 0xFFFF - sum_bytes (take (n - 2) bytes)
  | _ => false
  end.

(** The number of occupied slots of a table. *)
Definition occupied_count (l : list Sensor) : nat :=
  length (filter (fun s => hasValue s = true) l).

(** An operation of the public interface (or the wire): anything but a
    direct call of the private [setSensorValue]. *)
Definition public (op : Op) : Prop :=
  match op with OpSetSensorValue _ _ => False | _ => True end.

(** The value that a registration stores. *)
Definition op_value (op : Op) : option Z :=
  match op with
  | OpSetInternalVoltage r | OpSetExternalVoltage r | OpSetTemperature r
  | OpSetRPM r | OpSetSensorValue _ r => Some (u16 r)
  | _ => None
  end.

(** A computation that, with the diagnostics switched off, leaves the
    switch off and the console as it was. *)
Definition muted {A} (m : M A) : Prop :=
  forall o a o', _debug o = false -> m o = Some (a, o') ->
    _debug o' = false /\ Serial o' = Serial o.

(** Diagnostics are not switched on by an operation. *)
Definition keeps_quiet (op : Op) : Prop :=
  match op with OpSetDebug true => False | _ => True end.

(** The operation is a call of [setDebug]. *)
Definition is_setDebug (op : Op) : bool :=
  match op with OpSetDebug _ => true | _ => false end.

(** The operations of a history that are not calls of [setDebug]. *)
Definition without_setDebug (ops : list Op) : list Op :=
  filter (fun op => is_setDebug op = false) ops.

(** ** Bytes and words *)

Section Bytes.

Lemma land_0xFF (x : Z) : Z.land x 0xFF = x mod 256.
Proof. change 0xFF with (Z.ones 8). now rewrite Z.land_ones by lia. Qed.

Lemma shiftr_8 (x : Z) : Z.shiftr x 8 = x / 256.
Proof. now rewrite Z.shiftr_div_pow2 by lia. Qed.

Lemma shiftl_8 (x : Z) : Z.shiftl x 8 = x * 256.
Proof. now rewrite Z.shiftl_mul_pow2 by lia. Qed.

Lemma lor_disjoint (a b : Z) : Z.land a b = 0 -> Z.lor a b = a + b.
Proof.
  intros H. rewrite <- Z.lxor_lor by exact H.
  symmetry. now apply Z.add_nocarry_lxor.
Qed.

(** A high byte and a low byte put together. *)
Lemma lor_high_low (hi lo : Z) :
  0 <= lo < 256 -> Z.lor (Z.shiftl hi 8) lo = hi * 256 + lo.
Proof.
  intros Hlo. rewrite lor_disjoint; [now rewrite shiftl_8|].
  apply Z.bits_inj'. intros n Hn.
  rewrite Z.land_spec, Z.bits_0.
  destruct (Z.ltb_spec n 8).
  - rewrite Z.shiftl_spec_low by lia. reflexivity.
  - replace lo with (lo mod 2 ^ 8) by (apply Z.mod_small; lia).
    rewrite Z.mod_pow2_bits_high by lia. apply andb_false_r.
Qed.

(** One flipped bit gives another byte. *)
Lemma flip_byte (b j : Z) :
  0 <= b < 256 -> 0 <= j < 8 ->
  0 <= Z.lxor b (2 ^ j) < 256 /\ Z.lxor b (2 ^ j) <> b.
Proof.
  intros Hb Hj. split.
  - assert (H0 : 0 <= Z.lxor b (2 ^ j)) by (apply Z.lxor_nonneg; lia).
    split; [exact H0|].
    destruct (Z.eq_dec (Z.lxor b (2 ^ j)) 0) as [->|Hne]; [lia|].
    change 256 with (2 ^ 8). apply Z.log2_lt_pow2; [lia|].
    eapply Z.le_lt_trans; [apply Z.log2_lxor; lia|].
    apply Z.max_lub_lt.
    + destruct (Z.eq_dec b 0) as [->|]; [reflexivity|].
      apply Z.log2_lt_pow2; lia.
    + rewrite Z.log2_pow2; lia.
  - intros E.
    assert (H : Z.lxor b (Z.lxor b (2 ^ j)) = 0) by (rewrite E; apply Z.lxor_nilpotent).
    rewrite <- Z.lxor_assoc, Z.lxor_nilpotent, Z.lxor_0_l in H.
    pose proof (Z.pow_pos_nonneg 2 j). lia.
Qed.

Lemma u8_id (x : Z) : 0 <= x < 256 -> u8 x = x.
Proof. intros. unfold u8. apply Z.mod_small. lia. Qed.

Lemma u16_id (x : Z) : 0 <= x < 65536 -> u16 x = x.
Proof. intros. unfold u16. apply Z.mod_small. lia. Qed.

Lemma u8_range (x : Z) : 0 <= u8 x < 256.
Proof. unfold u8. apply Z.mod_pos_bound. lia. Qed.

Lemma u16_range (x : Z) : 0 <= u16 x < 65536.
Proof. unfold u16. apply Z.mod_pos_bound. lia. Qed.

(** The low and the high byte of a 16-bit word, as the code takes them. *)
Lemma low_byte (x : Z) : u8 (Z.land x 0xFF) = x mod 256.
Proof. rewrite land_0xFF. unfold u8. apply Z.mod_mod. lia. Qed.

Lemma high_byte (x : Z) :
  0 <= x < 65536 -> u8 (Z.land (Z.shiftr x 8) 0xFF) = x / 256.
Proof.
  intros Hx. rewrite land_0xFF, shiftr_8. unfold u8.
  rewrite Z.mod_mod by lia. apply Z.mod_small.
  Z.div_mod_to_equations. lia.
Qed.

(** Indexing with a constant. *)
Lemma elem_nat (data : list Z) (i : nat) : elem data (Z.of_nat i) = data !! i.
Proof.
  unfold elem, index. case_bool_decide as H.
  - now rewrite Nat2Z.id.
  - symmetry. apply lookup_ge_None. lia.
Qed.

End Bytes.

(** ** Request validation *)

Section Validation.

(** [validatePacket] on the four bytes of a request. *)
Lemma validatePacket_4 (p0 p1 p2 p3 : Z) :
  validatePacket [p0; p1; p2; p3] =
  Some (if p0 =? 0x04
        then u16 (0xFFFF - (p0 + p1)) =? u16 (Z.lor (Z.shiftl p3 8) p2)
        else false).
Proof.
  unfold validatePacket.
  rewrite (elem_nat _ 0), (elem_nat _ 1), (elem_nat _ 2), (elem_nat _ 3).
  cbn. destruct (p0 =? 4); reflexivity.
Qed.

(** A frame with two arbitrary checksum bytes is accepted exactly when it
    starts with 0x04 and the bytes spell 0xFFFF - (0x04 + cmdAddr). *)
Lemma validatePacket_bytes (p0 p1 lo hi : Z) :
  is_u8 p0 -> is_u8 p1 -> is_u8 lo -> is_u8 hi ->
  validatePacket [p0; p1; lo; hi] =
  Some (bool_decide (p0 = 0x04 /\ hi * 256 + lo = 0xFFFF - (0x04 + p1))).
Proof.
  unfold is_u8. intros H0 H1 Hlo Hhi.
  rewrite validatePacket_4, lor_high_low by exact Hlo.
  rewrite !u16_id by lia.
  destruct (Z.eqb_spec p0 4) as [->|Hne].
  - destruct (Z.eqb_spec (65535 - (4 + p1)) (hi * 256 + lo)) as [E|E];
      symmetry; f_equal; [apply bool_decide_eq_true|apply bool_decide_eq_false]; lia.
  - symmetry. f_equal. apply bool_decide_eq_false. lia.
Qed.

Lemma request_checksum_value (l c : Z) :
  is_u8 l -> is_u8 c -> request_checksum l c = 0xFFFF - (l + c).
Proof. unfold is_u8, request_checksum. intros. apply Z.mod_small. lia. Qed.

(** The two checksum bytes of a request are bytes, and spell the checksum. *)
Lemma request_frame_bytes (l c : Z) :
  is_u8 l -> is_u8 c ->
  exists lo hi,
    request_frame l c = [l; c; lo; hi] /\ is_u8 lo /\ is_u8 hi /\
    hi * 256 + lo = 0xFFFF - (l + c).
Proof.
  intros Hl Hc. unfold request_frame.
  rewrite request_checksum_value by assumption.
  rewrite land_0xFF, shiftr_8.
  eexists _, _. split; [reflexivity|].
  unfold is_u8 in *. repeat split; Z.div_mod_to_equations; lia.
Qed.

End Validation.

(** C1, as the code has it. A request built from the header
    [length, cmdAddr] with its checksum [0xFFFF - (length + cmdAddr)] in
    little-endian order is accepted by [validatePacket] exactly when
    [length] is 0x04: accepted for every [cmdAddr] when it is, refused when
    it is not. Whatever the header, the frame with any single bit of any
    of its four bytes flipped is refused. *)
Theorem validatePacket_request_frame (l c : Z) :
  is_u8 l -> is_u8 c ->
  validatePacket (request_frame l c) = Some (bool_decide (l = 0x04)) /\
  forall (k : nat) (j : Z), (k < 4)%nat -> 0 <= j < 8 ->
    validatePacket (flip_bit k j (request_frame l c)) = Some false.
Proof.
  intros Hl Hc.
  destruct (request_frame_bytes l c Hl Hc) as (lo & hi & -> & Hlo & Hhi & Hsum).
  split.
  - rewrite validatePacket_bytes by assumption.
    f_equal. apply bool_decide_ext. unfold is_u8 in *. lia.
  - intros k j Hk Hj.
    assert (Hflip : forall b, is_u8 b ->
              is_u8 (Z.lxor b (2 ^ j)) /\ Z.lxor b (2 ^ j) <> b)
      by (intros b Hb; apply flip_byte; assumption).
    destruct k as [|[|[|[|k]]]]; [| | | |lia]; cbn [flip_bit alter list_alter].
    + destruct (Hflip l Hl) as [Hr Hne].
      rewrite validatePacket_bytes by assumption.
      f_equal. apply bool_decide_eq_false. unfold is_u8 in *. lia.
    + destruct (Hflip c Hc) as [Hr Hne].
      rewrite validatePacket_bytes by assumption.
      f_equal. apply bool_decide_eq_false. unfold is_u8 in *. lia.
    + destruct (Hflip lo Hlo) as [Hr Hne].
      rewrite validatePacket_bytes by assumption.
      f_equal. apply bool_decide_eq_false. unfold is_u8 in *. lia.
    + destruct (Hflip hi Hhi) as [Hr Hne].
      rewrite validatePacket_bytes by assumption.
      f_equal. apply bool_decide_eq_false. unfold is_u8 in *. lia.
Qed.

Lemma validatePacket_request_frame_witness :
  is_u8 0x04 /\ is_u8 0x81 /\
  validatePacket (request_frame 0x04 0x81) = Some (bool_decide (0x04 = 0x04)) /\
  forall (k : nat) (j : Z), (k < 4)%nat -> 0 <= j < 8 ->
    validatePacket (flip_bit k j (request_frame 0x04 0x81)) = Some false.
Proof.
  split; [unfold is_u8; lia|]. split; [unfold is_u8; lia|].
  apply (validatePacket_request_frame 0x04 0x81); unfold is_u8; lia.
Defined.

(** C1 as stated fails: the correctly checksummed frame of the header
    [0x05, 0x81] is refused. *)
Lemma validatePacket_request_frame_length_5 :
  is_u8 0x05 /\ is_u8 0x81 /\
  request_frame 0x05 0x81 = [0x05; 0x81; 0x79; 0xFF] /\
  validatePacket (request_frame 0x05 0x81) = Some false.
Proof. repeat split; unfold is_u8; try lia. Qed.

(** ** Running member functions *)

Section Running.

Lemma run_bind {A B} (m : M A) (f : A -> M B) (o : EveryIBus) :
  (m ≫= f) o = match m o with Some (a, o') => f a o' | None => None end.
Proof. reflexivity. Qed.

Lemma bind_Some {A B} (m : M A) (f : A -> M B) (o o' : EveryIBus) (a : A) :
  m o = Some (a, o') -> (m ≫= f) o = f a o'.
Proof. intros H. now rewrite run_bind, H. Qed.

Lemma bind_get {A B} (f : EveryIBus -> A) (k : A -> M B) (o : EveryIBus) :
  (get f ≫= k) o = k (f o) o.
Proof. reflexivity. Qed.

Lemma bind_modify {B} (f : EveryIBus -> EveryIBus) (k : unit -> M B) (o : EveryIBus) :
  (modify f ≫= k) o = k tt (f o).
Proof. reflexivity. Qed.

Lemma bind_ret {A B} (a : A) (k : A -> M B) (o : EveryIBus) :
  (mret a ≫= k) o = k a o.
Proof. reflexivity. Qed.

Lemma bind_pure {A B} (x : option A) (a : A) (k : A -> M B) (o : EveryIBus) :
  x = Some a -> (pure x ≫= k) o = k a o.
Proof. now intros ->. Qed.

Lemma bind_assoc {A B C} (m : M A) (f : A -> M B) (g : B -> M C) (o : EveryIBus) :
  ((m ≫= f) ≫= g) o = (m ≫= fun a => f a ≫= g) o.
Proof. rewrite !run_bind. destruct (m o) as [[a o']|]; reflexivity. Qed.

Lemma gtb_false (a b : Z) : a <= b -> (a >? b) = false.
Proof. intros H. rewrite Z.gtb_ltb. now apply Z.ltb_ge. Qed.

Lemma leb_true (a b : Z) : a <= b -> (a <=? b) = true.
Proof. apply Z.leb_le. Qed.

Lemma set_Serial_same (o : EveryIBus) : set_Serial (Serial o) o = o.
Proof. now destruct o. Qed.

Lemma set_serial_same (o : EveryIBus) (p : HardwareSerial) :
  _serial o = Some p -> set_serial (Some p) o = o.
Proof. destruct o; cbn; now intros ->. Qed.

(** *** The transport *)

Lemma clearSerialBuffer_loop_attached (fuel : nat) (o : EveryIBus) (p : HardwareSerial) :
  _serial o = Some p -> (length (rx p) < fuel)%nat ->
  clearSerialBuffer_loop fuel o = Some (tt, set_serial (Some (mkSerial [] (tx p))) o).
Proof.
  revert o p. induction fuel as [|fuel IH]; intros o p Hp Hlen; [lia|].
  destruct o as [ser sens idx disc pc rc dbg con]. cbn in Hp. subst ser.
  destruct p as [[|b r] t]; [reflexivity|].
  cbn in Hlen. cbn [clearSerialBuffer_loop].
  rewrite run_bind. cbn.
  rewrite bool_decide_eq_true_2 by (unfold available; cbn [rx length]; lia).
  rewrite run_bind. cbn.
  rewrite (IH _ (mkSerial r t)); [reflexivity|reflexivity|cbn; lia].
Qed.

(** [clearSerialBuffer] returns, and leaves nothing unread. *)
Lemma clearSerialBuffer_run (o : EveryIBus) :
  clearSerialBuffer o =
  Some (tt, match _serial o with
            | Some p => set_serial (Some (mkSerial [] (tx p))) o
            | None => o
            end).
Proof.
  unfold clearSerialBuffer.
  rewrite (bind_Some _ _ o o (_serial o)) by reflexivity.
  destruct (_serial o) as [p|] eqn:Hp.
  - apply clearSerialBuffer_loop_attached; [exact Hp|cbn; lia].
  - cbn. rewrite (bind_Some _ _ o o (_serial o)) by reflexivity. now rewrite Hp.
Qed.

Lemma read_packet_4 (o : EveryIBus) (p : HardwareSerial) (b0 b1 b2 b3 : Z) (rest : list Z) :
  _serial o = Some p -> rx p = b0 :: b1 :: b2 :: b3 :: rest ->
  read_packet 4 o =
  Some ([u8 b0; u8 b1; u8 b2; u8 b3], set_serial (Some (mkSerial rest (tx p))) o).
Proof.
  destruct o, p. cbn. intros -> ->. reflexivity.
Qed.

Lemma sendPacket_loop_run (data done : list Z) (o : EveryIBus) (p : HardwareSerial) :
  _serial o = Some p -> (length done + length data <= 255)%nat ->
  sendPacket_loop (length data) (Z.of_nat (length done)) (done ++ data) o =
  Some (tt, set_serial (Some (mkSerial (rx p) (tx p ++ data))) o).
Proof.
  revert done o p. induction data as [|b data IH]; intros done o p Hp Hlen.
  - cbn. rewrite app_nil_r. now rewrite set_serial_same by (destruct p; exact Hp).
  - cbn [length sendPacket_loop].
    rewrite run_bind. unfold pure.
    rewrite elem_nat, lookup_app_r, Nat.sub_diag by lia. cbn [lookup list_lookup].
    rewrite run_bind. unfold with_serial. rewrite Hp. cbn [write].
    rewrite u8_id by (cbn [length] in Hlen; lia).
    replace (Z.of_nat (length done) + 1) with (Z.of_nat (length (done ++ [b])))
      by (rewrite length_app; cbn; lia).
    replace (done ++ b :: data) with ((done ++ [b]) ++ data)
      by (now rewrite <- app_assoc).
    rewrite (IH _ _ (mkSerial (rx p) (tx p ++ [b]))).
    + destruct o; cbn. now rewrite <- app_assoc.
    + now destruct o.
    + rewrite length_app. cbn [length] in *. lia.
Qed.

(** [sendPacket] with the array's own length writes the array. *)
Lemma sendPacket_run (data : list Z) (n : Z) (o : EveryIBus) (p : HardwareSerial) :
  _serial o = Some p -> n = Z.of_nat (length data) -> (length data <= 255)%nat ->
  sendPacket data n o =
  Some (tt, set_serial (Some (mkSerial (rx p) (tx p ++ data))) o).
Proof.
  intros Hp -> Hlen. unfold sendPacket. rewrite run_bind. cbn. rewrite Hp.
  rewrite run_bind, Nat2Z.id.
  pose proof (sendPacket_loop_run data [] o p Hp) as Hloop.
  change (Z.of_nat (length [])) with 0 in Hloop.
  cbn [length app Nat.add] in Hloop. rewrite Hloop by lia.
  unfold with_serial. cbn. now destruct o.
Qed.

(** Without a transport [sendPacket] does nothing. *)
Lemma sendPacket_detached (data : list Z) (n : Z) (o : EveryIBus) :
  _serial o = None -> sendPacket data n o = Some (tt, o).
Proof. intros Hp. unfold sendPacket. rewrite run_bind. cbn. now rewrite Hp. Qed.

End Running.

(** ** Diagnostics *)

Section Console.

Lemma set_Serial_twice (c c' : list ConsoleItem) (o : EveryIBus) :
  set_Serial c' (set_Serial c o) = set_Serial c' o.
Proof. reflexivity. Qed.

Lemma console_only_ret : console_only (mret tt).
Proof. intros o. exists (Serial o). now rewrite set_Serial_same. Qed.

Lemma console_only_print (items : list ConsoleItem) : console_only (Serial_print items).
Proof. intros o. eexists. reflexivity. Qed.

Lemma console_only_seq (m m' : M unit) :
  console_only m -> console_only m' -> console_only (m;; m').
Proof.
  intros Hm Hm' o. destruct (Hm o) as [c E].
  destruct (Hm' (set_Serial c o)) as [c' E'].
  exists c'. rewrite run_bind, E, E'. reflexivity.
Qed.

Lemma console_only_when (b : bool) (m : M unit) :
  console_only m -> console_only (when b m).
Proof. destruct b; [trivial|intros _; apply console_only_ret]. Qed.

Lemma console_only_debug (m : M unit) :
  console_only m -> console_only (d ← get _debug; when d m).
Proof.
  intros Hm o. rewrite (bind_Some _ _ o o (_debug o)) by reflexivity.
  now apply console_only_when.
Qed.

Lemma console_only_debugPrint (message : string) : console_only (debugPrint message).
Proof. apply console_only_debug, console_only_print. Qed.

Lemma console_only_debugPrintHex_loop (data done : list Z) (len : Z) :
  (length done + length data <= 255)%nat ->
  console_only (debugPrintHex_loop (length data) (Z.of_nat (length done)) (done ++ data) len).
Proof.
  revert done. induction data as [|b data IH]; intros done Hlen.
  - apply console_only_ret.
  - cbn [length debugPrintHex_loop] in *. intros o.
    rewrite run_bind. unfold pure.
    rewrite elem_nat, lookup_app_r, Nat.sub_diag by lia. cbn [lookup list_lookup].
    rewrite u8_id by lia.
    replace (Z.of_nat (length done) + 1) with (Z.of_nat (length (done ++ [b])))
      by (rewrite length_app; cbn; lia).
    replace (done ++ b :: data) with ((done ++ [b]) ++ data)
      by (now rewrite <- app_assoc).
    revert o.
    repeat (apply console_only_seq;
            [first [apply console_only_when|idtac]; apply console_only_print|]).
    apply IH. rewrite length_app. cbn [length]. lia.
Qed.

Lemma console_only_debugPrintHex (data : list Z) :
  (length data <= 255)%nat ->
  console_only (debugPrintHex data (Z.of_nat (length data))).
Proof.
  intros Hlen. apply console_only_debug. rewrite Nat2Z.id.
  apply (console_only_debugPrintHex_loop data []). cbn. lia.
Qed.

End Console.

(** ** The three responses *)

Section Responses.

Lemma sum_bytes_bound (data : list Z) :
  Forall is_u8 data -> 0 <= foldr Z.add 0 data <= 255 * Z.of_nat (length data).
Proof.
  induction 1 as [|b data Hb _ IH]; cbn [foldr length]; [lia|].
  unfold is_u8 in Hb. lia.
Qed.

Lemma calculateChecksum_loop_run (data done : list Z) (acc : Z) :
  Forall is_u8 data -> 0 <= acc -> acc + foldr Z.add 0 data < 65536 ->
  (length done + length data <= 255)%nat ->
  calculateChecksum_loop (length data) (Z.of_nat (length done)) (done ++ data) acc =
  Some (acc + foldr Z.add 0 data).
Proof.
  intros Hbytes. revert done acc.
  induction Hbytes as [|b data Hb Hbytes IH]; intros done acc Hacc Hsum Hlen.
  - cbn. f_equal. lia.
  - cbn [length calculateChecksum_loop foldr] in *.
    rewrite elem_nat, lookup_app_r, Nat.sub_diag by lia. cbn [lookup list_lookup mbind option_bind].
    pose proof (sum_bytes_bound data Hbytes) as Hbound. unfold is_u8 in Hb.
    rewrite u8_id, u16_id by lia.
    replace (Z.of_nat (length done) + 1) with (Z.of_nat (length (done ++ [b])))
      by (rewrite length_app; cbn; lia).
    replace (done ++ b :: data) with ((done ++ [b]) ++ data)
      by (now rewrite <- app_assoc).
    rewrite IH; [f_equal; lia|lia|lia|].
    rewrite length_app. cbn [length]. lia.
Qed.

(** [calculateChecksum] over a whole array of bytes. *)
Lemma calculateChecksum_run (data : list Z) (n : Z) :
  Forall is_u8 data -> n = Z.of_nat (length data) -> (length data <= 255)%nat ->
  calculateChecksum data n = Some (response_checksum data).
Proof.
  intros Hbytes -> Hlen. unfold calculateChecksum. rewrite Nat2Z.id.
  pose proof (sum_bytes_bound data Hbytes) as Hbound.
  pose proof (calculateChecksum_loop_run data [] 0 Hbytes) as Hloop.
  change (Z.of_nat (length [])) with 0 in Hloop. cbn [length app Nat.add] in Hloop.
  rewrite Hloop by lia. cbn [mbind option_bind]. unfold response_checksum.
  now rewrite u16_id by lia.
Qed.

Lemma response_checksum_range (data : list Z) :
  Forall is_u8 data -> (length data <= 255)%nat ->
  0 <= response_checksum data < 65536.
Proof.
  intros Hbytes Hlen. pose proof (sum_bytes_bound data Hbytes).
  unfold response_checksum. lia.
Qed.

(** The two checksum bytes as the code stores them. *)
Lemma checksum_bytes (ck : Z) :
  0 <= ck < 65536 ->
  [u8 (Z.land ck 0xFF); u8 (Z.land (Z.shiftr ck 8) 0xFF)] = [Z.land ck 0xFF; Z.shiftr ck 8].
Proof.
  intros Hck. rewrite low_byte, high_byte by exact Hck.
  now rewrite land_0xFF, shiftr_8.
Qed.

(** Command and address in one byte. *)
Lemma command_address (cmd a : Z) :
  cmd = 0x80 \/ cmd = 0x90 \/ cmd = 0xA0 -> 1 <= a <= 4 ->
  u8 (Z.lor cmd a) = Z.lor cmd a /\ is_u8 (Z.lor cmd a) /\
  Z.land (Z.lor cmd a) 0xF0 = cmd /\ Z.land (Z.lor cmd a) 0x0F = a.
Proof.
  intros Hcmd Ha.
  assert (Ha' : a = 1 \/ a = 2 \/ a = 3 \/ a = 4) by lia.
  unfold is_u8.
  destruct Hcmd as [-> | [-> | ->]]; destruct Ha' as [-> | [-> | [-> | ->]]];
    repeat split; first [reflexivity | vm_compute; intro; discriminate].
Qed.

Lemma sensor_at_slot (o : EveryIBus) (a : Z) (s : Sensor) :
  1 <= a <= 4 -> slot o a = Some s -> sensor_at (a - 1) o = Some (s, o).
Proof.
  intros Ha Hs. unfold sensor_at, index, slot, MAX_SENSORS in *.
  rewrite bool_decide_eq_true_2 by lia. now rewrite Hs.
Qed.

Lemma sendDiscoveryResponse_run (o : EveryIBus) (p : HardwareSerial) (a : Z) :
  _serial o = Some p -> 1 <= a <= 4 ->
  sendDiscoveryResponse a o = Some (tt, count_response (transmit (discovery_response a) o)).
Proof.
  intros Hp Ha. unfold sendDiscoveryResponse.
  destruct (command_address 0x80 a) as (Hu & Hb & _); [auto|exact Ha|].
  rewrite Hu. cbn zeta.
  assert (Hck : 0 <= 65535 - (4 + Z.lor 128 a) < 65536) by (unfold is_u8 in Hb; lia).
  rewrite u16_id by exact Hck.
  pose proof (checksum_bytes _ Hck) as Hbytes. injection Hbytes as -> ->.
  erewrite bind_Some by (eapply sendPacket_run; [exact Hp|reflexivity|cbn; lia]).
  rewrite bind_get. unfold modify.
  unfold count_response, transmit, discovery_response, with_checksum, response_checksum.
  rewrite Hp. cbn [foldr app].
  replace (65535 - (4 + (Z.lor 128 a + 0))) with (65535 - (4 + Z.lor 128 a)) by lia.
  now destruct o.
Qed.

Lemma handleDiscoveryCommand_occupied (o : EveryIBus) (p : HardwareSerial) (a : Z) (s : Sensor) :
  _serial o = Some p -> 1 <= a <= 4 -> slot o a = Some s -> hasValue s = true ->
  exists c, handleDiscoveryCommand a o =
    Some (tt, set_Serial c (set_anyDiscovered true
                (count_response (transmit (discovery_response a) o)))).
Proof.
  intros Hp Ha Hs Hv. unfold handleDiscoveryCommand.
  rewrite leb_true by (unfold MAX_SENSORS; lia).
  rewrite bind_assoc.
  erewrite bind_Some by (apply sensor_at_slot; eassumption).
  rewrite bind_ret, Hv.
  erewrite bind_Some by (eapply sendDiscoveryResponse_run; eassumption).
  rewrite bind_modify.
  match goal with |- context [?m ?o' = _] =>
    assert (Hc : console_only m);
    [|destruct (Hc o') as [c E]; exists c; exact E] end.
  apply console_only_debug.
  repeat apply console_only_seq;
    first [apply console_only_debugPrint|apply console_only_print].
Qed.

Lemma handleDiscoveryCommand_unoccupied (o : EveryIBus) (a : Z) (s : Sensor) :
  1 <= a <= 4 -> slot o a = Some s -> hasValue s = false ->
  exists c, handleDiscoveryCommand a o = Some (tt, set_Serial c o).
Proof.
  intros Ha Hs Hv. unfold handleDiscoveryCommand.
  rewrite leb_true by (unfold MAX_SENSORS; lia).
  rewrite bind_assoc.
  erewrite bind_Some by (apply sensor_at_slot; eassumption).
  rewrite bind_ret, Hv.
  match goal with |- context [?m ?o' = _] =>
    assert (Hc : console_only m);
    [|destruct (Hc o') as [c E]; exists c; exact E] end.
  apply console_only_debug.
  repeat apply console_only_seq;
    first [apply console_only_debugPrint|apply console_only_print].
Qed.

Lemma sendTypeResponse_occupied (o : EveryIBus) (p : HardwareSerial) (a : Z) (s : Sensor) :
  _serial o = Some p -> 1 <= a <= 4 -> slot o a = Some s -> hasValue s = true ->
  is_u8 (type s) ->
  exists c, sendTypeResponse a o =
    Some (tt, set_Serial c (count_response (transmit (type_response a (type s)) o))).
Proof.
  intros Hp Ha Hs Hv Ht. unfold sendTypeResponse.
  rewrite gtb_false by (unfold MAX_SENSORS; lia).
  rewrite bind_assoc.
  erewrite bind_Some by (apply sensor_at_slot; eassumption).
  rewrite bind_ret, Hv. cbn [negb].
  erewrite bind_Some by (apply sensor_at_slot; eassumption).
  destruct (command_address 0x90 a) as (Hu & Hb & _); [auto|exact Ha|].
  rewrite Hu. cbn zeta.
  assert (Hbytes : Forall is_u8 [6; Z.lor 144 a; type s; 2])
    by (repeat first [apply List.Forall_nil | apply List.Forall_cons];
        first [assumption | unfold is_u8; lia]).
  erewrite bind_pure by (apply calculateChecksum_run; [exact Hbytes|reflexivity|cbn; lia]).
  pose proof (checksum_bytes _ (response_checksum_range _ Hbytes ltac:(cbn; lia))) as Hck.
  injection Hck as -> ->.
  erewrite bind_Some by (eapply sendPacket_run; [exact Hp|reflexivity|cbn; lia]).
  rewrite bind_get, bind_modify.
  match goal with |- context [?m ?o' = _] =>
    assert (Hc : console_only m);
    [|destruct (Hc o') as [c E]; exists c; rewrite E] end.
  { apply console_only_debug.
    repeat apply console_only_seq;
      first [apply console_only_debugPrint|apply console_only_print]. }
  unfold count_response, transmit, type_response, with_checksum. rewrite Hp.
  now destruct o.
Qed.

Lemma sendTypeResponse_unoccupied (o : EveryIBus) (a : Z) (s : Sensor) :
  1 <= a <= 4 -> slot o a = Some s -> hasValue s = false ->
  sendTypeResponse a o = Some (tt, o).
Proof.
  intros Ha Hs Hv. unfold sendTypeResponse.
  rewrite gtb_false by (unfold MAX_SENSORS; lia).
  rewrite bind_assoc.
  erewrite bind_Some by (apply sensor_at_slot; eassumption).
  now rewrite bind_ret, Hv.
Qed.

Lemma sendMeasurementResponse_occupied (o : EveryIBus) (p : HardwareSerial) (a : Z) (s : Sensor) :
  _serial o = Some p -> 1 <= a <= 4 -> slot o a = Some s -> hasValue s = true ->
  is_u16 (value s) ->
  exists c, sendMeasurementResponse a o =
    Some (tt, set_Serial c (count_response (transmit (measurement_response a (value s)) o))).
Proof.
  intros Hp Ha Hs Hv Hval. unfold sendMeasurementResponse.
  rewrite gtb_false by (unfold MAX_SENSORS; lia).
  rewrite bind_assoc.
  erewrite bind_Some by (apply sensor_at_slot; eassumption).
  rewrite bind_ret, Hv. cbn [negb].
  erewrite bind_Some by (apply sensor_at_slot; eassumption).
  destruct (command_address 0xA0 a) as (Hu & Hb & _); [auto|exact Ha|].
  rewrite Hu. cbn zeta.
  pose proof (checksum_bytes _ Hval) as Hvb. injection Hvb as -> ->.
  assert (Hbytes : Forall is_u8 [6; Z.lor 160 a; Z.land (value s) 255; Z.shiftr (value s) 8]).
  { rewrite land_0xFF, shiftr_8. unfold is_u8, is_u16 in *.
    repeat first [apply List.Forall_nil | apply List.Forall_cons];
      first [lia | Z.div_mod_to_equations; lia]. }
  erewrite bind_pure by (apply calculateChecksum_run; [exact Hbytes|reflexivity|cbn; lia]).
  pose proof (checksum_bytes _ (response_checksum_range _ Hbytes ltac:(cbn; lia))) as Hck.
  injection Hck as -> ->.
  erewrite bind_Some by (eapply sendPacket_run; [exact Hp|reflexivity|cbn; lia]).
  rewrite bind_get, bind_modify.
  match goal with |- context [?m ?o' = _] =>
    assert (Hc : console_only m);
    [|destruct (Hc o') as [c E]; exists c; rewrite E] end.
  { apply console_only_debug.
    repeat apply console_only_seq;
      first [apply console_only_debugPrint|apply console_only_print]. }
  unfold count_response, transmit, measurement_response, with_checksum. rewrite Hp.
  now destruct o.
Qed.

Lemma sendMeasurementResponse_unoccupied (o : EveryIBus) (a : Z) (s : Sensor) :
  1 <= a <= 4 -> slot o a = Some s -> hasValue s = false ->
  sendMeasurementResponse a o = Some (tt, o).
Proof.
  intros Ha Hs Hv. unfold sendMeasurementResponse.
  rewrite gtb_false by (unfold MAX_SENSORS; lia).
  rewrite bind_assoc.
  erewrite bind_Some by (apply sensor_at_slot; eassumption).
  now rewrite bind_ret, Hv.
Qed.

End Responses.

(** ** One packet *)

Section Packet.

(** [dispatch] is the middle of [handlePacket]. *)
Lemma handlePacket_dispatch (o : EveryIBus) :
  handlePacket o =
  (packet ← read_packet 4;
   n ← get _packetCount;
   modify (set_packetCount (u32 (n + 1)));;
   d ← get _debug;
   when d (debugPrint "RX: ";; debugPrintHex packet 4);;
   dispatch packet;;
   d ← get _debug;
   when d (Serial_print [NewLine]);;
   clearSerialBuffer) o.
Proof.
  unfold handlePacket, dispatch.
  rewrite !(run_bind (read_packet 4)).
  destruct (read_packet 4 o) as [[packet o1]|]; [|reflexivity].
  rewrite !bind_get, !bind_modify, !bind_get.
  set (o2 := set_packetCount _ o1).
  set (dbg := when _ _).
  rewrite !(run_bind dbg).
  destruct (dbg o2) as [[u o3]|]; [|reflexivity].
  symmetry. apply bind_assoc.
Qed.

Lemma discard_input_run (o : EveryIBus) :
  clearSerialBuffer o = Some (tt, discard_input o).
Proof. apply clearSerialBuffer_run. Qed.

(** [handlePacket] around [dispatch]: four bytes are taken, the packet is
    counted, and after [dispatch] the rest of the input is dropped. *)
Lemma handlePacket_run (o : EveryIBus) (p : HardwareSerial) (b0 b1 b2 b3 : Z) (rest : list Z) :
  _serial o = Some p -> rx p = b0 :: b1 :: b2 :: b3 :: rest ->
  exists c1, forall o2,
    dispatch [u8 b0; u8 b1; u8 b2; u8 b3] (set_Serial c1 (taken rest o)) = Some (tt, o2) ->
    exists c2, handlePacket o = Some (tt, discard_input (set_Serial c2 o2)).
Proof.
  intros Hp Hrx. rewrite handlePacket_dispatch.
  assert (Hdbg : console_only
            (d ← get _debug;
             when d (debugPrint "RX: ";; debugPrintHex [u8 b0; u8 b1; u8 b2; u8 b3] 4))).
  { apply console_only_debug, console_only_seq; [apply console_only_debugPrint|].
    apply (console_only_debugPrintHex [u8 b0; u8 b1; u8 b2; u8 b3]). cbn. lia. }
  destruct (Hdbg (taken rest o)) as [c1 E1]. exists c1. intros o2 E2.
  assert (Hnl : console_only (d ← get _debug; when d (Serial_print [NewLine])))
    by apply console_only_debug, console_only_print.
  destruct (Hnl o2) as [c2 E3]. exists c2.
  erewrite bind_Some by (eapply read_packet_4; eassumption).
  rewrite bind_get, bind_modify.
  rewrite <- bind_assoc.
  unfold taken in E1, E2. rewrite Hp in E1, E2.
  replace (_packetCount (set_serial (Some (mkSerial rest (tx p))) o))
    with (_packetCount o) by reflexivity.
  erewrite bind_Some by exact E1.
  erewrite bind_Some by exact E2.
  rewrite <- bind_assoc.
  erewrite bind_Some by exact E3.
  apply discard_input_run.
Qed.

Lemma dispatch_invalid (packet : list Z) (o : EveryIBus) :
  validatePacket packet = Some false -> dispatch packet o = Some (tt, o).
Proof. intros H. unfold dispatch. now erewrite bind_pure by exact H. Qed.

(** A request for one of the three commands at an address in 1..4 is
    valid and sets off the handler of the command. *)
Lemma dispatch_request (cmd a : Z) (o : EveryIBus) :
  is_command cmd -> 1 <= a <= 4 ->
  dispatch (request_frame 0x04 (Z.lor cmd a)) o = handler cmd a o.
Proof.
  intros Hcmd Ha.
  destruct (command_address cmd a Hcmd Ha) as (_ & Hb & Hhi & Hlo).
  destruct (request_frame_bytes 4 (Z.lor cmd a)) as (lo & hi & -> & Hl & Hh & Hsum);
    [unfold is_u8; lia|exact Hb|].
  assert (Hvalid : validatePacket [4; Z.lor cmd a; lo; hi] = Some true).
  { rewrite validatePacket_bytes by (assumption || (unfold is_u8; lia)).
    f_equal. apply bool_decide_eq_true. split; [reflexivity|lia]. }
  unfold dispatch.
  erewrite bind_pure by exact Hvalid.
  cbn [when].
  erewrite bind_pure by (rewrite (elem_nat _ 1); reflexivity).
  cbn zeta. rewrite Hhi, Hlo.
  rewrite !leb_true by lia. reflexivity.
Qed.

Lemma request_frame_u8 (l c : Z) :
  is_u8 l -> is_u8 c -> u8 <$> request_frame l c = request_frame l c.
Proof.
  intros Hl Hc.
  destruct (request_frame_bytes l c Hl Hc) as (lo & hi & -> & Hlo & Hhi & _).
  cbn. now rewrite !u8_id by assumption.
Qed.

(** [handlePacket] on a request for one of the three commands. *)
Lemma handlePacket_request (o : EveryIBus) (cmd a : Z) (rest : list Z) :
  receiving o (request_frame 0x04 (Z.lor cmd a) ++ rest) ->
  is_command cmd -> 1 <= a <= 4 ->
  exists c1, forall o2,
    handler cmd a (set_Serial c1 (taken rest o)) = Some (tt, o2) ->
    exists c2, handlePacket o = Some (tt, discard_input (set_Serial c2 o2)).
Proof.
  intros (p & Hp & Hrx) Hcmd Ha.
  destruct (command_address cmd a Hcmd Ha) as (_ & Hb & _).
  assert (H4 : is_u8 4) by (unfold is_u8; lia).
  pose proof (request_frame_u8 4 (Z.lor cmd a) H4 Hb) as Hu8.
  destruct (request_frame_bytes 4 (Z.lor cmd a) H4 Hb) as (lo & hi & E & _).
  rewrite E in Hrx, Hu8. cbn [app] in Hrx. cbn [fmap list_fmap] in Hu8.
  destruct (handlePacket_run o p _ _ _ _ rest Hp Hrx) as [c1 H].
  exists c1. intros o2 Ho2. apply H.
  rewrite Hu8, <- E. now rewrite dispatch_request.
Qed.

Lemma table_ok_sensors (o o' : EveryIBus) :
  _sensors o' = _sensors o -> table_ok o -> table_ok o'.
Proof. unfold table_ok. now intros ->. Qed.

Lemma slot_exists (o : EveryIBus) (a : Z) :
  table_ok o -> 1 <= a <= 4 -> exists s, slot o a = Some s /\ sensor_ok s.
Proof.
  intros [Hlen Hall] Ha. unfold slot.
  destruct (lookup_lt_is_Some_2 (_sensors o) (Z.to_nat (a - 1))) as [s Hs];
    [rewrite Hlen; unfold MAX_SENSORS; lia|].
  exists s. split; [exact Hs|].
  eapply Forall_lookup_1; eassumption.
Qed.

Lemma occupied_slot (o : EveryIBus) (a : Z) (s : Sensor) :
  slot o a = Some s -> occupied o a = hasValue s.
Proof. unfold occupied. now intros ->. Qed.

Lemma transmit_nothing (o : EveryIBus) : transmit [] o = o.
Proof.
  unfold transmit. destruct o as [[[r t]|] ? ? ? ? ? ? ?]; cbn; [|reflexivity].
  now rewrite app_nil_r.
Qed.

Lemma answered_console (c : list ConsoleItem) (o : EveryIBus) :
  answered o (set_Serial c o).
Proof.
  exists c, [], (_responseCount o), (_anyDiscovered o).
  rewrite transmit_nothing. now destruct o.
Qed.

Lemma answered_response (c : list ConsoleItem) (bytes : list Z) (o : EveryIBus) :
  answered o (set_Serial c (count_response (transmit bytes o))).
Proof.
  exists c, bytes, (u32 (_responseCount o + 1)), (_anyDiscovered o).
  unfold count_response, transmit. now destruct o as [[q|] ? ? ? ? ? ? ?].
Qed.

Lemma answered_same (o : EveryIBus) : answered o o.
Proof. rewrite <- (set_Serial_same o) at 2. apply answered_console. Qed.

(** Every handler returns, and does no more than answer. *)
Lemma handler_answered (cmd a : Z) (o : EveryIBus) (p : HardwareSerial) :
  table_ok o -> _serial o = Some p -> 1 <= a <= 4 ->
  exists o', handler cmd a o = Some (tt, o') /\ answered o o'.
Proof.
  intros Hok Hp Ha.
  destruct (slot_exists o a Hok Ha) as (s & Hs & Ht & Hv).
  unfold handler.
  destruct (cmd =? IBUS_CMD_DISCOVER); [|destruct (cmd =? IBUS_CMD_TYPE);
    [|destruct (cmd =? IBUS_CMD_MEASUREMENT)]].
  - destruct (hasValue s) eqn:Hhas.
    + destruct (handleDiscoveryCommand_occupied o p a s Hp Ha Hs Hhas) as [c ->].
      eexists. split; [reflexivity|]. now eexists c, _, _, true.
    + destruct (handleDiscoveryCommand_unoccupied o a s Ha Hs Hhas) as [c ->].
      eexists. split; [reflexivity|]. apply answered_console.
  - destruct (hasValue s) eqn:Hhas.
    + destruct (sendTypeResponse_occupied o p a s Hp Ha Hs Hhas Ht) as [c ->].
      eexists. split; [reflexivity|].
      apply answered_response.
    + rewrite (sendTypeResponse_unoccupied o a s Ha Hs Hhas).
      eexists. split; [reflexivity|]. apply answered_same.
  - destruct (hasValue s) eqn:Hhas.
    + destruct (sendMeasurementResponse_occupied o p a s Hp Ha Hs Hhas Hv) as [c ->].
      eexists. split; [reflexivity|].
      apply answered_response.
    + rewrite (sendMeasurementResponse_unoccupied o a s Ha Hs Hhas).
      eexists. split; [reflexivity|]. apply answered_same.
  - eexists. split; [reflexivity|]. apply answered_same.
Qed.

(** So does [dispatch], whatever the four bytes are. *)
Lemma dispatch_answered (b0 b1 b2 b3 : Z) (o : EveryIBus) (p : HardwareSerial) :
  table_ok o -> _serial o = Some p ->
  exists o', dispatch [b0; b1; b2; b3] o = Some (tt, o') /\ answered o o'.
Proof.
  intros Hok Hp. unfold dispatch.
  rewrite validatePacket_4.
  match goal with |- context [pure (Some ?b)] => destruct b end;
    erewrite bind_pure by reflexivity; cbn [when].
  - erewrite bind_pure by (rewrite (elem_nat _ 1); reflexivity). cbn zeta.
    destruct ((1 <=? Z.land b1 15) && (Z.land b1 15 <=? 4)) eqn:Haddr; cbn [when].
    + apply andb_prop in Haddr as [H1 H4].
      apply Z.leb_le in H1, H4.
      apply (handler_answered _ _ o p Hok Hp). lia.
    + eexists. split; [reflexivity|]. apply answered_same.
  - eexists. split; [reflexivity|]. apply answered_same.
Qed.

(** [handlePacket] returns on every input, and this is all it can do. *)
Lemma handlePacket_answered (o : EveryIBus) (b0 b1 b2 b3 : Z) (rest : list Z) :
  table_ok o -> receiving o (b0 :: b1 :: b2 :: b3 :: rest) ->
  exists c bytes n d,
    handlePacket o =
    Some (tt, discard_input (set_Serial c (set_anyDiscovered d (set_responseCount n
                (transmit bytes (taken rest o)))))).
Proof.
  intros Hok (p & Hp & Hrx).
  destruct (handlePacket_run o p b0 b1 b2 b3 rest Hp Hrx) as [c1 Hrun].
  destruct (dispatch_answered (u8 b0) (u8 b1) (u8 b2) (u8 b3)
              (set_Serial c1 (taken rest o)) (mkSerial rest (tx p)))
    as (o2 & Hd & c & bytes & n & d & ->).
  - apply (table_ok_sensors o); [|exact Hok].
    unfold taken. rewrite Hp. reflexivity.
  - unfold taken. rewrite Hp. reflexivity.
  - destruct (Hrun _ Hd) as [c2 ->].
    exists c2, bytes, n, d. f_equal. f_equal.
    unfold taken, transmit. rewrite Hp. now destruct o.
Qed.

End Packet.

(** ** The protocol, request by request *)

(** Projections of the states that the lemmas above build. *)
Ltac fields o :=
  unfold writes, count_response, transmit, taken, discard_input in *;
  destruct o; cbn in *; simplify_eq; cbn.

Lemma bench_ok (input : list Z) : table_ok (bench input).
Proof.
  split; [reflexivity|].
  repeat first [apply List.Forall_nil | apply List.Forall_cons];
    split; vm_compute; split; congruence.
Qed.

Lemma bench_reachable (input : list Z) :
  Forall is_u8 input -> reachable (bench input).
Proof.
  intros Hin. exists [].
  exists [OpSetRPM 4294; OpSetTemperature 0x10E8; OpBegin (mkSerial [] []); OpReceive input].
  assert (E : u8 <$> input = input).
  { induction Hin as [|b l Hb _ IH]; [reflexivity|].
    cbn. rewrite u8_id by exact Hb. now f_equal. }
  unfold exec, run_ops.
  do 3 (erewrite bind_Some by (vm_compute; reflexivity)).
  rewrite run_bind. unfold receive, modify. cbn. now rewrite E.
Qed.

(** C2. A valid DISCOVER request for an address [a] in 1..4 makes
    [handlePacket] write nothing when slot [a - 1] is unoccupied; when the
    slot is occupied it writes exactly the four bytes
    [0x04, 0x80|a, chkLo, chkHi] of the checksum [0xFFFF - (0x04 + (0x80|a))],
    low byte first, and the engine has been discovered. *)
Theorem handlePacket_discover (o : EveryIBus) (a : Z) (rest : list Z) :
  table_ok o -> 1 <= a <= 4 ->
  receiving o (request_frame 0x04 (Z.lor IBUS_CMD_DISCOVER a) ++ rest) ->
  exists o', handlePacket o = Some (tt, o') /\
    if occupied o a
    then (let checksum := 0xFFFF - (0x04 + Z.lor 0x80 a) in
          writes o o' [0x04; Z.lor 0x80 a; Z.land checksum 0xFF; Z.shiftr checksum 8]) /\
         _anyDiscovered o' = true
    else writes o o' [].
Proof.
  intros Hok Ha Hrx.
  destruct (handlePacket_request o IBUS_CMD_DISCOVER a rest Hrx) as [c1 Hrun];
    [left; reflexivity|exact Ha|].
  destruct Hrx as (p & Hp & _).
  destruct (slot_exists o a Hok Ha) as (s & Hs & _).
  rewrite (occupied_slot o a s Hs).
  set (o1 := set_Serial c1 (taken rest o)) in *.
  assert (Hp1 : _serial o1 = Some (mkSerial rest (tx p)))
    by (unfold o1, taken; rewrite Hp; reflexivity).
  assert (Hs1 : slot o1 a = Some s)
    by (unfold o1, taken; rewrite Hp; exact Hs).
  unfold handler in Hrun. cbn [Z.eqb IBUS_CMD_DISCOVER Pos.eqb] in Hrun.
  destruct (hasValue s) eqn:Hhas.
  - destruct (handleDiscoveryCommand_occupied o1 _ a s Hp1 Ha Hs1 Hhas) as [c E].
    destruct (Hrun _ E) as [c2 ->].
    eexists. split; [reflexivity|].
    unfold discovery_response, with_checksum, response_checksum. cbn [foldr app].
    replace (Z.lor 128 a + 0) with (Z.lor 128 a) by lia.
    subst o1. split; [exists p|]; fields o; eauto.
  - destruct (handleDiscoveryCommand_unoccupied o1 a s Ha Hs1 Hhas) as [c E].
    destruct (Hrun _ E) as [c2 ->].
    eexists. split; [reflexivity|].
    subst o1. exists p. fields o. rewrite app_nil_r. eauto.
Qed.

Lemma handlePacket_discover_witness :
  exists o', handlePacket (bench (request_frame 0x04 (Z.lor IBUS_CMD_DISCOVER 1) ++ [0x04])) =
             Some (tt, o') /\
    writes (bench (request_frame 0x04 (Z.lor IBUS_CMD_DISCOVER 1) ++ [0x04])) o'
      [0x04; 0x81; 0x7A; 0xFF] /\
    _anyDiscovered o' = true.
Proof.
  apply (handlePacket_discover
           (bench (request_frame 0x04 (Z.lor IBUS_CMD_DISCOVER 1) ++ [0x04])) 1 [0x04]).
  - apply bench_ok.
  - lia.
  - eexists. split; reflexivity.
Defined.

(** C3. A valid MEASUREMENT request for an address [a] in 1..4 whose slot
    is occupied and holds the 16-bit value [v] makes [handlePacket] write
    exactly the six bytes [0x06, 0xA0|a, v&0xFF, v>>8, chkLo, chkHi], where
    the checksum is 0xFFFF minus the sum of the first four bytes, low byte
    first. In particular the value 0x10E8 at address 2 is answered with
    [0x06, 0xA2, 0xE8, 0x10, 0x5F, 0xFE]. *)
Theorem handlePacket_measurement (o : EveryIBus) (a v : Z) (s : Sensor) (rest : list Z) :
  table_ok o -> 1 <= a <= 4 ->
  receiving o (request_frame 0x04 (Z.lor IBUS_CMD_MEASUREMENT a) ++ rest) ->
  slot o a = Some s -> hasValue s = true -> value s = v ->
  exists o', handlePacket o = Some (tt, o') /\
    (let checksum := 0xFFFF - (0x06 + Z.lor 0xA0 a + Z.land v 0xFF + Z.shiftr v 8) in
     writes o o' [0x06; Z.lor 0xA0 a; Z.land v 0xFF; Z.shiftr v 8;
                  Z.land checksum 0xFF; Z.shiftr checksum 8]) /\
    (a = 2 -> v = 0x10E8 -> writes o o' [0x06; 0xA2; 0xE8; 0x10; 0x5F; 0xFE]).
Proof.
  intros Hok Ha Hrx Hs Hhas Hv.
  destruct (handlePacket_request o IBUS_CMD_MEASUREMENT a rest Hrx) as [c1 Hrun];
    [right; right; reflexivity|exact Ha|].
  destruct Hrx as (p & Hp & _).
  destruct (slot_exists o a Hok Ha) as (s' & Hs' & _ & Hval).
  rewrite Hs in Hs'. injection Hs' as <-.
  set (o1 := set_Serial c1 (taken rest o)) in *.
  assert (Hp1 : _serial o1 = Some (mkSerial rest (tx p)))
    by (unfold o1, taken; rewrite Hp; reflexivity).
  assert (Hs1 : slot o1 a = Some s)
    by (unfold o1, taken; rewrite Hp; exact Hs).
  unfold handler in Hrun. cbn [Z.eqb IBUS_CMD_DISCOVER IBUS_CMD_TYPE IBUS_CMD_MEASUREMENT Pos.eqb] in Hrun.
  destruct (sendMeasurementResponse_occupied o1 _ a s Hp1 Ha Hs1 Hhas Hval) as [c E].
  destruct (Hrun _ E) as [c2 ->].
  eexists. split; [reflexivity|].
  assert (Hw : let checksum := 0xFFFF - (0x06 + Z.lor 0xA0 a + Z.land v 0xFF + Z.shiftr v 8) in
     writes o (discard_input (set_Serial c2 (set_Serial c
                 (count_response (transmit (measurement_response a (value s)) o1)))))
       [0x06; Z.lor 0xA0 a; Z.land v 0xFF; Z.shiftr v 8;
        Z.land checksum 0xFF; Z.shiftr checksum 8]).
  { rewrite Hv. unfold measurement_response, with_checksum, response_checksum. cbn [foldr app].
    replace (6 + (Z.lor 160 a + (Z.land v 255 + (Z.shiftr v 8 + 0))))
      with (6 + Z.lor 160 a + Z.land v 255 + Z.shiftr v 8) by lia.
    subst o1. exists p. fields o. eauto. }
  split; [exact Hw|].
  intros -> ->. exact Hw.
Qed.

Lemma handlePacket_measurement_witness :
  exists o', handlePacket (bench (request_frame 0x04 (Z.lor IBUS_CMD_MEASUREMENT 2) ++ [0x04; 0xA1])) =
             Some (tt, o') /\
    writes (bench (request_frame 0x04 (Z.lor IBUS_CMD_MEASUREMENT 2) ++ [0x04; 0xA1])) o'
      [0x06; 0xA2; 0xE8; 0x10; 0x5F; 0xFE] /\
    (2 = 2 -> 0x10E8 = 0x10E8 ->
     writes (bench (request_frame 0x04 (Z.lor IBUS_CMD_MEASUREMENT 2) ++ [0x04; 0xA1])) o'
       [0x06; 0xA2; 0xE8; 0x10; 0x5F; 0xFE]).
Proof.
  apply (handlePacket_measurement
           (bench (request_frame 0x04 (Z.lor IBUS_CMD_MEASUREMENT 2) ++ [0x04; 0xA1]))
           2 0x10E8 (mkSensor IBUS_SENSOR_TEMPERATURE 0x10E8 true) [0x04; 0xA1]).
  - apply bench_ok.
  - lia.
  - eexists. split; reflexivity.
  - reflexivity.
  - reflexivity.
  - reflexivity.
Defined.

(** C4. A valid TYPE request for an address [a] in 1..4 makes
    [handlePacket] write exactly the six bytes
    [0x06, 0x90|a, t, 0x02, chkLo, chkHi] when slot [a - 1] is occupied by a
    sensor of type [t], with the checksum 0xFFFF minus the sum of the first
    four bytes, low byte first; when the slot is unoccupied nothing is written. *)
Theorem handlePacket_type (o : EveryIBus) (a : Z) (s : Sensor) (rest : list Z) :
  table_ok o -> 1 <= a <= 4 ->
  receiving o (request_frame 0x04 (Z.lor IBUS_CMD_TYPE a) ++ rest) ->
  slot o a = Some s ->
  exists o', handlePacket o = Some (tt, o') /\
    if hasValue s
    then (let t := type s in
          let checksum := 0xFFFF - (0x06 + Z.lor 0x90 a + t + 0x02) in
          writes o o' [0x06; Z.lor 0x90 a; t; 0x02; Z.land checksum 0xFF; Z.shiftr checksum 8])
    else writes o o' [].
Proof.
  intros Hok Ha Hrx Hs.
  destruct (handlePacket_request o IBUS_CMD_TYPE a rest Hrx) as [c1 Hrun];
    [right; left; reflexivity|exact Ha|].
  destruct Hrx as (p & Hp & _).
  destruct (slot_exists o a Hok Ha) as (s' & Hs' & Ht & _).
  rewrite Hs in Hs'. injection Hs' as <-.
  set (o1 := set_Serial c1 (taken rest o)) in *.
  assert (Hp1 : _serial o1 = Some (mkSerial rest (tx p)))
    by (unfold o1, taken; rewrite Hp; reflexivity).
  assert (Hs1 : slot o1 a = Some s)
    by (unfold o1, taken; rewrite Hp; exact Hs).
  unfold handler in Hrun. cbn [Z.eqb IBUS_CMD_DISCOVER IBUS_CMD_TYPE Pos.eqb] in Hrun.
  destruct (hasValue s) eqn:Hhas.
  - destruct (sendTypeResponse_occupied o1 _ a s Hp1 Ha Hs1 Hhas Ht) as [c E].
    destruct (Hrun _ E) as [c2 ->].
    eexists. split; [reflexivity|].
    unfold type_response, with_checksum, response_checksum. cbn [foldr app].
    replace (6 + (Z.lor 144 a + (type s + (2 + 0))))
      with (6 + Z.lor 144 a + type s + 2) by lia.
    subst o1. exists p. fields o. eauto.
  - pose proof (sendTypeResponse_unoccupied o1 a s Ha Hs1 Hhas) as E.
    destruct (Hrun _ E) as [c2 ->].
    eexists. split; [reflexivity|].
    subst o1. exists p. fields o. rewrite app_nil_r. eauto.
Qed.

Lemma handlePacket_type_witness :
  exists o', handlePacket (bench (request_frame 0x04 (Z.lor IBUS_CMD_TYPE 1))) = Some (tt, o') /\
    writes (bench (request_frame 0x04 (Z.lor IBUS_CMD_TYPE 1))) o'
      [0x06; 0x91; 0x02; 0x02; 0x64; 0xFF].
Proof.
  apply (handlePacket_type (bench (request_frame 0x04 (Z.lor IBUS_CMD_TYPE 1))) 1
           (mkSensor IBUS_SENSOR_RPM 4294 true) []).
  - apply bench_ok.
  - lia.
  - eexists. split; reflexivity.
  - reflexivity.
Defined.

(** ** Frames that are not requests *)

(** C7, as the code has it. Four bytes that fail validation (the first is
    not 0x04, or the checksum does not match) make [handlePacket] write
    nothing and leave the response counter, the table and the discovery
    flag as they were; the packet counter, a [uint32_t], goes up by one
    modulo 2^32: by exactly one unless it was 0xFFFFFFFF. *)
Theorem handlePacket_invalid (o : EveryIBus) (b0 b1 b2 b3 : Z) (rest : list Z) :
  is_u8 b0 -> is_u8 b1 -> is_u8 b2 -> is_u8 b3 ->
  receiving o ([b0; b1; b2; b3] ++ rest) ->
  validatePacket [b0; b1; b2; b3] = Some false ->
  exists o', handlePacket o = Some (tt, o') /\
    writes o o' [] /\
    _responseCount o' = _responseCount o /\
    _sensors o' = _sensors o /\
    _anyDiscovered o' = _anyDiscovered o /\
    _packetCount o' = (_packetCount o + 1) mod 2 ^ 32 /\
    (0 <= _packetCount o < 0xFFFFFFFF -> _packetCount o' = _packetCount o + 1).
Proof.
  intros H0 H1 H2 H3 (p & Hp & Hrx) Hbad.
  destruct (handlePacket_run o p b0 b1 b2 b3 rest Hp Hrx) as [c1 Hrun].
  rewrite !u8_id in Hrun by assumption.
  destruct (Hrun _ (dispatch_invalid _ _ Hbad)) as [c2 ->].
  eexists. split; [reflexivity|].
  assert (Hmod : forall n, 0 <= n < 0xFFFFFFFF -> u32 (n + 1) = n + 1)
    by (intros n Hn; apply Z.mod_small; lia).
  split; [exists p|]; fields o; rewrite ?app_nil_r; eauto.
  repeat split; auto.
Qed.

Lemma handlePacket_invalid_witness :
  exists o', handlePacket (bench [0x05; 0x81; 0x79; 0xFF; 0x04]) = Some (tt, o') /\
    writes (bench [0x05; 0x81; 0x79; 0xFF; 0x04]) o' [] /\
    _responseCount o' = 0 /\
    _sensors o' = _sensors (bench []) /\
    _anyDiscovered o' = false /\
    _packetCount o' = 1 /\
    (0 <= 0 < 0xFFFFFFFF -> _packetCount o' = 1).
Proof.
  apply (handlePacket_invalid (bench [0x05; 0x81; 0x79; 0xFF; 0x04]) 0x05 0x81 0x79 0xFF [0x04]);
    try (unfold is_u8; lia).
  - eexists. split; reflexivity.
  - reflexivity.
Defined.

(** C7 as stated fails where the counter is full: the 4294967296th packet,
    here one with a wrong length byte, takes it from 0xFFFFFFFF to 0. *)
Lemma handlePacket_invalid_counter_wraps :
  validatePacket [0x05; 0x81; 0x79; 0xFF] = Some false /\
  _packetCount (set_packetCount 0xFFFFFFFF (bench [0x05; 0x81; 0x79; 0xFF])) = 0xFFFFFFFF /\
  exists o',
    handlePacket (set_packetCount 0xFFFFFFFF (bench [0x05; 0x81; 0x79; 0xFF])) = Some (tt, o') /\
    _packetCount o' = 0 /\
    _packetCount o' <> 0xFFFFFFFF + 1.
Proof.
  split; [reflexivity|]. split; [reflexivity|].
  eexists. split; [vm_compute; reflexivity|]. split; [reflexivity|discriminate].
Qed.

(** [update] with four bytes waiting is [handlePacket]. *)
Lemma update_handlePacket (o : EveryIBus) (p : HardwareSerial) :
  _serial o = Some p -> (4 <= length (rx p))%nat -> update o = handlePacket o.
Proof.
  intros Hp Hlen. unfold update. rewrite bind_get, Hp.
  unfold available. now rewrite leb_true by lia.
Qed.

(** [update] with fewer than four bytes waiting does nothing. *)
Lemma update_waiting (o : EveryIBus) (p : HardwareSerial) :
  _serial o = Some p -> (length (rx p) < 4)%nat -> update o = Some (tt, o).
Proof.
  intros Hp Hlen. unfold update. rewrite bind_get, Hp.
  unfold available.
  replace (4 <=? Z.of_nat (length (rx p))) with false; [reflexivity|].
  symmetry. apply Z.leb_gt. lia.
Qed.

(** C8. When at least four bytes wait in the transport, [update] returns
    and leaves no byte waiting: what came after the four bytes of the frame
    is discarded, whatever the frame was. *)
Theorem update_discards_input (o : EveryIBus) (p : HardwareSerial) :
  table_ok o -> _serial o = Some p -> (4 <= length (rx p))%nat ->
  exists o' p', update o = Some (tt, o') /\ _serial o' = Some p' /\ rx p' = [].
Proof.
  intros Hok Hp Hlen. rewrite (update_handlePacket o p Hp Hlen).
  destruct (rx p) as [|b0 [|b1 [|b2 [|b3 rest]]]] eqn:Hrx; cbn in Hlen; try lia.
  destruct (handlePacket_answered o b0 b1 b2 b3 rest Hok) as (c & bytes & n & d & ->);
    [exists p; split; assumption|].
  eexists. exists (mkSerial [] (tx p ++ bytes)). split; [reflexivity|].
  fields o. auto.
Qed.

Lemma update_discards_input_witness :
  exists o' p',
    update (bench (request_frame 0x04 (Z.lor IBUS_CMD_TYPE 1) ++ request_frame 0x04 (Z.lor IBUS_CMD_TYPE 2)))
      = Some (tt, o') /\
    _serial o' = Some p' /\ rx p' = [].
Proof.
  apply (update_discards_input
           (bench (request_frame 0x04 (Z.lor IBUS_CMD_TYPE 1) ++ request_frame 0x04 (Z.lor IBUS_CMD_TYPE 2)))
           (mkSerial (request_frame 0x04 (Z.lor IBUS_CMD_TYPE 1) ++ request_frame 0x04 (Z.lor IBUS_CMD_TYPE 2)) [])).
  - apply bench_ok.
  - reflexivity.
  - cbn. lia.
Defined.

(** Without a transport [update] does nothing at all. *)
Lemma update_detached (o : EveryIBus) : _serial o = None -> update o = Some (tt, o).
Proof. intros Hp. unfold update. now rewrite bind_get, Hp. Qed.

(** ** The registry *)

Section Registry.

Lemma sensor_at_lookup (o : EveryIBus) (n : nat) (s : Sensor) :
  _sensors o !! n = Some s -> (n < 4)%nat -> sensor_at (Z.of_nat n) o = Some (s, o).
Proof.
  intros Hs Hn. unfold sensor_at, index, MAX_SENSORS.
  rewrite bool_decide_eq_true_2 by lia. now rewrite Nat2Z.id, Hs.
Qed.

Lemma sensor_update_run (o : EveryIBus) (n : nat) (s : Sensor) (f : Sensor -> Sensor) :
  _sensors o !! n = Some s -> (n < 4)%nat ->
  sensor_update (Z.of_nat n) f o = Some (tt, set_sensors (<[n := f s]> (_sensors o)) o).
Proof.
  intros Hs Hn. unfold sensor_update.
  erewrite bind_Some by (apply sensor_at_lookup; eassumption).
  unfold modify. now rewrite Nat2Z.id.
Qed.

(** A loop over the table that looks for the first slot passing [test]
    and leaves the function from there with [hit]. *)
Lemma for_loop_scan {R} (test : Sensor -> bool) (hit : Z -> M (option R))
    (rest done : list Sensor) (o : EveryIBus) :
  _sensors o = done ++ rest -> (length (done ++ rest) <= 4)%nat ->
  (forall i o', match hit i o' with Some (None, _) => False | _ => True end) ->
  for_loop (length rest) (Z.of_nat (length done))
    (fun i => s ← sensor_at i; if test s then hit i else mret None) o =
  match find_slot test rest with
  | Some (j, _) => hit (Z.of_nat (length done + j)) o
  | None => Some (None, o)
  end.
Proof.
  intros Hsens Hlen Hhit. revert done Hsens Hlen.
  induction rest as [|s rest IH]; intros done Hsens Hlen; [reflexivity|].
  cbn [length for_loop]. rewrite bind_assoc.
  rewrite length_app in Hlen. cbn [length] in Hlen.
  erewrite bind_Some; cycle 1.
  { apply sensor_at_lookup; [|lia]. rewrite Hsens. apply list_lookup_middle. reflexivity. }
  unfold find_slot. cbn [list_find].
  destruct (test s) eqn:Htest.
  - rewrite decide_True by reflexivity. rewrite Nat.add_0_r, run_bind.
    specialize (Hhit (Z.of_nat (length done)) o).
    destruct (hit (Z.of_nat (length done)) o) as [[[r|] o']|]; [reflexivity|contradiction|reflexivity].
  - rewrite decide_False by discriminate. rewrite bind_ret.
    replace (Z.of_nat (length done) + 1) with (Z.of_nat (length (done ++ [s])))
      by (rewrite length_app; cbn; lia).
    rewrite IH; [|now rewrite <- app_assoc|rewrite <- app_assoc, length_app; cbn; lia].
    unfold find_slot.
    destruct (list_find _ rest) as [[j x]|]; cbn; [|reflexivity].
    rewrite length_app. cbn [length]. do 2 f_equal. lia.
Qed.

(** [findSensorIndex] returns the index of the first occupied slot of the
    type, or -1. *)
Lemma findSensorIndex_run (o : EveryIBus) (T : Z) :
  length (_sensors o) = 4%nat ->
  findSensorIndex T o =
  Some (match find_slot (holds T) (_sensors o) with
        | Some (i, _) => Z.of_nat i
        | None => -1
        end, o).
Proof.
  intros Hlen. unfold findSensorIndex.
  change (Z.to_nat MAX_SENSORS) with 4%nat. rewrite <- Hlen.
  pose proof (for_loop_scan (holds T) (fun i => mret (Some i)) (_sensors o) [] o) as Hscan.
  change (Z.of_nat (length [])) with 0 in Hscan.
  unfold holds in *. cbn [length app Nat.add Z.of_nat] in Hscan.
  rewrite run_bind, Hscan by (reflexivity || lia || intros; exact I).
  destruct (find_slot _ _) as [[i s]|]; reflexivity.
Qed.

Lemma find_slot_Some (test : Sensor -> bool) (l : list Sensor) (i : nat) (s : Sensor) :
  find_slot test l = Some (i, s) <->
  l !! i = Some s /\ test s = true /\
  forall j y, l !! j = Some y -> (j < i)%nat -> test y = false.
Proof.
  unfold find_slot. rewrite list_find_Some.
  split; intros (H1 & H2 & H3); repeat split; try assumption.
  - intros j y Hj Hlt. specialize (H3 j y Hj Hlt). now destruct (test y).
  - intros j y Hj Hlt. rewrite (H3 j y Hj Hlt). discriminate.
Qed.

Lemma find_slot_None (test : Sensor -> bool) (l : list Sensor) :
  find_slot test l = None <-> forall j y, l !! j = Some y -> test y = false.
Proof.
  unfold find_slot. rewrite list_find_None, Forall_lookup.
  split; intros H j y Hj; specialize (H j y Hj); now destruct (test y).
Qed.

(** [setSensorValue] does to the table what [register] says. *)
Lemma setSensorValue_run (o : EveryIBus) (T v : Z) :
  length (_sensors o) = 4%nat ->
  exists c, setSensorValue T v o =
            Some (tt, set_Serial c (set_sensors (register T v (_sensors o)) o)).
Proof.
  intros Hlen. unfold setSensorValue, register.
  erewrite bind_Some by (apply findSensorIndex_run; exact Hlen).
  destruct (find_slot (holds T) (_sensors o)) as [[i s]|] eqn:Hfind.
  - apply find_slot_Some in Hfind as (Hi & _ & _).
    pose proof (lookup_lt_Some _ _ _ Hi) as Hlt. rewrite Hlen in Hlt.
    replace (Z.of_nat i =? -1) with false by (symmetry; apply Z.eqb_neq; lia).
    rewrite (sensor_update_run o i s) by assumption.
    exists (Serial o). now destruct o.
  - cbn [Z.eqb Pos.eqb].
    set (hit := fun i : Z =>
           sensor_update i (set_type T);; sensor_update i (set_value v);;
           sensor_update i (set_hasValue true);;
           d ← get _debug;
           when d (Serial_print [PrintStr "EveryIBus: Added sensor type "; PrintDec T;
                                 PrintStr " at index "; PrintDec i; NewLine]);;
           mret (Some tt)).
    assert (Hleaves : forall i o', match hit i o' with Some (None, _) => False | _ => True end).
    { intros i o'. unfold hit.
      repeat (rewrite run_bind;
              match goal with |- context [match ?m ?x with _ => _ end] =>
                destruct (m x) as [[? ?]|]; [|exact I] end).
      exact I. }
    pose proof (for_loop_scan free hit (_sensors o) [] o eq_refl ltac:(cbn; lia) Hleaves) as Hscan.
    change (Z.of_nat (length [])) with 0 in Hscan.
    unfold free, hit in Hscan. cbn [length app Nat.add Z.of_nat] in Hscan.
    change (Z.to_nat MAX_SENSORS) with 4%nat. rewrite <- Hlen.
    rewrite run_bind, Hscan. clear Hscan Hleaves hit.
    fold free.
    destruct (find_slot free (_sensors o)) as [[j s]|] eqn:Hfree.
    + apply find_slot_Some in Hfree as (Hj & _ & _).
      pose proof (lookup_lt_Some _ _ _ Hj) as Hlt.
      assert (Hlt4 : (j < 4)%nat) by (rewrite <- Hlen; exact Hlt).
      rewrite (bind_Some _ _ _ _ _ (sensor_update_run o j s _ Hj Hlt4)).
      erewrite bind_Some; cycle 1.
      { apply sensor_update_run; [|exact Hlt4]. cbn [_sensors set_sensors].
        now apply list_lookup_insert_eq. }
      erewrite bind_Some; cycle 1.
      { apply sensor_update_run; [|exact Hlt4]. cbn [_sensors set_sensors].
        apply list_lookup_insert_eq. now rewrite length_insert. }
      cbn [_sensors set_sensors]. rewrite !list_insert_insert_eq.
      rewrite bind_get.
      match goal with |- context [(when ?d ?m ≫= _) ?o'] =>
        destruct (console_only_when d m (console_only_print _) o') as [c E] end.
      rewrite (bind_Some _ _ _ _ _ E).
      exists c. now destruct o.
    + destruct (console_only_debug _ (console_only_print
                  [PrintStr "EveryIBus: Warning - No free sensor slots"; NewLine]) o) as [c E].
      exists c. rewrite E. now destruct o.
Qed.

End Registry.

(** ** Properties of [register] *)

Section Register.

Implicit Types (l : list Sensor) (s : Sensor) (T v : Z).

Lemma holds_true T s : holds T s = true <-> hasValue s = true /\ type s = T.
Proof. unfold holds. rewrite andb_true_iff, Z.eqb_eq. reflexivity. Qed.

Lemma holds_false T s : holds T s = false <-> ~ (hasValue s = true /\ type s = T).
Proof. rewrite <- holds_true. now destruct (holds T s). Qed.

Lemma free_true s : free s = true <-> hasValue s = false.
Proof. unfold free. now destruct (hasValue s). Qed.

(** The three ways of [register]. *)
Lemma register_cases T v l :
  (exists i s, find_slot (holds T) l = Some (i, s) /\
               register T v l = <[i := set_value v s]> l) \/
  (find_slot (holds T) l = None /\
   exists j s, find_slot free l = Some (j, s) /\
               register T v l = <[j := mkSensor T v true]> l) \/
  (find_slot (holds T) l = None /\ find_slot free l = None /\ register T v l = l).
Proof.
  unfold register.
  destruct (find_slot (holds T) l) as [[i s]|]; [left; eauto|right].
  destruct (find_slot free l) as [[j s]|]; [left; eauto|right; auto].
Qed.

Lemma register_length T v l : length (register T v l) = length l.
Proof.
  destruct (register_cases T v l) as [(i & s & _ & ->)|[(_ & j & s & _ & ->)|(_ & _ & ->)]];
    rewrite ?length_insert; reflexivity.
Qed.

Lemma register_sensor_ok T v l :
  is_u8 T -> is_u16 v -> Forall sensor_ok l -> Forall sensor_ok (register T v l).
Proof.
  intros HT Hv Hl.
  destruct (register_cases T v l) as [(i & s & Hf & ->)|[(_ & j & s & _ & ->)|(_ & _ & ->)]].
  - apply find_slot_Some in Hf as (Hi & _).
    apply Forall_insert; [exact Hl|].
    destruct (Forall_lookup_1 _ _ _ _ Hl Hi) as [Ht _]. now split.
  - apply Forall_insert; [exact Hl|]. now split.
  - exact Hl.
Qed.

(** An occupied slot stays occupied, with its type, at its index. *)
Lemma register_keeps T v l (i : nat) s :
  l !! i = Some s -> hasValue s = true ->
  exists s', register T v l !! i = Some s' /\ hasValue s' = true /\ type s' = type s.
Proof.
  intros Hi Hs. pose proof (lookup_lt_Some _ _ _ Hi) as Hlt.
  destruct (register_cases T v l) as [(k & x & Hf & ->)|[(_ & k & x & Hf & ->)|(_ & _ & ->)]].
  - apply find_slot_Some in Hf as (Hk & _).
    destruct (decide (k = i)) as [->|Hne].
    + rewrite list_lookup_insert_eq by exact Hlt.
      rewrite Hi in Hk. injection Hk as <-. eauto.
    + rewrite list_lookup_insert_ne by exact Hne. eauto.
  - apply find_slot_Some in Hf as (Hk & Hfree & _). apply free_true in Hfree.
    destruct (decide (k = i)) as [->|Hne].
    + rewrite Hi in Hk. injection Hk as <-. congruence.
    + rewrite list_lookup_insert_ne by exact Hne. eauto.
  - eauto.
Qed.

(** With every slot occupied by another type, nothing changes. *)
Lemma register_full T v l :
  (forall i s, l !! i = Some s -> hasValue s = true /\ type s <> T) ->
  register T v l = l.
Proof.
  intros Hfull.
  destruct (register_cases T v l) as [(i & s & Hf & _)|[(_ & j & s & Hf & _)|(_ & _ & ->)]].
  - apply find_slot_Some in Hf as (Hi & Hh & _). apply holds_true in Hh as [_ Ht].
    now destruct (Hfull i s Hi).
  - apply find_slot_Some in Hf as (Hj & Hfree & _). apply free_true in Hfree.
    destruct (Hfull j s Hj). congruence.
  - reflexivity.
Qed.

Lemma register_distinct T v l : distinct_types l -> distinct_types (register T v l).
Proof.
  intros Hd.
  destruct (register_cases T v l) as [(k & x & Hf & ->)|[(Hn & k & x & Hf & ->)|(_ & _ & ->)]];
    [| |exact Hd].
  - apply find_slot_Some in Hf as (Hk & _).
    intros i j si sj Hi Hj Hvi Hvj Ht.
    apply list_lookup_insert_Some in Hi as [(-> & <- & _)|(Hne & Hi)];
      apply list_lookup_insert_Some in Hj as [(E & <- & _)|(Hne' & Hj)];
      cbn in *; subst; eauto.
  - apply find_slot_Some in Hf as (Hk & _).
    pose proof (proj1 (find_slot_None _ _) Hn) as Hno.
    intros i j si sj Hi Hj Hvi Hvj Ht.
    apply list_lookup_insert_Some in Hi as [(-> & <- & _)|(Hne & Hi)];
      apply list_lookup_insert_Some in Hj as [(E & <- & _)|(Hne' & Hj)];
      cbn in *; subst; eauto.
    + specialize (Hno _ _ Hj). apply holds_false in Hno. destruct Hno. auto.
    + specialize (Hno _ _ Hi). apply holds_false in Hno. destruct Hno. auto.
Qed.

(** Where the type is found after a registration that had a place: at the
    index where it was found before, if it was; with the new value. *)
Lemma register_find T v l :
  find_slot (holds T) l <> None \/ find_slot free l <> None ->
  exists i s, find_slot (holds T) (register T v l) = Some (i, s) /\ value s = v /\
              forall i0 s0, find_slot (holds T) l = Some (i0, s0) -> i = i0.
Proof.
  intros Hroom.
  destruct (register_cases T v l) as [(k & x & Hf & ->)|[(Hn & k & x & Hf & ->)|(Hn & Hn' & _)]].
  - exists k, (set_value v x). split; [|split; [reflexivity|intros ? ? E; congruence]].
    apply find_slot_Some in Hf as (Hk & Hh & Hfirst).
    pose proof (lookup_lt_Some _ _ _ Hk) as Hlt.
    apply find_slot_Some. split; [now apply list_lookup_insert_eq|].
    split; [exact Hh|].
    intros j y Hj Hjk. rewrite list_lookup_insert_ne in Hj by lia. eauto.
  - exists k, (mkSensor T v true). split; [|split; [reflexivity|intros ? ? E; congruence]].
    apply find_slot_Some in Hf as (Hk & _).
    pose proof (lookup_lt_Some _ _ _ Hk) as Hlt.
    pose proof (proj1 (find_slot_None _ _) Hn) as Hno.
    apply find_slot_Some. split; [now apply list_lookup_insert_eq|].
    split; [apply holds_true; now split|].
    intros j y Hj Hjk. rewrite list_lookup_insert_ne in Hj by lia. eauto.
  - destruct Hroom; contradiction.
Qed.

(** A type that is found in a table of distinct types has one slot only. *)
Lemma found_only T l (i : nat) s :
  distinct_types l -> find_slot (holds T) l = Some (i, s) ->
  only_slot T i (value s) l.
Proof.
  intros Hd Hf. apply find_slot_Some in Hf as (Hi & Hh & _).
  apply holds_true in Hh as [Hv Ht].
  split; [exists s; auto|].
  intros j y Hj Hvy Hty. apply (Hd j i y s); congruence.
Qed.

Lemma filter_occupied_all l :
  (forall i s, l !! i = Some s -> hasValue s = true) ->
  filter (fun s => hasValue s = true) l = l.
Proof.
  induction l as [|x l IH]; intros Hall; [reflexivity|].
  rewrite filter_cons_True by apply (Hall 0%nat x eq_refl).
  f_equal. apply IH. intros i s Hi. apply (Hall (S i) s Hi).
Qed.

End Register.

(** ** Registration *)

(** C6. With all four slots occupied, [setSensorValue] for a type that no
    slot has returns and leaves the table as it was: the same four occupied
    slots, each with its type, value and occupancy. *)
Theorem setSensorValue_full (o : EveryIBus) (T v : Z) :
  length (_sensors o) = 4%nat ->
  (forall i s, _sensors o !! i = Some s -> hasValue s = true /\ type s <> T) ->
  exists o', setSensorValue T v o = Some (tt, o') /\
    _sensors o' = _sensors o /\
    length (filter (fun s => hasValue s = true) (_sensors o')) = 4%nat.
Proof.
  intros Hlen Hfull.
  destruct (setSensorValue_run o T v Hlen) as [c ->].
  rewrite (register_full T v _ Hfull).
  eexists. split; [reflexivity|]. split; [reflexivity|].
  cbn [_sensors set_Serial set_sensors].
  rewrite filter_occupied_all; [exact Hlen|].
  intros i s Hi. now destruct (Hfull i s Hi).
Qed.

Lemma setSensorValue_full_witness :
  exists o', setSensorValue 0x04 100 full_bench = Some (tt, o') /\
    _sensors o' = _sensors full_bench /\
    length (filter (fun s => hasValue s = true) (_sensors o')) = 4%nat.
Proof.
  apply (setSensorValue_full full_bench 0x04 100).
  - reflexivity.
  - intros [|[|[|[|i]]]] s Hi; cbn in Hi; try discriminate;
      injection Hi as <-; (split; [reflexivity|discriminate]).
Defined.

(** C5, as the code has it. On a table whose occupied slots have distinct
    types and in which the type [T] has a slot already or some slot is
    free, [setSensorValue T v1] followed by [setSensorValue T v2] leaves
    exactly one occupied slot of type [T]; it holds [v2], and
    [findSensorIndex T] gives the same index after the second call as
    after the first. *)
Theorem setSensorValue_twice (o : EveryIBus) (T v1 v2 : Z) :
  length (_sensors o) = 4%nat ->
  distinct_types (_sensors o) ->
  (exists i s, _sensors o !! i = Some s /\ (hasValue s = false \/ type s = T)) ->
  exists o1 o2 i,
    setSensorValue T v1 o = Some (tt, o1) /\
    setSensorValue T v2 o1 = Some (tt, o2) /\
    only_slot T i v2 (_sensors o2) /\
    findSensorIndex T o1 = Some (Z.of_nat i, o1) /\
    findSensorIndex T o2 = Some (Z.of_nat i, o2).
Proof.
  intros Hlen Hd (k & x & Hk & Hroom).
  assert (Hroom' : find_slot (holds T) (_sensors o) <> None \/
                   find_slot free (_sensors o) <> None).
  { destruct (hasValue x) eqn:Hx.
    - left. intros Hn. pose proof (proj1 (find_slot_None _ _) Hn _ _ Hk) as Hf.
      apply holds_false in Hf. destruct Hroom; [discriminate|auto].
    - right. intros Hn. pose proof (proj1 (find_slot_None _ _) Hn _ _ Hk) as Hf.
      unfold free in Hf. rewrite Hx in Hf. discriminate. }
  destruct (setSensorValue_run o T v1 Hlen) as [c1 E1].
  set (l1 := register T v1 (_sensors o)) in *.
  set (o1 := set_Serial c1 (set_sensors l1 o)) in *.
  assert (Hlen1 : length (_sensors o1) = 4%nat)
    by (cbn; unfold l1; now rewrite register_length).
  destruct (setSensorValue_run o1 T v2 Hlen1) as [c2 E2].
  change (_sensors o1) with l1 in E2.
  set (l2 := register T v2 l1) in *.
  set (o2 := set_Serial c2 (set_sensors l2 o1)) in *.
  destruct (register_find T v1 (_sensors o) Hroom') as (i & s1 & Hf1 & _ & _).
  fold l1 in Hf1.
  destruct (register_find T v2 l1) as (i' & s2 & Hf2 & Hv2 & Hsame);
    [left; congruence|].
  fold l2 in Hf2. rewrite (Hsame _ _ Hf1) in Hf2.
  exists o1, o2, i. split; [exact E1|]. split; [exact E2|].
  split; [|split].
  - rewrite <- Hv2. apply found_only; [|exact Hf2].
    unfold l2, l1. now do 2 apply register_distinct.
  - rewrite findSensorIndex_run by exact Hlen1.
    change (_sensors o1) with l1. now rewrite Hf1.
  - rewrite findSensorIndex_run by (cbn; unfold l2; rewrite register_length; exact Hlen1).
    change (_sensors o2) with l2. now rewrite Hf2.
Qed.

Lemma setSensorValue_twice_witness :
  exists o1 o2 i,
    setSensorValue IBUS_SENSOR_EXTERNAL_VOLTAGE 1241 (bench []) = Some (tt, o1) /\
    setSensorValue IBUS_SENSOR_EXTERNAL_VOLTAGE 1250 o1 = Some (tt, o2) /\
    only_slot IBUS_SENSOR_EXTERNAL_VOLTAGE i 1250 (_sensors o2) /\
    findSensorIndex IBUS_SENSOR_EXTERNAL_VOLTAGE o1 = Some (Z.of_nat i, o1) /\
    findSensorIndex IBUS_SENSOR_EXTERNAL_VOLTAGE o2 = Some (Z.of_nat i, o2).
Proof.
  apply (setSensorValue_twice (bench []) IBUS_SENSOR_EXTERNAL_VOLTAGE 1241 1250).
  - reflexivity.
  - intros [|[|[|[|i]]]] [|[|[|[|j]]]] si sj Hi Hj; cbn in Hi, Hj;
      try discriminate; try reflexivity;
      injection Hi as <-; injection Hj as <-; cbn; discriminate.
  - exists 2%nat, unused. split; [reflexivity|]. left. reflexivity.
Defined.

(** C5 as stated fails on a full table: with the four slots taken by the
    four setters, two calls for a fifth type leave no slot of that type. *)
Lemma setSensorValue_twice_full_table :
  distinct_types (_sensors full_bench) /\
  exists o1 o2,
    setSensorValue 0x04 100 full_bench = Some (tt, o1) /\
    setSensorValue 0x04 200 o1 = Some (tt, o2) /\
    ~ exists i v, only_slot 0x04 i v (_sensors o2).
Proof.
  split.
  - intros [|[|[|[|i]]]] [|[|[|[|j]]]] si sj Hi Hj; cbn in Hi, Hj;
      try discriminate; try reflexivity;
      injection Hi as <-; injection Hj as <-; cbn; discriminate.
  - eexists. eexists. split; [vm_compute; reflexivity|].
    split; [vm_compute; reflexivity|].
    intros (i & v & (s & Hi & _ & Ht & _) & _).
    destruct i as [|[|[|[|i]]]]; cbn in Hi; try discriminate;
      injection Hi as <-; discriminate.
Qed.

(** ** Histories *)

Section History.

Lemma exec_unit (m : M unit) (o o' : EveryIBus) :
  exec m o = Some o' <-> m o = Some (tt, o').
Proof.
  unfold exec. destruct (m o) as [[[] o'']|]; cbn; split; congruence.
Qed.

Lemma exec_run_ops_cons (op : Op) (ops : list Op) (o : EveryIBus) :
  exec (run_ops (op :: ops)) o = exec (run_op op) o ≫= exec (run_ops ops).
Proof.
  unfold exec. cbn [run_ops]. rewrite run_bind.
  destruct (run_op op o) as [[[] o']|]; reflexivity.
Qed.

Lemma exec_run_ops_app (ops ops' : list Op) (o : EveryIBus) :
  exec (run_ops (ops ++ ops')) o = exec (run_ops ops) o ≫= exec (run_ops ops').
Proof.
  revert o. induction ops as [|op ops IH]; intros o; [reflexivity|].
  cbn [app]. rewrite !exec_run_ops_cons.
  destruct (exec (run_op op) o) as [o1|]; [apply IH|reflexivity].
Qed.

Lemma begin_run (serial : HardwareSerial) (o : EveryIBus) :
  exists c, begin serial o =
            Some (tt, set_Serial c (set_serial (Some (mkSerial [] (tx serial))) o)).
Proof.
  unfold begin. rewrite bind_modify.
  rewrite (bind_Some _ _ _ _ _ (clearSerialBuffer_run _)).
  match goal with |- context [?m ?o' = _] =>
    destruct (console_only_debug _ (console_only_print
      [PrintStr "EveryIBus: Multi-sensor mode initialized"; NewLine]) o') as [c E] end.
  exists c. rewrite E. now destruct o.
Qed.

(** [update] returns, and leaves the table, the diagnostics switch and
    the attachment of the transport alone. *)
Lemma update_run (o : EveryIBus) :
  table_ok o ->
  exists o', update o = Some (tt, o') /\ _sensors o' = _sensors o /\
             (_serial o = None -> o' = o).
Proof.
  intros Hok. destruct (_serial o) as [p|] eqn:Hp.
  - destruct (le_lt_dec 4 (length (rx p))) as [Hlen|Hlen].
    + rewrite (update_handlePacket o p Hp Hlen).
      destruct (rx p) as [|b0 [|b1 [|b2 [|b3 rest]]]] eqn:Hrx; cbn in Hlen; try lia.
      destruct (handlePacket_answered o b0 b1 b2 b3 rest Hok) as (c & bytes & n & d & ->);
        [exists p; split; assumption|].
      eexists. split; [reflexivity|]. split; [|discriminate].
      fields o. reflexivity.
    + rewrite (update_waiting o p Hp Hlen). eexists. split; [reflexivity|]. now split.
  - rewrite (update_detached o Hp). eexists. split; [reflexivity|]. now split.
Qed.

(** What an operation does to the table and to the attachment of the
    transport. *)
Lemma run_op_effect (op : Op) (o : EveryIBus) :
  table_ok o ->
  exists o', run_op op o = Some (tt, o') /\ table_ok o' /\
    match op_type op with
    | Some T => exists v, _sensors o' = register T v (_sensors o)
    | None => _sensors o' = _sensors o
    end /\
    (match op with OpBegin _ => False | _ => True end ->
     _serial o = None -> _serial o' = None).
Proof.
  intros Hok.
  assert (Hset : forall T v, is_u8 T -> is_u16 v ->
    exists o', setSensorValue T v o = Some (tt, o') /\ table_ok o' /\
      (exists v', _sensors o' = register T v' (_sensors o)) /\
      (True -> _serial o = None -> _serial o' = None)).
  { intros T v HT Hv. destruct Hok as [Hlen Hall].
    destruct (setSensorValue_run o T v Hlen) as [c ->].
    eexists. split; [reflexivity|]. split; [|split].
    - split; cbn; [now rewrite register_length|now apply register_sensor_ok].
    - exists v. reflexivity.
    - now destruct o. }
  assert (H8 : forall n, n = 0 \/ n = 1 \/ n = 2 \/ n = 3 -> is_u8 n)
    by (unfold is_u8; lia).
  destruct op as [serial| |r|r|r|r|T r|b|bytes]; cbn [run_op op_type].
  - destruct (begin_run serial o) as [c ->].
    eexists. split; [reflexivity|]. split; [|split; [reflexivity|contradiction]].
    now apply (table_ok_sensors o).
  - destruct (update_run o Hok) as (o' & -> & Hs & Hdet).
    exists o'. split; [reflexivity|]. split; [now apply (table_ok_sensors o)|].
    split; [exact Hs|]. intros _ Hp. now rewrite (Hdet Hp).
  - apply Hset; [apply H8; auto|apply u16_range].
  - apply Hset; [apply H8; auto|apply u16_range].
  - apply Hset; [apply H8; auto|apply u16_range].
  - apply Hset; [apply H8; auto|apply u16_range].
  - apply Hset; [apply u8_range|apply u16_range].
  - eexists. split; [reflexivity|]. split; [now apply (table_ok_sensors o)|].
    split; [reflexivity|]. now destruct o.
  - unfold receive, modify. eexists. split; [reflexivity|].
    destruct (_serial o) as [p|] eqn:Hp.
    + split; [now apply (table_ok_sensors o)|]. split; [reflexivity|discriminate].
    + split; [exact Hok|]. split; [reflexivity|]. auto.
Qed.


Lemma fresh_ok (console : list ConsoleItem) : table_ok (fresh console).
Proof.
  split; [reflexivity|].
  repeat first [apply List.Forall_nil | apply List.Forall_cons];
    split; vm_compute; split; congruence.
Qed.

(** The constructor makes a fresh engine of whatever the storage held. *)
Lemma EveryIBus_ctor_fresh (o : EveryIBus) :
  length (_sensors o) = 4%nat -> EveryIBus_ctor o = Some (tt, fresh (Serial o)).
Proof.
  destruct o as [p l ? ? ? ? ? c]. cbn.
  destruct l as [|s0 [|s1 [|s2 [|s3 [|]]]]]; try discriminate. intros _.
  reflexivity.
Qed.

(** *** Distinct types in order *)

Lemma first_seen_NoDup (D : list Z) (T : Z) : NoDup D -> NoDup (first_seen D T).
Proof.
  intros HD. unfold first_seen. case_decide as HT; [exact HD|].
  apply NoDup_app. split; [exact HD|]. split; [|apply NoDup_singleton].
  intros x Hx ->%list_elem_of_singleton. contradiction.
Qed.

Lemma distinct_NoDup_from (ts D : list Z) : NoDup D -> NoDup (foldl first_seen D ts).
Proof.
  revert D. induction ts as [|T ts IH]; intros D HD; [exact HD|].
  cbn. apply IH. now apply first_seen_NoDup.
Qed.

Lemma registered_NoDup (ops : list Op) : NoDup (registered ops).
Proof. apply distinct_NoDup_from. constructor. Qed.

Lemma registered_snoc (ops : list Op) (op : Op) :
  registered (ops ++ [op]) =
  match op_type op with
  | Some T => first_seen (registered ops) T
  | None => registered ops
  end.
Proof.
  unfold registered, distinct. rewrite omap_app, foldl_app. cbn.
  destruct (op_type op); reflexivity.
Qed.

Lemma assigned_fresh (console : list ConsoleItem) : assigned [] (_sensors (fresh console)).
Proof.
  intros k Hk. exists unused.
  split; [|reflexivity].
  destruct k as [|[|[|[|k]]]]; try reflexivity; lia.
Qed.

(** Registering a type extends the assignment by that type if it is new
    and a slot is free, and keeps it otherwise. *)
Lemma assigned_register (D : list Z) (l : list Sensor) (T v : Z) :
  length l = 4%nat -> assigned D l ->
  assigned (first_seen D T) (register T v l).
Proof.
  intros Hlen Ha.
  destruct (register_cases T v l) as [(i & s & Hf & ->)|[(Hn & j & x & Hf & ->)|(Hn & Hn' & ->)]].
  - apply find_slot_Some in Hf as (Hi & Hh & _). apply holds_true in Hh as [Hv Ht].
    pose proof (lookup_lt_Some _ _ _ Hi) as Hlt. rewrite Hlen in Hlt.
    destruct (Ha i Hlt) as (s' & Hi' & HD). rewrite Hi in Hi'. injection Hi' as <-.
    destruct (D !! i) as [T'|] eqn:HDi; [|congruence].
    destruct HD as [_ HT']. rewrite Ht in HT'. subst T'.
    unfold first_seen. rewrite decide_True by (eapply list_elem_of_lookup_2; eassumption).
    intros k Hk. destruct (decide (k = i)) as [->|Hne].
    + exists (set_value v s). rewrite list_lookup_insert_eq by lia.
      split; [reflexivity|]. rewrite HDi. now split.
    + rewrite list_lookup_insert_ne by congruence. now apply Ha.
  - apply find_slot_Some in Hf as (Hj & Hfree & Hfirst). apply free_true in Hfree.
    pose proof (proj1 (find_slot_None _ _) Hn) as Hno.
    pose proof (lookup_lt_Some _ _ _ Hj) as Hlt. rewrite Hlen in Hlt.
    assert (HDj : D !! j = None).
    { destruct (Ha j Hlt) as (s' & Hj' & HD). rewrite Hj in Hj'. injection Hj' as <-.
      destruct (D !! j); [destruct HD; congruence|reflexivity]. }
    assert (Hjlen : j = length D).
    { apply lookup_ge_None in HDj.
      destruct (decide (length D < j)%nat) as [Hlt'|]; [|lia].
      destruct (Ha (length D) ltac:(lia)) as (y & Hy & HD).
      rewrite (proj2 (lookup_ge_None D (length D))) in HD by lia.
      pose proof (Hfirst _ _ Hy Hlt') as Hf'. unfold free in Hf'.
      rewrite HD in Hf'. discriminate. }
    assert (HT : T ∉ D).
    { intros (k0 & Hk0)%list_elem_of_lookup_1.
      pose proof (lookup_lt_Some _ _ _ Hk0). subst j.
      destruct (Ha k0 ltac:(lia)) as (y & Hy & HD). rewrite Hk0 in HD.
      specialize (Hno _ _ Hy). apply holds_false in Hno. now destruct Hno. }
    unfold first_seen. rewrite decide_False by exact HT.
    intros k Hk. destruct (decide (k = j)) as [->|Hne].
    + exists (mkSensor T v true). rewrite list_lookup_insert_eq by lia.
      split; [reflexivity|]. subst j. rewrite list_lookup_middle by reflexivity. now split.
    + rewrite list_lookup_insert_ne by congruence.
      destruct (Ha k Hk) as (y & Hy & HD). exists y. split; [exact Hy|].
      destruct (decide (k < length D)%nat).
      * now rewrite lookup_app_l by assumption.
      * rewrite (proj2 (lookup_ge_None D k)) in HD by lia.
        rewrite (proj2 (lookup_ge_None (D ++ [T]) k)); [exact HD|].
        rewrite length_app. cbn. lia.
  - pose proof (proj1 (find_slot_None _ _) Hn') as Hfull.
    intros k Hk. destruct (Ha k Hk) as (y & Hy & HD). exists y. split; [exact Hy|].
    destruct (D !! k) as [T'|] eqn:HDk.
    + unfold first_seen. case_decide; [now rewrite HDk|].
      rewrite lookup_app_l by (eapply lookup_lt_Some; eassumption). now rewrite HDk.
    + specialize (Hfull _ _ Hy). unfold free in Hfull. rewrite HD in Hfull. discriminate.
Qed.

(** From a fresh engine, the slots are assigned in the order in which
    the types were first registered. *)
Lemma run_ops_assigned (ops : list Op) (console : list ConsoleItem) (o : EveryIBus) :
  exec (run_ops ops) (fresh console) = Some o ->
  table_ok o /\ assigned (registered ops) (_sensors o).
Proof.
  revert o. induction ops as [|op ops IH] using rev_ind; intros o Hrun.
  - cbn in Hrun. injection Hrun as <-. split; [apply fresh_ok|apply assigned_fresh].
  - rewrite exec_run_ops_app in Hrun.
    destruct (exec (run_ops ops) (fresh console)) as [o1|] eqn:E1; [|discriminate].
    destruct (IH o1 eq_refl) as [Hok Ha].
    destruct (run_op_effect op o1 Hok) as (o2 & E & Hok2 & Hs & _).
    cbn [mbind option_bind] in Hrun.
    rewrite exec_run_ops_cons, (proj2 (exec_unit _ _ _) E) in Hrun.
    cbn in Hrun. injection Hrun as <-.
    split; [exact Hok2|]. rewrite registered_snoc.
    destruct (op_type op) as [T|].
    + destruct Hs as [v ->]. apply assigned_register; [apply Hok|exact Ha].
    + now rewrite Hs.
Qed.

(** An occupied slot keeps its index and its type, whatever happens next. *)
Lemma run_ops_keeps (ops : list Op) (o o' : EveryIBus) (i : nat) (s : Sensor) :
  table_ok o -> exec (run_ops ops) o = Some o' ->
  _sensors o !! i = Some s -> hasValue s = true ->
  exists s', _sensors o' !! i = Some s' /\ hasValue s' = true /\ type s' = type s.
Proof.
  revert o s. induction ops as [|op ops IH]; intros o s Hok Hrun Hi Hv.
  - cbn in Hrun. injection Hrun as <-. eauto.
  - destruct (run_op_effect op o Hok) as (o1 & E & Hok1 & Hs & _).
    rewrite exec_run_ops_cons, (proj2 (exec_unit _ _ _) E) in Hrun. cbn in Hrun.
    assert (H1 : exists s1, _sensors o1 !! i = Some s1 /\ hasValue s1 = true /\ type s1 = type s).
    { destruct (op_type op) as [T|].
      - destruct Hs as [v ->]. now apply register_keeps.
      - rewrite Hs. eauto. }
    destruct H1 as (s1 & Hi1 & Hv1 & Ht1).
    destruct (IH o1 s1 Hok1 Hrun Hi1 Hv1) as (s' & Hi' & Hv' & Ht').
    exists s'. repeat split; congruence.
Qed.

(** Without [begin], no transport. *)
Lemma run_ops_detached (ops : list Op) (o o' : EveryIBus) :
  table_ok o -> never_begun ops -> _serial o = None ->
  exec (run_ops ops) o = Some o' -> _serial o' = None.
Proof.
  revert o. induction ops as [|op ops IH]; intros o Hok Hnb Hp Hrun.
  - cbn in Hrun. now injection Hrun as <-.
  - apply Forall_cons in Hnb as [Hop Hnb].
    destruct (run_op_effect op o Hok) as (o1 & E & Hok1 & _ & Hdet).
    rewrite exec_run_ops_cons, (proj2 (exec_unit _ _ _) E) in Hrun. cbn in Hrun.
    apply (IH o1); auto.
Qed.

End History.

(** In every state of a used engine the occupied slots have distinct types. *)
Lemma reachable_distinct_types (o : EveryIBus) :
  reachable o -> table_ok o /\ distinct_types (_sensors o).
Proof.
  intros (console & ops & Hrun).
  destruct (run_ops_assigned ops console o Hrun) as [Hok Ha].
  split; [exact Hok|].
  intros i j si sj Hi Hj Hvi Hvj Ht.
  pose proof (lookup_lt_Some _ _ _ Hi) as Hli.
  pose proof (lookup_lt_Some _ _ _ Hj) as Hlj.
  destruct Hok as [Hlen _]. change (Z.to_nat MAX_SENSORS) with 4%nat in Hlen.
  rewrite Hlen in Hli, Hlj.
  destruct (Ha i Hli) as (si' & Hi' & HDi). rewrite Hi in Hi'. injection Hi' as <-.
  destruct (Ha j Hlj) as (sj' & Hj' & HDj). rewrite Hj in Hj'. injection Hj' as <-.
  destruct (registered ops !! i) as [Ti|] eqn:Ei; [|congruence].
  destruct (registered ops !! j) as [Tj|] eqn:Ej; [|congruence].
  destruct HDi as [_ <-]. destruct HDj as [_ <-]. rewrite Ht in Ei.
  eapply NoDup_lookup; [apply registered_NoDup|eassumption..].
Qed.

(** C9. From a fresh engine, after any sequence of operations: the k-th
    distinct sensor type registered, for k up to 4, occupies slot k - 1,
    which is the slot served at bus address k; the occupied slots are the
    first n of the table, for some n; and whatever is done next, a slot that
    is occupied stays occupied, at its index, with its type. *)
Theorem registration_order (console : list ConsoleItem) (ops : list Op) (o : EveryIBus) :
  exec (run_ops ops) (fresh console) = Some o ->
  (forall k T, 1 <= k <= 4 -> registered ops !! Z.to_nat (k - 1) = Some T ->
     exists s, slot o k = Some s /\ hasValue s = true /\ type s = T) /\
  (exists n, (n <= 4)%nat /\ occupied_prefix n (_sensors o)) /\
  (forall more o' i s,
     exec (run_ops more) o = Some o' -> _sensors o !! i = Some s -> hasValue s = true ->
     exists s', _sensors o' !! i = Some s' /\ hasValue s' = true /\ type s' = type s).
Proof.
  intros Hrun. destruct (run_ops_assigned ops console o Hrun) as [Hok Ha].
  split; [|split].
  - intros k T Hk HD.
    assert (Hlt : (Z.to_nat (k - 1) < 4)%nat) by lia.
    destruct (Ha (Z.to_nat (k - 1)) Hlt) as (s & Hs & Hm).
    rewrite HD in Hm. exists s. now split.
  - exists (min 4 (length (registered ops))). split; [lia|].
    intros i s Hi. pose proof (lookup_lt_Some _ _ _ Hi) as Hlt.
    destruct Hok as [Hlen _]. change (Z.to_nat MAX_SENSORS) with 4%nat in Hlen.
    rewrite Hlen in Hlt.
    destruct (Ha i Hlt) as (s' & Hi' & Hm). rewrite Hi in Hi'. injection Hi' as <-.
    destruct (registered ops !! i) as [T|] eqn:HD.
    + apply lookup_lt_Some in HD. destruct Hm as [-> _].
      symmetry. apply bool_decide_eq_true. lia.
    + apply lookup_ge_None in HD. rewrite Hm.
      symmetry. apply bool_decide_eq_false. lia.
  - intros more o' i s Hmore Hi Hv. now apply (run_ops_keeps more o o').
Qed.

Lemma registration_order_witness :
  (forall k T, 1 <= k <= 4 ->
     registered [OpSetRPM 4294; OpSetTemperature 0x10E8; OpBegin (mkSerial [] []); OpSetRPM 4300]
       !! Z.to_nat (k - 1) = Some T ->
     exists s, slot (set_sensors [mkSensor IBUS_SENSOR_RPM 4300 true;
                                  mkSensor IBUS_SENSOR_TEMPERATURE 0x10E8 true; unused; unused]
                       (bench [])) k = Some s /\ hasValue s = true /\ type s = T) /\
  (exists n, (n <= 4)%nat /\
     occupied_prefix n [mkSensor IBUS_SENSOR_RPM 4300 true;
                        mkSensor IBUS_SENSOR_TEMPERATURE 0x10E8 true; unused; unused]) /\
  (forall more o' i s,
     exec (run_ops more)
       (set_sensors [mkSensor IBUS_SENSOR_RPM 4300 true;
                     mkSensor IBUS_SENSOR_TEMPERATURE 0x10E8 true; unused; unused]
          (bench [])) = Some o' ->
     [mkSensor IBUS_SENSOR_RPM 4300 true;
      mkSensor IBUS_SENSOR_TEMPERATURE 0x10E8 true; unused; unused] !! i = Some s ->
     hasValue s = true ->
     exists s', _sensors o' !! i = Some s' /\ hasValue s' = true /\ type s' = type s).
Proof.
  apply (registration_order []
           [OpSetRPM 4294; OpSetTemperature 0x10E8; OpBegin (mkSerial [] []); OpSetRPM 4300]).
  vm_compute. reflexivity.
Defined.

(** C10. As long as [begin] has not been called there is no transport, and
    every call of [update] returns with the state exactly as it was: the
    two counters, the discovery flag and the table unchanged, nothing read
    and nothing written. *)
Theorem update_never_begun (console : list ConsoleItem) (ops : list Op) (o : EveryIBus) :
  never_begun ops -> exec (run_ops ops) (fresh console) = Some o ->
  _serial o = None /\ update o = Some (tt, o).
Proof.
  intros Hnb Hrun.
  assert (Hp : _serial o = None)
    by (apply (run_ops_detached ops (fresh console) o); auto using fresh_ok).
  split; [exact Hp|]. now apply update_detached.
Qed.

Lemma update_never_begun_witness :
  _serial (set_debug true (set_sensors [mkSensor IBUS_SENSOR_RPM 4294 true; unused; unused; unused]
                             (fresh []))) = None /\
  update (set_debug true (set_sensors [mkSensor IBUS_SENSOR_RPM 4294 true; unused; unused; unused]
                            (fresh []))) =
  Some (tt, set_debug true (set_sensors [mkSensor IBUS_SENSOR_RPM 4294 true; unused; unused; unused]
                              (fresh []))).
Proof.
  apply (update_never_begun []
           [OpSetRPM 4294; OpReceive [0x04; 0x81; 0x7A; 0xFF]; OpUpdate; OpSetDebug true; OpUpdate]).
  - repeat constructor.
  - vm_compute. reflexivity.
Defined.

(** ** A session *)

(** RPM 4294 is registered on a fresh engine and gets address 1; the
    master then discovers address 1, asks for its type and for its
    measurement. The three answers, in the order written: the echo of the
    discovery, type 0x02, and 4294 = 0x10C6 with its low byte first. *)
Example session :
  exec (run_ops [OpSetRPM 4294; OpBegin (mkSerial [0x00] []);
                 OpReceive (request_frame 0x04 0x81); OpUpdate;
                 OpReceive (request_frame 0x04 0x91); OpUpdate;
                 OpReceive (request_frame 0x04 0xA1); OpUpdate])
       (fresh []) =
  Some (mkEveryIBus
          (Some (mkSerial [] [0x04; 0x81; 0x7A; 0xFF;
                              0x06; 0x91; 0x02; 0x02; 0x64; 0xFF;
                              0x06; 0xA1; 0xC6; 0x10; 0x82; 0xFE]))
          [mkSensor IBUS_SENSOR_RPM 4294 true; unused; unused; unused]
          0 true 3 3 false []).
Proof. vm_compute. reflexivity. Qed.

(** ** The polling step as a function *)

Section Step.

(** The state transformers do not look at the diagnostics. *)
Lemma respond_diagnostics (packet : list Z) (b : bool) (c : list ConsoleItem) (o : EveryIBus) :
  respond packet (set_debug b (set_Serial c o)) = set_debug b (set_Serial c (respond packet o)).
Proof.
  unfold respond.
  destruct (validatePacket packet) as [[|]|]; try reflexivity.
  destruct (elem packet 1) as [p1|]; try reflexivity. cbn zeta.
  destruct ((1 <=? Z.land p1 15) && (Z.land p1 15 <=? 4)); try reflexivity.
  change (slot (set_debug b (set_Serial c o)) (Z.land p1 15)) with (slot o (Z.land p1 15)).
  destruct (slot o (Z.land p1 15)) as [s|]; try reflexivity.
  destruct (hasValue s); try reflexivity.
  unfold count_response, transmit.
  destruct (_ =? IBUS_CMD_DISCOVER); [now destruct o as [[q|] ? ? ? ? ? ? ?]|].
  destruct (_ =? IBUS_CMD_TYPE); [now destruct o as [[q|] ? ? ? ? ? ? ?]|].
  destruct (_ =? IBUS_CMD_MEASUREMENT); [now destruct o as [[q|] ? ? ? ? ? ? ?]|].
  reflexivity.
Qed.

Lemma respond_debug (packet : list Z) (o : EveryIBus) : _debug (respond packet o) = _debug o.
Proof.
  pose proof (respond_diagnostics packet (_debug o) (Serial o) o) as H.
  replace (set_debug (_debug o) (set_Serial (Serial o) o)) with o in H by now destruct o.
  apply (f_equal _debug) in H. exact H.
Qed.

Lemma respond_set_Serial (packet : list Z) (c : list ConsoleItem) (o : EveryIBus) :
  respond packet (set_Serial c o) = set_Serial c (respond packet o).
Proof.
  pose proof (respond_diagnostics packet (_debug o) c o) as H.
  replace (set_debug (_debug o) (set_Serial c o)) with (set_Serial c o) in H by now destruct o.
  rewrite H, <- (respond_debug packet o). now destruct (respond packet o).
Qed.

Lemma discard_input_set_Serial (c : list ConsoleItem) (o : EveryIBus) :
  discard_input (set_Serial c o) = set_Serial c (discard_input o).
Proof. unfold discard_input. now destruct o as [[q|] ? ? ? ? ? ? ?]. Qed.

(** [dispatch] is [respond], the console apart. *)
Lemma dispatch_respond (b0 b1 b2 b3 : Z) (o : EveryIBus) (p : HardwareSerial) :
  table_ok o -> _serial o = Some p ->
  exists c, dispatch [b0; b1; b2; b3] o = Some (tt, set_Serial c (respond [b0; b1; b2; b3] o)).
Proof.
  intros Hok Hp. unfold dispatch, respond.
  rewrite validatePacket_4, !(elem_nat _ 1). cbn [lookup list_lookup].
  destruct (if b0 =? 4 then _ else false);
    erewrite bind_pure by reflexivity; cbn [when]; cbv beta iota;
    [|exists (Serial o); now rewrite set_Serial_same].
  erewrite bind_pure by reflexivity. cbn zeta.
  destruct ((1 <=? Z.land b1 15) && (Z.land b1 15 <=? 4)) eqn:Haddr; cbn [when];
    [|exists (Serial o); now rewrite set_Serial_same].
  apply andb_prop in Haddr as [H1 H4]. apply Z.leb_le in H1, H4.
  assert (Ha : 1 <= Z.land b1 15 <= 4) by lia.
  destruct (slot_exists o _ Hok Ha) as (s & Hs & Ht & Hv). rewrite Hs.
  destruct (hasValue s) eqn:Hhas.
  - destruct (_ =? IBUS_CMD_DISCOVER);
      [exact (handleDiscoveryCommand_occupied o p _ s Hp Ha Hs Hhas)|].
    destruct (_ =? IBUS_CMD_TYPE);
      [exact (sendTypeResponse_occupied o p _ s Hp Ha Hs Hhas Ht)|].
    destruct (_ =? IBUS_CMD_MEASUREMENT);
      [exact (sendMeasurementResponse_occupied o p _ s Hp Ha Hs Hhas Hv)|].
    exists (Serial o). now rewrite set_Serial_same.
  - destruct (_ =? IBUS_CMD_DISCOVER);
      [exact (handleDiscoveryCommand_unoccupied o _ s Ha Hs Hhas)|].
    exists (Serial o). rewrite set_Serial_same.
    destruct (_ =? IBUS_CMD_TYPE);
      [exact (sendTypeResponse_unoccupied o _ s Ha Hs Hhas)|].
    destruct (_ =? IBUS_CMD_MEASUREMENT);
      [exact (sendMeasurementResponse_unoccupied o _ s Ha Hs Hhas)|].
    reflexivity.
Qed.

(** [handlePacket] takes four bytes, responds, and drops the rest. *)
Lemma handlePacket_respond (o : EveryIBus) (b0 b1 b2 b3 : Z) (rest : list Z) :
  table_ok o -> receiving o (b0 :: b1 :: b2 :: b3 :: rest) ->
  exists c, handlePacket o =
            Some (tt, set_Serial c (discard_input
                        (respond [u8 b0; u8 b1; u8 b2; u8 b3] (taken rest o)))).
Proof.
  intros Hok (p & Hp & Hrx).
  destruct (handlePacket_run o p b0 b1 b2 b3 rest Hp Hrx) as [c1 Hrun].
  destruct (dispatch_respond (u8 b0) (u8 b1) (u8 b2) (u8 b3)
              (set_Serial c1 (taken rest o)) (mkSerial rest (tx p))) as [c Hd].
  - apply (table_ok_sensors o); [|exact Hok]. unfold taken. now rewrite Hp.
  - unfold taken. now rewrite Hp.
  - destruct (Hrun _ Hd) as [c2 ->]. exists c2.
    now rewrite respond_set_Serial, !discard_input_set_Serial.
Qed.

(** [update] is [protocol_step], the console apart. *)
Lemma update_step (o : EveryIBus) :
  table_ok o -> exists c, update o = Some (tt, set_Serial c (protocol_step o)).
Proof.
  intros Hok. unfold protocol_step.
  destruct (_serial o) as [p|] eqn:Hp;
    [|exists (Serial o); rewrite set_Serial_same; now apply update_detached].
  destruct (le_lt_dec 4 (length (rx p))) as [Hlen|Hlen].
  - rewrite (update_handlePacket o p Hp Hlen).
    destruct (rx p) as [|b0 [|b1 [|b2 [|b3 rest]]]] eqn:Hrx; cbn in Hlen; try lia.
    apply handlePacket_respond; [exact Hok|]. exists p. now split.
  - exists (Serial o). rewrite (update_waiting o p Hp Hlen).
    destruct (rx p) as [|b0 [|b1 [|b2 [|b3 rest]]]]; cbn in Hlen; try lia;
      now rewrite set_Serial_same.
Qed.

End Step.

(** ** Every packet, in one statement *)

Section Summary.

(** [respond] either leaves the state alone or answers an occupied address
    with one of the three responses. *)
Lemma respond_cases (b0 b1 b2 b3 : Z) (o : EveryIBus) :
  table_ok o ->
  respond [b0; b1; b2; b3] o = o \/
  exists a s,
    validatePacket [b0; b1; b2; b3] = Some true /\ a = Z.land b1 0x0F /\ 1 <= a <= 4 /\
    slot o a = Some s /\ hasValue s = true /\ sensor_ok s /\
    ((Z.land b1 0xF0 = IBUS_CMD_DISCOVER /\
      respond [b0; b1; b2; b3] o =
      set_anyDiscovered true (count_response (transmit (discovery_response a) o))) \/
     (Z.land b1 0xF0 = IBUS_CMD_TYPE /\
      respond [b0; b1; b2; b3] o = count_response (transmit (type_response a (type s)) o)) \/
     (Z.land b1 0xF0 = IBUS_CMD_MEASUREMENT /\
      respond [b0; b1; b2; b3] o =
      count_response (transmit (measurement_response a (value s)) o))).
Proof.
  intros Hok. unfold respond.
  rewrite (elem_nat _ 1). cbn [lookup list_lookup].
  destruct (validatePacket [b0; b1; b2; b3]) as [[|]|]; auto. cbn zeta.
  destruct ((1 <=? Z.land b1 15) && (Z.land b1 15 <=? 4)) eqn:Haddr; auto.
  apply andb_prop in Haddr as [H1 H4]. apply Z.leb_le in H1, H4.
  assert (Ha : 1 <= Z.land b1 15 <= 4) by lia.
  destruct (slot_exists o _ Hok Ha) as (s & Hs & Hsok). rewrite Hs.
  destruct (hasValue s) eqn:Hhas; auto.
  destruct (Z.eqb_spec (Z.land b1 240) IBUS_CMD_DISCOVER) as [E|_];
    [right; exists (Z.land b1 15), s; split_and!; try done; try lia; left; now split|].
  destruct (Z.eqb_spec (Z.land b1 240) IBUS_CMD_TYPE) as [E|_];
    [right; exists (Z.land b1 15), s; split_and!; try done; try lia;
     right; left; now split|].
  destruct (Z.eqb_spec (Z.land b1 240) IBUS_CMD_MEASUREMENT) as [E|_];
    [right; exists (Z.land b1 15), s; split_and!; try done; try lia;
     right; right; now split|].
  auto.
Qed.

(** The state after [handlePacket], member by member, for every four bytes. *)
Lemma handlePacket_summary (o : EveryIBus) (p : HardwareSerial) (b0 b1 b2 b3 : Z) (rest : list Z) :
  table_ok o -> _serial o = Some p -> rx p = b0 :: b1 :: b2 :: b3 :: rest ->
  exists c bytes d n,
    handlePacket o =
    Some (tt, mkEveryIBus (Some (mkSerial [] (tx p ++ bytes))) (_sensors o)
                (_currentSensorIndex o) d (u32 (_packetCount o + 1)) n (_debug o) c) /\
    ((bytes = [] /\ d = _anyDiscovered o /\ n = _responseCount o) \/
     exists a s,
       validatePacket [u8 b0; u8 b1; u8 b2; u8 b3] = Some true /\
       a = Z.land (u8 b1) 0x0F /\ 1 <= a <= 4 /\
       slot o a = Some s /\ hasValue s = true /\ sensor_ok s /\
       n = u32 (_responseCount o + 1) /\
       ((Z.land (u8 b1) 0xF0 = IBUS_CMD_DISCOVER /\ bytes = discovery_response a /\ d = true) \/
        (Z.land (u8 b1) 0xF0 = IBUS_CMD_TYPE /\ bytes = type_response a (type s) /\
         d = _anyDiscovered o) \/
        (Z.land (u8 b1) 0xF0 = IBUS_CMD_MEASUREMENT /\
         bytes = measurement_response a (value s) /\ d = _anyDiscovered o))).
Proof.
  intros Hok Hp Hrx.
  destruct (handlePacket_respond o b0 b1 b2 b3 rest Hok) as [c ->];
    [exists p; now split|].
  assert (Hok1 : table_ok (taken rest o))
    by (apply (table_ok_sensors o); [unfold taken; now rewrite Hp|exact Hok]).
  assert (Hslot : forall a, slot (taken rest o) a = slot o a)
    by (intros a; unfold taken; now rewrite Hp).
  destruct (respond_cases (u8 b0) (u8 b1) (u8 b2) (u8 b3) (taken rest o) Hok1)
    as [->|(a & s & Hv & Ha & Hr & Hs & Hhas & Hsok & Hcase)].
  - exists c, [], (_anyDiscovered o), (_responseCount o).
    split; [|left; auto]. rewrite app_nil_r.
    unfold taken, discard_input. rewrite Hp. now destruct o.
  - rewrite Hslot in Hs.
    destruct Hcase as [(Hc & ->)|[(Hc & ->)|(Hc & ->)]].
    + exists c, (discovery_response a), true, (u32 (_responseCount o + 1)).
      split; [|right; exists a, s; split_and!; try done; try lia; left; now split].
      unfold taken, discard_input, count_response, transmit. rewrite Hp. now destruct o.
    + exists c, (type_response a (type s)), (_anyDiscovered o), (u32 (_responseCount o + 1)).
      split; [|right; exists a, s; split_and!; try done; try lia; right; left; now split].
      unfold taken, discard_input, count_response, transmit. rewrite Hp. now destruct o.
    + exists c, (measurement_response a (value s)), (_anyDiscovered o),
        (u32 (_responseCount o + 1)).
      split; [|right; exists a, s; split_and!; try done; try lia; right; right; now split].
      unfold taken, discard_input, count_response, transmit. rewrite Hp. now destruct o.
Qed.

Lemma forallb_bytes (bytes : list Z) :
  Forall is_u8 bytes -> forallb (fun b => (0 <=? b) && (b <? 256)) bytes = true.
Proof.
  induction 1 as [|b l Hb _ IH]; [reflexivity|]. cbn. rewrite IH.
  unfold is_u8 in Hb. rewrite andb_true_r.
  apply andb_true_intro. split; [apply Z.leb_le|apply Z.ltb_lt]; lia.
Qed.

(** A body of bytes that starts with its length plus two, followed by its
    checksum, is a frame. *)
Lemma is_frame_with_checksum (body : list Z) :
  Forall is_u8 body -> (length body <= 253)%nat ->
  hd 0 body = Z.of_nat (length body + 2) ->
  is_frame (with_checksum body) = true.
Proof.
  intros Hbytes Hlen Hhd.
  pose proof (response_checksum_range body Hbytes ltac:(lia)) as Hck.
  unfold is_frame, with_checksum.
  rewrite length_app. cbn [length].
  replace (length body + 2 - 2)%nat with (length body) by lia.
  rewrite drop_app_length, take_app_length.
  rewrite land_0xFF, shiftr_8.
  apply andb_true_intro. split; [apply andb_true_intro; split|].
  - apply forallb_bytes. apply Forall_app. split; [exact Hbytes|].
    repeat first [apply List.Forall_nil | apply List.Forall_cons];
      unfold is_u8; Z.div_mod_to_equations; lia.
  - destruct body as [|b body]; [cbn in Hhd; lia|]. cbn [hd app] in *.
    apply Z.eqb_eq. exact Hhd.
  - apply Z.eqb_eq. unfold response_checksum, sum_bytes in *.
    Z.div_mod_to_equations. lia.
Qed.

(** The three responses are frames. *)
Lemma responses_are_frames (a : Z) (s : Sensor) :
  1 <= a <= 4 -> sensor_ok s ->
  is_frame (discovery_response a) = true /\
  is_frame (type_response a (type s)) = true /\
  is_frame (measurement_response a (value s)) = true.
Proof.
  intros Ha [Ht Hv].
  destruct (command_address 0x80 a) as (_ & H80 & _); [auto|exact Ha|].
  destruct (command_address 0x90 a) as (_ & H90 & _); [auto|exact Ha|].
  destruct (command_address 0xA0 a) as (_ & HA0 & _); [auto|exact Ha|].
  assert (H4 : is_u8 4) by (unfold is_u8; lia).
  assert (H6 : is_u8 6) by (unfold is_u8; lia).
  assert (H2 : is_u8 2) by (unfold is_u8; lia).
  assert (Hlo : is_u8 (Z.land (value s) 255))
    by (rewrite land_0xFF; unfold is_u8; Z.div_mod_to_equations; lia).
  assert (Hhi : is_u8 (Z.shiftr (value s) 8))
    by (rewrite shiftr_8; unfold is_u8, is_u16 in *; Z.div_mod_to_equations; lia).
  repeat split; apply is_frame_with_checksum;
    try (repeat first [apply List.Forall_nil | apply List.Forall_cons]; assumption);
    try (cbn; lia); reflexivity.
Qed.

End Summary.

(** ** What a polling step can and cannot do *)

(** [update] on an attached transport: either fewer than four bytes wait
    and nothing happens, or the first four are handled as a packet. *)
Lemma update_summary (o : EveryIBus) (p : HardwareSerial) :
  table_ok o -> _serial o = Some p ->
  ((length (rx p) < 4)%nat /\ update o = Some (tt, o)) \/
  exists b0 b1 b2 b3 rest c bytes d n,
    rx p = b0 :: b1 :: b2 :: b3 :: rest /\
    update o =
    Some (tt, mkEveryIBus (Some (mkSerial [] (tx p ++ bytes))) (_sensors o)
                (_currentSensorIndex o) d (u32 (_packetCount o + 1)) n (_debug o) c) /\
    ((bytes = [] /\ d = _anyDiscovered o /\ n = _responseCount o) \/
     exists a s,
       validatePacket [u8 b0; u8 b1; u8 b2; u8 b3] = Some true /\
       a = Z.land (u8 b1) 0x0F /\ 1 <= a <= 4 /\
       slot o a = Some s /\ hasValue s = true /\ sensor_ok s /\
       n = u32 (_responseCount o + 1) /\
       ((Z.land (u8 b1) 0xF0 = IBUS_CMD_DISCOVER /\ bytes = discovery_response a /\ d = true) \/
        (Z.land (u8 b1) 0xF0 = IBUS_CMD_TYPE /\ bytes = type_response a (type s) /\
         d = _anyDiscovered o) \/
        (Z.land (u8 b1) 0xF0 = IBUS_CMD_MEASUREMENT /\
         bytes = measurement_response a (value s) /\ d = _anyDiscovered o))).
Proof.
  intros Hok Hp.
  destruct (le_lt_dec 4 (length (rx p))) as [Hlen|Hlen].
  - right. rewrite (update_handlePacket o p Hp Hlen).
    destruct (rx p) as [|b0 [|b1 [|b2 [|b3 rest]]]] eqn:Hrx; cbn in Hlen; try lia.
    destruct (handlePacket_summary o p b0 b1 b2 b3 rest Hok Hp Hrx)
      as (c & bytes & d & n & E & Hcases).
    exists b0, b1, b2, b3, rest, c, bytes, d, n. auto.
  - left. split; [exact Hlen|]. now apply (update_waiting o p).
Qed.

Lemma response_not_empty (a : Z) (s : Sensor) :
  discovery_response a <> [] /\ type_response a (type s) <> [] /\
  measurement_response a (value s) <> [].
Proof. repeat split; discriminate. Qed.

(** X1. [update] does what the step function [protocol_step] says, for
    every state of a well-typed engine and every content of the receive
    buffer; the two differ in the diagnostic console at most. *)
Theorem update_is_protocol_step (o : EveryIBus) :
  table_ok o ->
  exists o', update o = Some (tt, o') /\ set_Serial [] o' = set_Serial [] (protocol_step o).
Proof.
  intros Hok. destruct (update_step o Hok) as [c ->].
  eexists. split; [reflexivity|]. reflexivity.
Qed.

Lemma update_is_protocol_step_witness :
  exists o', update (bench (request_frame 0x04 0xA2 ++ [0x04; 0x91])) = Some (tt, o') /\
    set_Serial [] o' = set_Serial [] (protocol_step (bench (request_frame 0x04 0xA2 ++ [0x04; 0x91]))).
Proof. apply (update_is_protocol_step _ (bench_ok _)). Defined.

(** X2. A request that passes validation but addresses no sensor slot
    (address nibble outside 1..4) or asks for none of the three commands is
    ignored: nothing is written, no response is counted, the discovery
    flag stays as it was. *)
Theorem update_ignores (o : EveryIBus) (p : HardwareSerial) (b0 b1 b2 b3 : Z) (rest : list Z) :
  table_ok o -> _serial o = Some p -> rx p = b0 :: b1 :: b2 :: b3 :: rest ->
  is_u8 b1 ->
  ~ 1 <= Z.land b1 0x0F <= 4 \/ ~ is_command (Z.land b1 0xF0) ->
  exists o', update o = Some (tt, o') /\ writes o o' [] /\
    _responseCount o' = _responseCount o /\ _anyDiscovered o' = _anyDiscovered o.
Proof.
  intros Hok Hp Hrx H1 Hno.
  destruct (update_summary o p Hok Hp) as [[Hlen _]|
    (c0 & c1 & c2 & c3 & r & c & bytes & d & n & Hrx' & -> & Hcases)].
  { rewrite Hrx in Hlen. cbn in Hlen. lia. }
  rewrite Hrx in Hrx'. injection Hrx' as <- <- <- <- <-.
  rewrite (u8_id b1) in Hcases by exact H1.
  eexists. split; [reflexivity|].
  destruct Hcases as [(-> & -> & ->)|(a & s & _ & -> & Ha & _ & _ & _ & _ & Hcmd)].
  - split; [exists p; eexists; rewrite app_nil_r; auto|]. cbn. auto.
  - exfalso. destruct Hno as [Hno|Hno]; [now apply Hno|].
    apply Hno. unfold is_command. intuition.
Qed.

Lemma update_ignores_witness :
  exists o', update (bench (request_frame 0x04 0x85)) = Some (tt, o') /\
    writes (bench (request_frame 0x04 0x85)) o' [] /\
    _responseCount o' = 0 /\ _anyDiscovered o' = false.
Proof.
  apply (update_ignores (bench (request_frame 0x04 0x85)) (mkSerial (request_frame 0x04 0x85) [])
           0x04 0x85 0x76 0xFF []).
  - apply bench_ok.
  - reflexivity.
  - reflexivity.
  - unfold is_u8. lia.
  - left. change (Z.land 0x85 0x0F) with 5. lia.
Defined.

(** X3. Whatever waits in the receive buffer, one [update] writes either
    nothing or exactly one frame: at most six bytes, each a byte, the first
    of them their number, the last two the checksum of the others, low byte
    first. *)
Theorem update_writes_a_frame (o : EveryIBus) (p : HardwareSerial) :
  table_ok o -> _serial o = Some p ->
  exists o' bytes, update o = Some (tt, o') /\ writes o o' bytes /\
    (bytes = [] \/ is_frame bytes = true /\ (length bytes <= 6)%nat).
Proof.
  intros Hok Hp.
  destruct (update_summary o p Hok Hp) as [[_ ->]|
    (b0 & b1 & b2 & b3 & r & c & bytes & d & n & _ & -> & Hcases)].
  { exists o, []. split; [reflexivity|]. split; [|now left].
    exists p, p. now rewrite app_nil_r. }
  eexists. exists bytes. split; [reflexivity|].
  split; [exists p; eexists; auto|].
  destruct Hcases as [(-> & _)|(a & s & _ & _ & Ha & _ & _ & Hsok & _ & Hcmd)]; [now left|].
  right. destruct (responses_are_frames a s Ha Hsok) as (Hd & Ht & Hm).
  destruct Hcmd as [(_ & -> & _)|[(_ & -> & _)|(_ & -> & _)]];
    (split; [assumption|cbn; lia]).
Qed.

Lemma update_writes_a_frame_witness :
  exists o' bytes, update (bench (request_frame 0x04 0x92)) = Some (tt, o') /\
    writes (bench (request_frame 0x04 0x92)) o' bytes /\
    (bytes = [] \/ is_frame bytes = true /\ (length bytes <= 6)%nat).
Proof.
  apply (update_writes_a_frame (bench (request_frame 0x04 0x92))
           (mkSerial (request_frame 0x04 0x92) [])).
  - apply bench_ok.
  - reflexivity.
Defined.

(** X4. The responses-sent counter counts the responses written: one
    [update] leaves it alone when it writes nothing and takes it up by one,
    modulo 2^32, when it writes a response. *)
Theorem responseCount_counts_responses (o : EveryIBus) (p : HardwareSerial) :
  table_ok o -> _serial o = Some p ->
  exists o' bytes, update o = Some (tt, o') /\ writes o o' bytes /\
    _responseCount o' =
    if decide (bytes = []) then _responseCount o else (_responseCount o + 1) mod 2 ^ 32.
Proof.
  intros Hok Hp.
  destruct (update_summary o p Hok Hp) as [[_ ->]|
    (b0 & b1 & b2 & b3 & r & c & bytes & d & n & _ & -> & Hcases)].
  { exists o, []. split; [reflexivity|]. split; [|reflexivity].
    exists p, p. now rewrite app_nil_r. }
  eexists. exists bytes. split; [reflexivity|].
  split; [exists p; eexists; auto|]. cbn [_responseCount].
  destruct Hcases as [(-> & _ & ->)|(a & s & _ & _ & _ & _ & _ & _ & -> & Hcmd)];
    [reflexivity|].
  destruct (response_not_empty a s) as (Hd & Ht & Hm).
  destruct Hcmd as [(_ & -> & _)|[(_ & -> & _)|(_ & -> & _)]];
    now rewrite decide_False.
Qed.

Lemma responseCount_counts_responses_witness :
  exists o' bytes, update (bench (request_frame 0x04 0x81)) = Some (tt, o') /\
    writes (bench (request_frame 0x04 0x81)) o' bytes /\
    _responseCount o' =
    if decide (bytes = []) then 0 else (0 + 1) mod 2 ^ 32.
Proof.
  apply (responseCount_counts_responses (bench (request_frame 0x04 0x81))
           (mkSerial (request_frame 0x04 0x81) [])).
  - apply bench_ok.
  - reflexivity.
Defined.

(** X5. The frames-received counter counts the packets taken: an [update]
    that finds four bytes or more takes the counter up by one, modulo
    2^32, whether the four bytes are a valid request or not; an [update]
    that finds fewer changes nothing at all, and the bytes keep waiting. *)
Theorem packetCount_counts_packets (o : EveryIBus) (p : HardwareSerial) :
  table_ok o -> _serial o = Some p ->
  exists o', update o = Some (tt, o') /\
    if decide (4 <= length (rx p))%nat
    then _packetCount o' = (_packetCount o + 1) mod 2 ^ 32
    else o' = o.
Proof.
  intros Hok Hp.
  destruct (update_summary o p Hok Hp) as [[Hlen ->]|
    (b0 & b1 & b2 & b3 & r & c & bytes & d & n & Hrx & -> & _)].
  - exists o. split; [reflexivity|]. now rewrite decide_False by lia.
  - eexists. split; [reflexivity|].
    rewrite decide_True by (rewrite Hrx; cbn; lia). reflexivity.
Qed.

Lemma packetCount_counts_packets_witness :
  exists o', update (bench [0x00; 0x01; 0x02; 0x03; 0x04]) = Some (tt, o') /\
    if decide (4 <= length [0x00; 0x01; 0x02; 0x03; 0x04])%nat
    then _packetCount o' = (0 + 1) mod 2 ^ 32
    else o' = bench [0x00; 0x01; 0x02; 0x03; 0x04].
Proof.
  apply (packetCount_counts_packets (bench [0x00; 0x01; 0x02; 0x03; 0x04])
           (mkSerial [0x00; 0x01; 0x02; 0x03; 0x04] [])).
  - apply bench_ok.
  - reflexivity.
Defined.

(** X6. Only an answered DISCOVER request sets the discovery flag: if one
    [update] takes the flag from false to true, the packet it took was a
    valid DISCOVER request for an occupied address. *)
Theorem anyDiscovered_set_by_discover (o o' : EveryIBus) (p : HardwareSerial) :
  table_ok o -> _serial o = Some p -> update o = Some (tt, o') ->
  _anyDiscovered o = false -> _anyDiscovered o' = true ->
  exists b0 b1 b2 b3 rest,
    rx p = b0 :: b1 :: b2 :: b3 :: rest /\
    validatePacket [u8 b0; u8 b1; u8 b2; u8 b3] = Some true /\
    Z.land (u8 b1) 0xF0 = IBUS_CMD_DISCOVER /\
    occupied o (Z.land (u8 b1) 0x0F) = true.
Proof.
  intros Hok Hp Hup Hoff Hon.
  destruct (update_summary o p Hok Hp) as [[_ E]|
    (b0 & b1 & b2 & b3 & r & c & bytes & d & n & Hrx & E & Hcases)];
    rewrite E in Hup; injection Hup as <-; [congruence|].
  cbn in Hon. subst d.
  destruct Hcases as [(_ & Hd & _)|(a & s & Hv & -> & _ & Hs & Hhas & _ & _ & Hcmd)];
    [congruence|].
  exists b0, b1, b2, b3, r. split; [exact Hrx|]. split; [exact Hv|].
  rewrite (occupied_slot o _ s Hs).
  destruct Hcmd as [(Hc & _)|[(_ & _ & Hd)|(_ & _ & Hd)]]; [auto|congruence..].
Qed.

Lemma anyDiscovered_set_by_discover_witness :
  exists b0 b1 b2 b3 rest,
    request_frame 0x04 0x82 = b0 :: b1 :: b2 :: b3 :: rest /\
    validatePacket [u8 b0; u8 b1; u8 b2; u8 b3] = Some true /\
    Z.land (u8 b1) 0xF0 = IBUS_CMD_DISCOVER /\
    occupied (bench (request_frame 0x04 0x82)) (Z.land (u8 b1) 0x0F) = true.
Proof.
  apply (anyDiscovered_set_by_discover (bench (request_frame 0x04 0x82))
           (set_anyDiscovered true (set_packetCount 1 (set_responseCount 1
              (set_serial (Some (mkSerial [] (request_frame 0x04 0x82))) (bench [])))))
           (mkSerial (request_frame 0x04 0x82) []));
    try reflexivity.
  apply bench_ok.
Defined.

(** ** The utility functions *)

Lemma sendPacket_loop_prefix (pre post done : list Z) (o : EveryIBus) (p : HardwareSerial) :
  _serial o = Some p -> (length done + length pre <= 255)%nat ->
  sendPacket_loop (length pre) (Z.of_nat (length done)) (done ++ pre ++ post) o =
  Some (tt, set_serial (Some (mkSerial (rx p) (tx p ++ pre))) o).
Proof.
  revert done o p. induction pre as [|b pre IH]; intros done o p Hp Hlen.
  - cbn. rewrite app_nil_r. now rewrite set_serial_same by (destruct p; exact Hp).
  - cbn [length sendPacket_loop] in *.
    rewrite run_bind. unfold pure.
    rewrite elem_nat, lookup_app_r, Nat.sub_diag by lia. cbn [lookup list_lookup app].
    rewrite run_bind. unfold with_serial. rewrite Hp. cbn [write].
    rewrite u8_id by lia.
    replace (Z.of_nat (length done) + 1) with (Z.of_nat (length (done ++ [b])))
      by (rewrite length_app; cbn; lia).
    replace (done ++ b :: pre ++ post) with ((done ++ [b]) ++ pre ++ post)
      by (now rewrite <- app_assoc).
    rewrite (IH _ _ (mkSerial (rx p) (tx p ++ [b]))).
    + destruct o; cbn. now rewrite <- app_assoc.
    + now destruct o.
    + rewrite length_app. cbn [length]. lia.
Qed.

Lemma calculateChecksum_loop_prefix (pre post done : list Z) (acc : Z) :
  Forall is_u8 pre -> 0 <= acc -> acc + sum_bytes pre < 65536 ->
  (length done + length pre <= 255)%nat ->
  calculateChecksum_loop (length pre) (Z.of_nat (length done)) (done ++ pre ++ post) acc =
  Some (acc + sum_bytes pre).
Proof.
  intros Hbytes. revert done acc.
  induction Hbytes as [|b pre Hb Hbytes IH]; intros done acc Hacc Hsum Hlen.
  - cbn. f_equal. lia.
  - unfold sum_bytes in *. cbn [length calculateChecksum_loop foldr] in *.
    rewrite elem_nat, lookup_app_r, Nat.sub_diag by lia.
    cbn [lookup list_lookup mbind option_bind app].
    pose proof (sum_bytes_bound pre Hbytes) as Hbound. unfold is_u8 in Hb.
    rewrite u8_id, u16_id by lia.
    replace (Z.of_nat (length done) + 1) with (Z.of_nat (length (done ++ [b])))
      by (rewrite length_app; cbn; lia).
    replace (done ++ b :: pre ++ post) with ((done ++ [b]) ++ pre ++ post)
      by (now rewrite <- app_assoc).
    rewrite IH; [f_equal; lia|lia|lia|].
    rewrite length_app. cbn [length]. lia.
Qed.

(** X7. [sendPacket data length] with a transport writes the first
    [length] bytes of the array, in order, after what was written before,
    and touches nothing else; the bytes waiting to be read stay. *)
Theorem sendPacket_writes_prefix (data : list Z) (n : Z) (o : EveryIBus) (p : HardwareSerial) :
  _serial o = Some p -> 0 <= n <= Z.of_nat (length data) -> n <= 255 ->
  sendPacket data n o =
  Some (tt, set_serial (Some (mkSerial (rx p) (tx p ++ take (Z.to_nat n) data))) o).
Proof.
  intros Hp Hn H255. unfold sendPacket. rewrite bind_get, Hp.
  pose proof (sendPacket_loop_prefix (take (Z.to_nat n) data) (drop (Z.to_nat n) data) [] o p Hp)
    as Hloop.
  rewrite length_take_le in Hloop by lia.
  change (Z.of_nat (length [])) with 0 in Hloop. cbn [app length Nat.add] in Hloop.
  rewrite take_drop in Hloop.
  rewrite (bind_Some _ _ _ _ _ (Hloop ltac:(lia))).
  unfold with_serial, flush. cbn. now destruct o.
Qed.

Lemma sendPacket_writes_prefix_witness :
  sendPacket [0x06; 0x91; 0x02; 0x02; 0x64; 0xFF] 4 (bench [0x07]) =
  Some (tt, set_serial (Some (mkSerial [0x07] [0x06; 0x91; 0x02; 0x02])) (bench [0x07])).
Proof.
  apply (sendPacket_writes_prefix [0x06; 0x91; 0x02; 0x02; 0x64; 0xFF] 4 (bench [0x07])
           (mkSerial [0x07] [])).
  - reflexivity.
  - cbn. lia.
  - lia.
Defined.

(** X8. [calculateChecksum] over the first [length] bytes of an array is
    0xFFFF minus their sum, exactly: the 16-bit sum cannot wrap, since a
    [uint8_t] length admits at most 255 bytes of at most 255 each. The
    checksum is therefore never below 510. *)
Theorem calculateChecksum_exact (data : list Z) (n : Z) :
  Forall is_u8 data -> 0 <= n <= Z.of_nat (length data) -> n <= 255 ->
  calculateChecksum data n = Some (0xFFFF - sum_bytes (take (Z.to_nat n) data)) /\
  510 <= 0xFFFF - sum_bytes (take (Z.to_nat n) data) <= 0xFFFF.
Proof.
  intros Hbytes Hn H255.
  assert (Hpre : Forall is_u8 (take (Z.to_nat n) data)) by now apply Forall_take.
  pose proof (sum_bytes_bound _ Hpre) as Hbound.
  rewrite length_take_le in Hbound by lia. fold (sum_bytes (take (Z.to_nat n) data)) in Hbound.
  split; [|lia].
  unfold calculateChecksum.
  pose proof (calculateChecksum_loop_prefix (take (Z.to_nat n) data) (drop (Z.to_nat n) data)
                [] 0 Hpre) as Hloop.
  rewrite length_take_le in Hloop by lia.
  change (Z.of_nat (length [])) with 0 in Hloop. cbn [app length Nat.add] in Hloop.
  rewrite take_drop in Hloop.
  rewrite Hloop by lia. cbn [mbind option_bind].
  now rewrite u16_id by lia.
Qed.

Lemma calculateChecksum_exact_witness :
  calculateChecksum [0x06; 0xA2; 0xE8; 0x10; 0x00; 0x00] 4 =
    Some (0xFFFF - sum_bytes (take (Z.to_nat 4) [0x06; 0xA2; 0xE8; 0x10; 0x00; 0x00])) /\
  510 <= 0xFFFF - sum_bytes (take (Z.to_nat 4) [0x06; 0xA2; 0xE8; 0x10; 0x00; 0x00]) <= 0xFFFF.
Proof.
  apply (calculateChecksum_exact [0x06; 0xA2; 0xE8; 0x10; 0x00; 0x00] 4).
  - repeat first [apply List.Forall_nil | apply List.Forall_cons]; unfold is_u8; lia.
  - cbn. lia.
  - lia.
Defined.

(** X9. [validatePacket] accepts four bytes exactly when they are the
    request frame of their own second byte with length 0x04: for each
    command and address byte there is one frame that passes, 256 in all. *)
Theorem validatePacket_accepts (p0 p1 p2 p3 : Z) :
  is_u8 p0 -> is_u8 p1 -> is_u8 p2 -> is_u8 p3 ->
  validatePacket [p0; p1; p2; p3] = Some true <-> [p0; p1; p2; p3] = request_frame 0x04 p1.
Proof.
  intros H0 H1 H2 H3.
  assert (H4 : is_u8 4) by (unfold is_u8; lia).
  destruct (request_frame_bytes 4 p1 H4 H1) as (lo & hi & -> & Hlo & Hhi & Hsum).
  rewrite validatePacket_bytes by assumption.
  unfold is_u8 in *. split.
  - intros [= E]. apply bool_decide_eq_true in E as [-> E].
    repeat f_equal; lia.
  - intros [= -> -> ->]. f_equal. apply bool_decide_eq_true. split; [reflexivity|lia].
Qed.

Lemma validatePacket_accepts_witness :
  validatePacket [0x04; 0x91; 0x6A; 0xFF] = Some true <->
  [0x04; 0x91; 0x6A; 0xFF] = request_frame 0x04 0x91.
Proof. apply (validatePacket_accepts 0x04 0x91 0x6A 0xFF); unfold is_u8; lia. Defined.


(** X11. The constructor makes the same engine of whatever the object's
    storage held: no transport, four unused slots (type 0xFF, value 0, no
    value yet), counters at zero, not discovered, diagnostics off. *)
Theorem constructor_resets (o : EveryIBus) :
  length (_sensors o) = 4%nat ->
  exists o', EveryIBus_ctor o = Some (tt, o') /\
    _serial o' = None /\ _sensors o' = replicate 4 (mkSensor 0xFF 0 false) /\
    _currentSensorIndex o' = 0 /\ _anyDiscovered o' = false /\
    _packetCount o' = 0 /\ _responseCount o' = 0 /\ _debug o' = false /\
    Serial o' = Serial o.
Proof.
  intros Hlen. rewrite (EveryIBus_ctor_fresh o Hlen).
  eexists. split; [reflexivity|]. repeat split.
Qed.

Lemma constructor_resets_witness :
  exists o', EveryIBus_ctor (set_debug true (set_anyDiscovered true full_bench)) = Some (tt, o') /\
    _serial o' = None /\ _sensors o' = replicate 4 (mkSensor 0xFF 0 false) /\
    _currentSensorIndex o' = 0 /\ _anyDiscovered o' = false /\
    _packetCount o' = 0 /\ _responseCount o' = 0 /\ _debug o' = false /\
    Serial o' = [].
Proof. apply (constructor_resets (set_debug true (set_anyDiscovered true full_bench))). reflexivity. Defined.

(** X12. [begin] attaches the transport and discards whatever waits in it,
    writing nothing; the table, the counters and the discovery flag are
    kept, also when [begin] is called on an engine already in use. An
    [update] right after it has nothing to do. *)
Theorem begin_attaches (serial : HardwareSerial) (o : EveryIBus) :
  exists o', begin serial o = Some (tt, o') /\
    _serial o' = Some (mkSerial [] (tx serial)) /\
    _sensors o' = _sensors o /\ _anyDiscovered o' = _anyDiscovered o /\
    _packetCount o' = _packetCount o /\ _responseCount o' = _responseCount o /\
    _debug o' = _debug o /\
    update o' = Some (tt, o').
Proof.
  destruct (begin_run serial o) as [c ->].
  eexists. split; [reflexivity|].
  split_and!; reflexivity.
Qed.

(** ** More on the registry *)

Section Table.

Implicit Types (l : list Sensor) (s : Sensor) (T v : Z).

Lemma find_slot_insert_other (test : Sensor -> bool) l (i j : nat) s (y : Sensor) :
  find_slot test l = Some (i, s) -> j <> i -> test y = false ->
  find_slot test (<[j := y]> l) = Some (i, s).
Proof.
  intros (Hi & Ht & Hfirst)%find_slot_Some Hne Hy. apply find_slot_Some.
  split; [now rewrite list_lookup_insert_ne|]. split; [exact Ht|].
  intros k z Hk Hlt.
  apply list_lookup_insert_Some in Hk as [(_ & <- & _)|(_ & Hk)]; eauto.
Qed.

Lemma find_slot_insert_None (test : Sensor -> bool) l (j : nat) (y : Sensor) :
  find_slot test l = None -> test y = false -> find_slot test (<[j := y]> l) = None.
Proof.
  intros Hn Hy. apply find_slot_None. intros k z Hk.
  apply list_lookup_insert_Some in Hk as [(_ & <- & _)|(_ & Hk)]; [exact Hy|].
  eapply find_slot_None; eassumption.
Qed.



(** Registrations of two types commute when one of them has its slot already. *)
Lemma register_commute (T1 T2 v1 v2 : Z) l :
  T1 <> T2 -> find_slot (holds T1) l <> None ->
  register T1 v1 (register T2 v2 l) = register T2 v2 (register T1 v1 l).
Proof.
  intros Hne Hreg.
  destruct (find_slot (holds T1) l) as [[i1 s1]|] eqn:Hf1; [clear Hreg|contradiction].
  pose proof (proj1 (find_slot_Some _ _ _ _) Hf1) as (Hi1 & Hh1 & _).
  apply holds_true in Hh1 as [Hv1 Ht1].
  assert (Hnot2 : holds T2 (set_value v1 s1) = false)
    by (apply holds_false; cbn; intros [_ E]; congruence).
  assert (Hnotfree : free (set_value v1 s1) = false)
    by (unfold free; cbn; now rewrite Hv1).
  assert (E1 : register T1 v1 l = <[i1 := set_value v1 s1]> l)
    by (unfold register; now rewrite Hf1).
  rewrite E1.
  destruct (register_cases T2 v2 l)
    as [(i2 & s2 & Hf2 & ->)|[(Hn2 & j & x & Hfree & ->)|(Hn2 & Hfull & ->)]].
  - pose proof (proj1 (find_slot_Some _ _ _ _) Hf2) as (Hi2 & Hh2 & _).
    apply holds_true in Hh2 as [Hv2 Ht2].
    assert (Hi : i2 <> i1) by (intros ->; congruence).
    assert (Hnot1 : holds T1 (set_value v2 s2) = false)
      by (apply holds_false; cbn; intros [_ E]; congruence).
    unfold register.
    rewrite (find_slot_insert_other _ _ _ _ _ _ Hf1 Hi Hnot1).
    rewrite (find_slot_insert_other _ _ _ _ _ _ Hf2 (not_eq_sym Hi) Hnot2).
    now apply list_insert_insert_ne.
  - pose proof (proj1 (find_slot_Some _ _ _ _) Hfree) as (Hj & Hfr & _).
    apply free_true in Hfr.
    assert (Hi : j <> i1) by (intros ->; congruence).
    assert (Hnot1 : holds T1 (mkSensor T2 v2 true) = false)
      by (apply holds_false; cbn; intros [_ E]; congruence).
    unfold register.
    rewrite (find_slot_insert_other _ _ _ _ _ _ Hf1 Hi Hnot1).
    rewrite (find_slot_insert_None _ _ _ _ Hn2 Hnot2).
    rewrite (find_slot_insert_other _ _ _ _ _ _ Hfree (not_eq_sym Hi) Hnotfree).
    now apply list_insert_insert_ne.
  - rewrite E1. unfold register.
    rewrite (find_slot_insert_None _ _ _ _ Hn2 Hnot2).
    now rewrite (find_slot_insert_None _ _ _ _ Hfull Hnotfree).
Qed.

(** Where a type is found after its registration, the value is the new one. *)
Lemma register_found_value T v l (i : nat) s :
  find_slot (holds T) (register T v l) = Some (i, s) ->
  hasValue s = true /\ type s = T /\ value s = v.
Proof.
  intros Hf.
  pose proof (proj1 (find_slot_Some _ _ _ _) Hf) as (_ & Hh & _).
  apply holds_true in Hh as [Hv Ht]. split; [exact Hv|]. split; [exact Ht|].
  destruct (find_slot (holds T) l) as [[i0 s0]|] eqn:Hf0.
  - destruct (register_find T v l) as (i' & s' & Hf' & Hval & _); [left; congruence|].
    congruence.
  - destruct (find_slot free l) as [[j x]|] eqn:Hfree.
    + destruct (register_find T v l) as (i' & s' & Hf' & Hval & _); [right; congruence|].
      congruence.
    + unfold register in Hf. rewrite Hf0, Hfree in Hf. congruence.
Qed.

(** A registration changes one slot at most, and no occupied slot of
    another type. *)
Lemma register_others T v l :
  (forall (i : nat) s, l !! i = Some s -> hasValue s = true -> type s <> T ->
     register T v l !! i = Some s) /\
  exists j : nat, forall i : nat, i <> j -> register T v l !! i = l !! i.
Proof.
  destruct (register_cases T v l) as [(k & x & Hf & ->)|[(_ & k & x & Hf & ->)|(_ & _ & ->)]].
  - apply find_slot_Some in Hf as (Hk & Hh & _). apply holds_true in Hh as [_ Ht].
    split; [|exists k; intros i Hi; now apply list_lookup_insert_ne].
    intros i s Hi Hv Hty. rewrite list_lookup_insert_ne; [exact Hi|].
    intros ->. congruence.
  - apply find_slot_Some in Hf as (Hk & Hfr & _). apply free_true in Hfr.
    split; [|exists k; intros i Hi; now apply list_lookup_insert_ne].
    intros i s Hi Hv Hty. rewrite list_lookup_insert_ne; [exact Hi|].
    intros ->. congruence.
  - split; [auto|]. exists 0%nat. auto.
Qed.

End Table.

(** X13. [findSensorIndex] changes nothing and returns -1 exactly when no
    occupied slot has the type; otherwise it returns the index, from 0 to
    3, of the first occupied slot of that type. A slot without a value
    never matches, whatever its type member holds. *)
Theorem findSensorIndex_contract (o : EveryIBus) (T : Z) :
  length (_sensors o) = 4%nat ->
  exists r, findSensorIndex T o = Some (r, o) /\ -1 <= r <= 3 /\
    if decide (r = -1)
    then forall (i : nat) s, _sensors o !! i = Some s -> hasValue s = true -> type s <> T
    else exists s, _sensors o !! Z.to_nat r = Some s /\ hasValue s = true /\ type s = T /\
         forall (j : nat) s', (j < Z.to_nat r)%nat -> _sensors o !! j = Some s' ->
           ~ (hasValue s' = true /\ type s' = T).
Proof.
  intros Hlen. rewrite (findSensorIndex_run o T Hlen).
  destruct (find_slot (holds T) (_sensors o)) as [[i s]|] eqn:Hf.
  - apply find_slot_Some in Hf as (Hi & Hh & Hfirst). apply holds_true in Hh as [Hv Ht].
    pose proof (lookup_lt_Some _ _ _ Hi) as Hlt. rewrite Hlen in Hlt.
    exists (Z.of_nat i). split; [reflexivity|]. split; [lia|].
    rewrite decide_False by lia. rewrite Nat2Z.id.
    exists s. split_and!; try done.
    intros j s' Hj Hs'. apply holds_false. eauto.
  - exists (-1). split; [reflexivity|]. split; [lia|].
    rewrite decide_True by reflexivity.
    intros i s Hi Hv Ht.
    pose proof (proj1 (find_slot_None _ _) Hf i s Hi) as Hno.
    apply holds_false in Hno. auto.
Qed.

Lemma findSensorIndex_contract_witness :
  exists r, findSensorIndex 0xFF (bench []) = Some (r, bench []) /\ -1 <= r <= 3 /\
    if decide (r = -1)
    then forall (i : nat) s, _sensors (bench []) !! i = Some s -> hasValue s = true -> type s <> 0xFF
    else exists s, _sensors (bench []) !! Z.to_nat r = Some s /\ hasValue s = true /\
                   type s = 0xFF /\
         forall (j : nat) s', (j < Z.to_nat r)%nat -> _sensors (bench []) !! j = Some s' ->
           ~ (hasValue s' = true /\ type s' = 0xFF).
Proof. apply (findSensorIndex_contract (bench []) 0xFF). reflexivity. Defined.

(** X14. [setSensorValue] changes at most one slot of the table, and never
    an occupied slot of another type: the other sensors keep their index,
    type and value. *)
Theorem setSensorValue_other_slots (o : EveryIBus) (T v : Z) :
  length (_sensors o) = 4%nat ->
  exists o', setSensorValue T v o = Some (tt, o') /\
    (forall (i : nat) s, _sensors o !! i = Some s -> hasValue s = true -> type s <> T ->
       _sensors o' !! i = Some s) /\
    exists j : nat, forall i : nat, i <> j -> _sensors o' !! i = _sensors o !! i.
Proof.
  intros Hlen. destruct (setSensorValue_run o T v Hlen) as [c ->].
  eexists. split; [reflexivity|]. apply register_others.
Qed.

Lemma setSensorValue_other_slots_witness :
  exists o', setSensorValue IBUS_SENSOR_RPM 5000 (bench []) = Some (tt, o') /\
    (forall (i : nat) s, _sensors (bench []) !! i = Some s -> hasValue s = true ->
       type s <> IBUS_SENSOR_RPM -> _sensors o' !! i = Some s) /\
    exists j : nat, forall i : nat, i <> j -> _sensors o' !! i = _sensors (bench []) !! i.
Proof. apply (setSensorValue_other_slots (bench []) IBUS_SENSOR_RPM 5000). reflexivity. Defined.



(** X16. Registrations of two different types can be made in either order
    when one of the two types has its slot already: the table is the same. *)
Theorem setSensorValue_commutes (o : EveryIBus) (T1 T2 v1 v2 : Z) (i : nat) (s : Sensor) :
  length (_sensors o) = 4%nat -> T1 <> T2 ->
  _sensors o !! i = Some s -> hasValue s = true -> type s = T1 ->
  exists o1 o12 o2 o21,
    setSensorValue T1 v1 o = Some (tt, o1) /\ setSensorValue T2 v2 o1 = Some (tt, o12) /\
    setSensorValue T2 v2 o = Some (tt, o2) /\ setSensorValue T1 v1 o2 = Some (tt, o21) /\
    _sensors o12 = _sensors o21.
Proof.
  intros Hlen Hne Hi Hv Ht.
  assert (Hreg : find_slot (holds T1) (_sensors o) <> None).
  { intros Hn. pose proof (proj1 (find_slot_None _ _) Hn i s Hi) as Hno.
    apply holds_false in Hno. auto. }
  destruct (setSensorValue_run o T1 v1 Hlen) as [c1 E1].
  destruct (setSensorValue_run o T2 v2 Hlen) as [c2 E2].
  destruct (setSensorValue_run (set_Serial c1 (set_sensors (register T1 v1 (_sensors o)) o)) T2 v2)
    as [c12 E12]; [cbn; now rewrite register_length|].
  destruct (setSensorValue_run (set_Serial c2 (set_sensors (register T2 v2 (_sensors o)) o)) T1 v1)
    as [c21 E21]; [cbn; now rewrite register_length|].
  eexists _, _, _, _. split_and!; [exact E1|exact E12|exact E2|exact E21|].
  cbn. symmetry. now apply register_commute.
Qed.

Lemma setSensorValue_commutes_witness :
  exists o1 o12 o2 o21,
    setSensorValue IBUS_SENSOR_RPM 5000 (bench []) = Some (tt, o1) /\
    setSensorValue IBUS_SENSOR_EXTERNAL_VOLTAGE 1241 o1 = Some (tt, o12) /\
    setSensorValue IBUS_SENSOR_EXTERNAL_VOLTAGE 1241 (bench []) = Some (tt, o2) /\
    setSensorValue IBUS_SENSOR_RPM 5000 o2 = Some (tt, o21) /\
    _sensors o12 = _sensors o21.
Proof.
  apply (setSensorValue_commutes (bench []) IBUS_SENSOR_RPM IBUS_SENSOR_EXTERNAL_VOLTAGE
           5000 1241 0 (mkSensor IBUS_SENSOR_RPM 4294 true)); try reflexivity.
  discriminate.
Defined.

(** ** The registry and the protocol together *)

Lemma getNextAvailableAddress_loop_run (rest done : list Sensor) (count : Z) (o : EveryIBus) :
  _sensors o = done ++ rest -> (length (done ++ rest) <= 4)%nat ->
  0 <= count -> count + Z.of_nat (length rest) <= 255 ->
  getNextAvailableAddress_loop (length rest) (Z.of_nat (length done)) count o =
  Some (count + Z.of_nat (occupied_count rest), o).
Proof.
  revert done count. induction rest as [|s rest IH]; intros done count Hsens Hlen Hc Hmax.
  - unfold occupied_count. cbn. now rewrite Z.add_0_r.
  - cbn [length getNextAvailableAddress_loop] in *.
    rewrite length_app in Hlen. cbn [length] in Hlen.
    erewrite bind_Some; cycle 1.
    { apply sensor_at_lookup; [|lia]. rewrite Hsens. apply list_lookup_middle. reflexivity. }
    replace (Z.of_nat (length done) + 1) with (Z.of_nat (length (done ++ [s])))
      by (rewrite length_app; cbn; lia).
    unfold occupied_count in *. rewrite filter_cons.
    destruct (hasValue s) eqn:Hv.
    + rewrite decide_True by reflexivity. rewrite u8_id by lia.
      rewrite IH; [cbn [length]; do 2 f_equal; lia|now rewrite <- app_assoc| |lia|lia].
      rewrite <- app_assoc, length_app. cbn. lia.
    + rewrite decide_False by discriminate.
      rewrite IH; [reflexivity|now rewrite <- app_assoc| |lia|lia].
      rewrite <- app_assoc, length_app. cbn. lia.
Qed.

Lemma assigned_count (D : list Z) (l : list Sensor) :
  length l = 4%nat -> assigned D l -> occupied_count l = min 4 (length D).
Proof.
  intros Hlen Ha.
  destruct l as [|s0 [|s1 [|s2 [|s3 [|]]]]]; try discriminate.
  destruct (Ha 0%nat ltac:(lia)) as (x0 & [= <-] & H0).
  destruct (Ha 1%nat ltac:(lia)) as (x1 & [= <-] & H1).
  destruct (Ha 2%nat ltac:(lia)) as (x2 & [= <-] & H2).
  destruct (Ha 3%nat ltac:(lia)) as (x3 & [= <-] & H3).
  unfold occupied_count. rewrite !filter_cons, filter_nil.
  destruct D as [|d0 [|d1 [|d2 [|d3 D]]]]; cbn in H0, H1, H2, H3;
    repeat match goal with H : _ /\ _ |- _ => destruct H as [H _] end;
    rewrite H0, H1, H2, H3; reflexivity.
Qed.

(** X17. [getNextAvailableAddress] changes nothing and returns the number
    of occupied slots; after any history from a fresh engine this is the
    number of distinct sensor types registered so far, capped at 4. *)
Theorem getNextAvailableAddress_counts (console : list ConsoleItem) (ops : list Op) (o : EveryIBus) :
  exec (run_ops ops) (fresh console) = Some o ->
  getNextAvailableAddress o = Some (Z.of_nat (occupied_count (_sensors o)), o) /\
  occupied_count (_sensors o) = min 4 (length (registered ops)).
Proof.
  intros Hrun. destruct (run_ops_assigned ops console o Hrun) as [[Hlen _] Ha].
  change (Z.to_nat MAX_SENSORS) with 4%nat in Hlen.
  split; [|now apply assigned_count].
  unfold getNextAvailableAddress. change (Z.to_nat MAX_SENSORS) with 4%nat. rewrite <- Hlen.
  pose proof (getNextAvailableAddress_loop_run (_sensors o) [] 0 o eq_refl) as Hloop.
  change (Z.of_nat (length [])) with 0 in Hloop. cbn [app] in Hloop.
  rewrite Hloop by lia. reflexivity.
Qed.

Lemma getNextAvailableAddress_counts_witness :
  getNextAvailableAddress (set_serial None (bench [])) =
    Some (Z.of_nat (occupied_count (_sensors (set_serial None (bench [])))),
          set_serial None (bench [])) /\
  occupied_count (_sensors (set_serial None (bench []))) =
    min 4 (length (registered [OpSetRPM 4294; OpSetTemperature 0x10E8; OpSetRPM 4300; OpSetRPM 4294])).
Proof.
  apply (getNextAvailableAddress_counts []
           [OpSetRPM 4294; OpSetTemperature 0x10E8; OpSetRPM 4300; OpSetRPM 4294]).
  vm_compute. reflexivity.
Defined.

(** A MEASUREMENT request for an occupied address is answered with the
    value of its slot. *)
Lemma measurement_answered (o : EveryIBus) (a : Z) (s : Sensor) (rest : list Z) :
  table_ok o -> 1 <= a <= 4 ->
  receiving o (request_frame 0x04 (Z.lor IBUS_CMD_MEASUREMENT a) ++ rest) ->
  slot o a = Some s -> hasValue s = true ->
  exists o', handlePacket o = Some (tt, o') /\ writes o o' (measurement_response a (value s)).
Proof.
  intros Hok Ha Hrx Hs Hhas.
  destruct (handlePacket_request o IBUS_CMD_MEASUREMENT a rest Hrx) as [c1 Hrun];
    [right; right; reflexivity|exact Ha|].
  destruct Hrx as (p & Hp & _).
  destruct (slot_exists o a Hok Ha) as (s' & Hs' & _ & Hval).
  rewrite Hs in Hs'. injection Hs' as <-.
  set (o1 := set_Serial c1 (taken rest o)) in *.
  assert (Hp1 : _serial o1 = Some (mkSerial rest (tx p)))
    by (unfold o1, taken; rewrite Hp; reflexivity).
  assert (Hs1 : slot o1 a = Some s)
    by (unfold o1, taken; rewrite Hp; exact Hs).
  unfold handler in Hrun.
  cbn [Z.eqb IBUS_CMD_DISCOVER IBUS_CMD_TYPE IBUS_CMD_MEASUREMENT Pos.eqb] in Hrun.
  destruct (sendMeasurementResponse_occupied o1 _ a s Hp1 Ha Hs1 Hhas Hval) as [c E].
  destruct (Hrun _ E) as [c2 ->].
  eexists. split; [reflexivity|].
  subst o1. exists p. fields o. eauto.
Qed.

(** X18. What is set is what the master reads: once [setSensorValue T v]
    has returned and [findSensorIndex T] gives index [a - 1], a valid
    MEASUREMENT request for address [a] is answered with the six bytes that
    carry [v], low byte first. *)
Theorem set_then_measure (o o1 : EveryIBus) (T v a : Z) (rest : list Z) :
  table_ok o -> is_u8 T -> is_u16 v -> 1 <= a <= 4 ->
  receiving o (request_frame 0x04 (Z.lor IBUS_CMD_MEASUREMENT a) ++ rest) ->
  setSensorValue T v o = Some (tt, o1) ->
  findSensorIndex T o1 = Some (a - 1, o1) ->
  exists o2, handlePacket o1 = Some (tt, o2) /\
    let checksum := 0xFFFF - (0x06 + Z.lor 0xA0 a + Z.land v 0xFF + Z.shiftr v 8) in
    writes o1 o2 [0x06; Z.lor 0xA0 a; Z.land v 0xFF; Z.shiftr v 8;
                  Z.land checksum 0xFF; Z.shiftr checksum 8].
Proof.
  intros [Hlen Hall] HT Hv Ha Hrx Hset Hfind.
  destruct (setSensorValue_run o T v Hlen) as [c E]. rewrite E in Hset.
  injection Hset as <-.
  set (l1 := register T v (_sensors o)) in *.
  set (o1 := set_Serial c (set_sensors l1 o)) in *.
  assert (Hlen1 : length (_sensors o1) = 4%nat) by (cbn; unfold l1; now rewrite register_length).
  assert (Hok1 : table_ok o1) by (split; [exact Hlen1|now apply register_sensor_ok]).
  rewrite (findSensorIndex_run o1 T Hlen1) in Hfind.
  change (_sensors o1) with l1 in Hfind.
  destruct (find_slot (holds T) l1) as [[i s]|] eqn:Hf; [|injection Hfind; lia].
  assert (Hi : i = Z.to_nat (a - 1)) by (injection Hfind; lia).
  destruct (register_found_value T v _ i s Hf) as (Hhas & _ & Hval).
  apply find_slot_Some in Hf as (Hlook & _).
  assert (Hs : slot o1 a = Some s) by (unfold slot; now rewrite <- Hi).
  assert (Hrx1 : receiving o1 (request_frame 0x04 (Z.lor IBUS_CMD_MEASUREMENT a) ++ rest)).
  { destruct Hrx as (p & Hp & Hrx). exists p. split; [|exact Hrx]. subst o1. now destruct o. }
  destruct (measurement_answered o1 a s rest Hok1 Ha Hrx1 Hs Hhas) as (o2 & E2 & Hw).
  exists o2. split; [exact E2|].
  rewrite Hval in Hw. unfold measurement_response, with_checksum, response_checksum in Hw.
  cbn [foldr app] in Hw.
  replace (6 + (Z.lor 160 a + (Z.land v 255 + (Z.shiftr v 8 + 0))))
    with (6 + Z.lor 160 a + Z.land v 255 + Z.shiftr v 8) in Hw by lia.
  exact Hw.
Qed.

Lemma set_then_measure_witness :
  exists o2,
    handlePacket (set_sensors [mkSensor IBUS_SENSOR_RPM 4294 true;
                               mkSensor IBUS_SENSOR_TEMPERATURE 611 true; unused; unused]
                    (bench (request_frame 0x04 0xA2))) = Some (tt, o2) /\
    writes (set_sensors [mkSensor IBUS_SENSOR_RPM 4294 true;
                         mkSensor IBUS_SENSOR_TEMPERATURE 611 true; unused; unused]
              (bench (request_frame 0x04 0xA2))) o2
      [0x06; 0xA2; 0x63; 0x02; 0xF2; 0xFE].
Proof.
  apply (set_then_measure (bench (request_frame 0x04 0xA2)) _ IBUS_SENSOR_TEMPERATURE 611 2 []).
  - apply bench_ok.
  - unfold is_u8, IBUS_SENSOR_TEMPERATURE. lia.
  - unfold is_u16. lia.
  - lia.
  - eexists. split; reflexivity.
  - reflexivity.
  - reflexivity.
Defined.

(** ** More on histories *)

Section Public.

(** A registration is a call of [setSensorValue] with the type and the
    value of the operation. *)
Lemma run_op_register (op : Op) (T v : Z) (o : EveryIBus) :
  op_type op = Some T -> op_value op = Some v -> length (_sensors o) = 4%nat ->
  exists c, run_op op o = Some (tt, set_Serial c (set_sensors (register T v (_sensors o)) o)).
Proof.
  intros HT Hv Hlen.
  destruct op; cbn in HT, Hv; try discriminate;
    injection HT as <-; injection Hv as <-; cbn [run_op];
    unfold setInternalVoltage, setExternalVoltage, setTemperature, setRPM;
    now apply setSensorValue_run.
Qed.

Lemma first_seen_elem (D : list Z) (T x : Z) : x ∈ first_seen D T -> x ∈ D \/ x = T.
Proof.
  unfold first_seen. case_decide; [auto|].
  rewrite elem_of_app, list_elem_of_singleton. auto.
Qed.

Lemma distinct_elem_from (ts D : list Z) (x : Z) :
  x ∈ foldl first_seen D ts -> x ∈ D \/ x ∈ ts.
Proof.
  revert D. induction ts as [|T ts IH]; intros D Hx; [auto|].
  cbn in Hx. destruct (IH _ Hx) as [H|H].
  - destruct (first_seen_elem _ _ _ H) as [| ->]; [auto|]. right. left.
  - right. now right.
Qed.

(** The public interface registers the four types of the header only. *)
Lemma registered_public (ops : list Op) (x : Z) :
  Forall public ops -> x ∈ registered ops -> x ∈ [0; 1; 2; 3].
Proof.
  intros Hpub Hx. unfold registered, distinct in Hx.
  destruct (distinct_elem_from _ _ _ Hx) as [H|H]; [inversion H|].
  apply list_elem_of_omap in H as (op & Hop & Ht).
  pose proof (proj1 (Forall_forall _ _) Hpub op Hop) as Hp.
  destruct op; cbn in Ht, Hp; try discriminate; try contradiction;
    injection Ht as <-; unfold IBUS_SENSOR_INTERNAL_VOLTAGE, IBUS_SENSOR_EXTERNAL_VOLTAGE,
      IBUS_SENSOR_TEMPERATURE, IBUS_SENSOR_RPM; repeat constructor.
Qed.

Lemma registered_public_length (ops : list Op) :
  Forall public ops -> (length (registered ops) <= 4)%nat.
Proof.
  intros Hpub.
  apply (submseteq_length _ [0; 1; 2; 3]).
  apply NoDup_submseteq; [apply registered_NoDup|].
  intros x. now apply registered_public.
Qed.

End Public.

(** X19. The table is large enough for the public interface: in a history
    of public operations from a fresh engine no registration is dropped.
    After a call of one of the four setters, a slot of the setter's type is
    occupied and holds the value of the call. *)
Theorem public_setter_stored (console : list ConsoleItem) (ops : list Op) (op : Op)
    (T v : Z) (o : EveryIBus) :
  Forall public ops -> public op -> op_type op = Some T -> op_value op = Some v ->
  exec (run_ops (ops ++ [op])) (fresh console) = Some o ->
  exists (i : nat) s, (i < 4)%nat /\ _sensors o !! i = Some s /\
    hasValue s = true /\ type s = T /\ value s = v.
Proof.
  intros Hpub Hop HT Hv Hrun.
  pose proof (registered_public_length (ops ++ [op])
                ltac:(apply Forall_app; split; [exact Hpub|now constructor])) as Hlen4.
  rewrite exec_run_ops_app in Hrun.
  destruct (exec (run_ops ops) (fresh console)) as [o1|] eqn:E1; [|discriminate].
  destruct (run_ops_assigned ops console o1 E1) as [[Hlen _] Ha].
  change (Z.to_nat MAX_SENSORS) with 4%nat in Hlen.
  cbn [mbind option_bind] in Hrun.
  destruct (run_op_register op T v o1 HT Hv Hlen) as [c E].
  rewrite exec_run_ops_cons, (proj2 (exec_unit _ _ _) E) in Hrun. cbn in Hrun.
  injection Hrun as <-. cbn [_sensors set_Serial set_sensors].
  rewrite registered_snoc, HT in Hlen4.
  assert (Hroom : find_slot (holds T) (_sensors o1) <> None \/
                  find_slot free (_sensors o1) <> None).
  { unfold first_seen in Hlen4. case_decide as Hin.
    - left. apply list_elem_of_lookup_1 in Hin as (k & Hk).
      pose proof (lookup_lt_Some _ _ _ Hk) as Hlt.
      destruct (Ha k ltac:(lia)) as (s & Hs & Hm). rewrite Hk in Hm.
      intros Hn. pose proof (proj1 (find_slot_None _ _) Hn k s Hs) as Hno.
      apply holds_false in Hno. auto.
    - right. rewrite length_app in Hlen4. cbn in Hlen4.
      destruct (Ha (length (registered ops)) ltac:(lia)) as (s & Hs & Hm).
      rewrite (proj2 (lookup_ge_None _ _)) in Hm by lia.
      intros Hn. pose proof (proj1 (find_slot_None _ _) Hn _ s Hs) as Hno.
      unfold free in Hno. rewrite Hm in Hno. discriminate. }
  destruct (register_find T v (_sensors o1) Hroom) as (i & s & Hf & Hval & _).
  apply find_slot_Some in Hf as (Hi & Hh & _). apply holds_true in Hh as [Hhas Hty].
  exists i, s. split_and!; try done.
  apply lookup_lt_Some in Hi. rewrite register_length, Hlen in Hi. exact Hi.
Qed.

Lemma public_setter_stored_witness :
  exists (i : nat) s, (i < 4)%nat /\
    _sensors (set_sensors [mkSensor IBUS_SENSOR_RPM 4294 true;
                           mkSensor IBUS_SENSOR_TEMPERATURE 0x10E8 true;
                           mkSensor IBUS_SENSOR_EXTERNAL_VOLTAGE 1241 true; unused]
                (set_serial None (bench []))) !! i = Some s /\
    hasValue s = true /\ type s = IBUS_SENSOR_EXTERNAL_VOLTAGE /\ value s = 1241.
Proof.
  apply (public_setter_stored [] [OpSetRPM 4294; OpSetTemperature 0x10E8]
           (OpSetExternalVoltage 1241) IBUS_SENSOR_EXTERNAL_VOLTAGE 1241).
  - repeat constructor.
  - exact I.
  - reflexivity.
  - reflexivity.
  - vm_compute. reflexivity.
Defined.


(** What an operation does to the members it is not about. *)
Lemma run_op_members (op : Op) (o o' : EveryIBus) :
  table_ok o -> run_op op o = Some (tt, o') ->
  (_anyDiscovered o = true -> _anyDiscovered o' = true) /\
  match op_type op with
  | Some _ =>
      _serial o' = _serial o /\ _anyDiscovered o' = _anyDiscovered o /\
      _packetCount o' = _packetCount o /\ _responseCount o' = _responseCount o /\
      _debug o' = _debug o
  | None => _sensors o' = _sensors o
  end.
Proof.
  intros Hok Hrun.
  destruct (op_type op) as [T|] eqn:HT.
  - assert (Hv : exists v, op_value op = Some v)
      by (destruct op; cbn in HT; try discriminate; eexists; reflexivity).
    destruct Hv as [v Hv].
    destruct (run_op_register op T v o HT Hv (proj1 Hok)) as [c E].
    rewrite E in Hrun. injection Hrun as <-. now destruct o.
  - destruct op as [serial| |r|r|r|r|T r|b|bytes]; cbn in HT; try discriminate;
      cbn [run_op] in Hrun.
    + destruct (begin_run serial o) as [c E]. rewrite E in Hrun. injection Hrun as <-.
      now destruct o.
    + destruct (_serial o) as [p|] eqn:Hp.
      * destruct (update_summary o p Hok Hp) as [[_ E]|
          (b0 & b1 & b2 & b3 & r & c & bytes & d & n & _ & E & Hcases)];
          rewrite E in Hrun; injection Hrun as <-; [auto|].
        split; [|reflexivity]. cbn. intros Hd.
        destruct Hcases as [(_ & -> & _)|(a & s & _ & _ & _ & _ & _ & _ & _ & Hcmd)]; [exact Hd|].
        destruct Hcmd as [(_ & _ & ->)|[(_ & _ & ->)|(_ & _ & ->)]]; auto.
      * rewrite (update_detached o Hp) in Hrun. injection Hrun as <-. auto.
    + injection Hrun as <-. now destruct o.
    + unfold receive, modify in Hrun. injection Hrun as <-.
      now destruct o as [[p|] ? ? ? ? ? ? ?].
Qed.

(** X21. The discovery flag never goes back: once an engine has been
    discovered, no operation and no packet makes [isDiscovered] false
    again. *)
Theorem anyDiscovered_stays (ops : list Op) (o o' : EveryIBus) :
  table_ok o -> exec (run_ops ops) o = Some o' ->
  _anyDiscovered o = true -> _anyDiscovered o' = true.
Proof.
  revert o. induction ops as [|op ops IH]; intros o Hok Hrun Hd.
  - cbn in Hrun. now injection Hrun as <-.
  - destruct (run_op_effect op o Hok) as (o1 & E & Hok1 & _).
    rewrite exec_run_ops_cons, (proj2 (exec_unit _ _ _) E) in Hrun. cbn in Hrun.
    apply (IH o1 Hok1 Hrun).
    now apply (run_op_members op o o1 Hok E).
Qed.

Lemma anyDiscovered_stays_witness :
  _anyDiscovered (set_anyDiscovered true (set_packetCount 1 (bench []))) = true.
Proof.
  apply (anyDiscovered_stays [OpReceive [0x00; 0x01; 0x02; 0x03]; OpUpdate]
           (set_anyDiscovered true (bench []))).
  - apply bench_ok.
  - vm_compute. reflexivity.
  - reflexivity.
Defined.

(** X22. The registry and the protocol keep to themselves: a setter
    changes neither the transport nor a counter nor the discovery flag nor
    the diagnostics switch, and no other operation ([begin], [update],
    [setDebug], bytes arriving) changes the table. *)
Theorem operations_keep_apart (op : Op) (o o' : EveryIBus) :
  table_ok o -> run_op op o = Some (tt, o') ->
  match op_type op with
  | Some _ =>
      _serial o' = _serial o /\ _anyDiscovered o' = _anyDiscovered o /\
      _packetCount o' = _packetCount o /\ _responseCount o' = _responseCount o /\
      _debug o' = _debug o
  | None => _sensors o' = _sensors o
  end.
Proof. intros Hok Hrun. now apply (run_op_members op o o' Hok Hrun). Qed.

Lemma operations_keep_apart_witness :
  _sensors (set_packetCount 1 (set_responseCount 1
     (set_serial (Some (mkSerial [] [0x06; 0x91; 0x02; 0x02; 0x64; 0xFF])) (bench []))))
  = _sensors (bench (request_frame 0x04 0x91)).
Proof.
  apply (operations_keep_apart OpUpdate (bench (request_frame 0x04 0x91))).
  - apply bench_ok.
  - reflexivity.
Defined.

(** X23. A second [update] with no new input does nothing: whatever the
    first one found, it leaves fewer than four bytes waiting. *)
Theorem update_twice (o : EveryIBus) :
  table_ok o -> exists o', update o = Some (tt, o') /\ update o' = Some (tt, o').
Proof.
  intros Hok. destruct (_serial o) as [p|] eqn:Hp.
  - destruct (update_summary o p Hok Hp) as [[_ E]|
      (b0 & b1 & b2 & b3 & r & c & bytes & d & n & _ & E & _)]; rewrite E.
    + exists o. now split.
    + eexists. split; [reflexivity|].
      apply (update_waiting _ (mkSerial [] (tx p ++ bytes))); [reflexivity|cbn; lia].
  - exists o. split; now apply update_detached.
Qed.

Lemma update_twice_witness :
  exists o', update (bench (request_frame 0x04 0x91 ++ request_frame 0x04 0xA1)) = Some (tt, o') /\
             update o' = Some (tt, o').
Proof. apply (update_twice _ (bench_ok _)). Defined.

(** X24. A frame may arrive in pieces: as long as fewer than four bytes
    wait, an [update] between two arrivals changes nothing, and the
    next [update] sees the bytes as if they had arrived together. *)
Theorem update_waits_for_frame (o : EveryIBus) (p : HardwareSerial) (first second : list Z) :
  _serial o = Some p -> (length (rx p) + length first < 4)%nat ->
  exec (run_ops [OpReceive first; OpUpdate; OpReceive second; OpUpdate]) o =
  exec (run_ops [OpReceive (first ++ second); OpUpdate]) o.
Proof.
  intros Hp Hlen.
  rewrite !exec_run_ops_cons.
  assert (E1 : exec (run_op (OpReceive first)) o =
               Some (set_serial (Some (mkSerial (rx p ++ (u8 <$> first)) (tx p))) o))
    by (unfold exec, run_op, receive, modify; cbn; now rewrite Hp).
  assert (E12 : exec (run_op (OpReceive (first ++ second))) o =
               Some (set_serial (Some (mkSerial ((rx p ++ (u8 <$> first)) ++ (u8 <$> second))
                                         (tx p))) o))
    by (unfold exec, run_op, receive, modify; cbn; now rewrite Hp, fmap_app, app_assoc).
  rewrite E1, E12. cbn [mbind option_bind].
  rewrite !exec_run_ops_cons.
  set (o1 := set_serial _ o) at 1.
  assert (E2 : exec (run_op OpUpdate) o1 = Some o1).
  { apply exec_unit. apply (update_waiting o1 (mkSerial (rx p ++ (u8 <$> first)) (tx p)));
      [reflexivity|].
    cbn. rewrite length_app, length_fmap. lia. }
  rewrite E2. cbn [mbind option_bind]. rewrite !exec_run_ops_cons.
  assert (E3 : exec (run_op (OpReceive second)) o1 =
               Some (set_serial (Some (mkSerial ((rx p ++ (u8 <$> first)) ++ (u8 <$> second))
                                         (tx p))) o))
    by (unfold exec, run_op, receive, modify, o1; cbn; now destruct o).
  rewrite E3. cbn [mbind option_bind]. now rewrite exec_run_ops_cons.
Qed.

Lemma update_waits_for_frame_witness :
  exec (run_ops [OpReceive [0x04; 0x91]; OpUpdate; OpReceive [0x6A; 0xFF]; OpUpdate]) (bench []) =
  exec (run_ops [OpReceive ([0x04; 0x91] ++ [0x6A; 0xFF]); OpUpdate]) (bench []).
Proof.
  apply (update_waits_for_frame (bench []) (mkSerial [] []) [0x04; 0x91] [0x6A; 0xFF]).
  - reflexivity.
  - cbn. lia.
Defined.

(** ** Diagnostics *)

Section Muted.

Lemma muted_ret {A} (a : A) : muted (mret a : M A).
Proof. intros o a' o' Hd H. injection H as _ <-. now split. Qed.

Lemma muted_bind {A B} (m : M A) (f : A -> M B) :
  muted m -> (forall a, muted (f a)) -> muted (m ≫= f).
Proof.
  intros Hm Hf o b o' Hd H. rewrite run_bind in H.
  destruct (m o) as [[a o1]|] eqn:E; [|discriminate].
  destruct (Hm o a o1 Hd E) as [Hd1 Hc1].
  destruct (Hf a o1 b o' Hd1 H) as [Hd2 Hc2]. split; congruence.
Qed.

Lemma muted_get {A} (f : EveryIBus -> A) : muted (get f).
Proof. intros o a o' Hd H. injection H as _ <-. now split. Qed.

Lemma muted_modify (f : EveryIBus -> EveryIBus) :
  (forall o, _debug (f o) = _debug o /\ Serial (f o) = Serial o) -> muted (modify f).
Proof.
  intros Hf o a o' Hd H. injection H as _ <-. destruct (Hf o) as [-> ->]. now split.
Qed.

Lemma muted_pure {A} (x : option A) : muted (pure x).
Proof.
  intros o a o' Hd H. unfold pure in H. destruct x; [|discriminate].
  injection H as _ <-. now split.
Qed.

Lemma muted_undefined {A} : muted (undefined : M A).
Proof. intros o a o' Hd H. discriminate. Qed.

Lemma muted_when (b : bool) (m : M unit) : muted m -> muted (when b m).
Proof. intros Hm. destruct b; [exact Hm|apply muted_ret]. Qed.

(** Whatever is done [if (_debug)] is not done. *)
Lemma muted_guard {A} (f : bool -> M A) : muted (f false) -> muted (get _debug ≫= f).
Proof. intros Hf o a o' Hd H. rewrite bind_get, Hd in H. exact (Hf o a o' Hd H). Qed.

Lemma muted_with_serial {A} (f : HardwareSerial -> A * HardwareSerial) : muted (with_serial f).
Proof.
  intros o a o' Hd H. unfold with_serial in H.
  destruct (_serial o); [|discriminate]. destruct (f _). injection H as _ <-. now split.
Qed.

Lemma muted_sensor_at (i : Z) : muted (sensor_at i).
Proof.
  intros o a o' Hd H. unfold sensor_at in H.
  destruct (index _ _ _); [|discriminate]. injection H as _ <-. now split.
Qed.

Lemma muted_for_loop {R} (n : nat) (i : Z) (body : Z -> M (option R)) :
  (forall i, muted (body i)) -> muted (for_loop n i body).
Proof.
  intros Hb. revert i. induction n as [|n IH]; intros i; cbn [for_loop].
  - apply muted_ret.
  - apply muted_bind; [apply Hb|]. intros [r|]; [apply muted_ret|apply IH].
Qed.

End Muted.

(** The steps of a proof that a member function is [muted]. *)
Ltac mute :=
  repeat first
    [ match goal with H : _ |- _ => apply H end
    | apply muted_guard; cbv beta; cbn [when]
    | apply muted_ret | apply muted_get | apply muted_pure | apply muted_undefined
    | apply muted_with_serial | apply muted_sensor_at
    | apply muted_modify; intros ?; split; reflexivity
    | apply muted_when
    | apply muted_for_loop; intros ?
    | apply muted_bind; [|intros ?]
    | match goal with |- muted (if ?b then _ else _) => destruct b end
    | match goal with |- muted (match ?x with _ => _ end) => destruct x end ].

Section Silence.

Lemma muted_sensor_update (i : Z) (f : Sensor -> Sensor) : muted (sensor_update i f).
Proof. unfold sensor_update. mute. Qed.

Lemma muted_findSensorIndex (T : Z) : muted (findSensorIndex T).
Proof. unfold findSensorIndex. mute. Qed.

Lemma muted_setSensorValue (T v : Z) : muted (setSensorValue T v).
Proof.
  pose proof muted_sensor_update. pose proof muted_findSensorIndex.
  unfold setSensorValue. mute.
Qed.

Lemma muted_clearSerialBuffer : muted clearSerialBuffer.
Proof.
  assert (H : forall n, muted (clearSerialBuffer_loop n))
    by (induction n; cbn [clearSerialBuffer_loop]; mute).
  unfold clearSerialBuffer. mute.
Qed.

Lemma muted_begin (serial : HardwareSerial) : muted (begin serial).
Proof. pose proof muted_clearSerialBuffer. unfold begin. mute. Qed.

Lemma muted_sendPacket (data : list Z) (len : Z) : muted (sendPacket data len).
Proof.
  assert (H : forall n i, muted (sendPacket_loop n i data))
    by (induction n; intros i; cbn [sendPacket_loop]; mute).
  unfold sendPacket. mute.
Qed.

Lemma muted_handlePacket : muted handlePacket.
Proof.
  assert (H : forall n, muted (read_packet n))
    by (induction n; cbn [read_packet]; mute).
  pose proof muted_sendPacket. pose proof muted_clearSerialBuffer.
  unfold handlePacket, handleDiscoveryCommand, sendDiscoveryResponse, sendTypeResponse,
    sendMeasurementResponse.
  mute.
Qed.

Lemma muted_update : muted update.
Proof. pose proof muted_handlePacket. unfold update. mute. Qed.

(** No operation but [setDebug(true)] switches the diagnostics on or
    prints without them. *)
Lemma muted_run_op (op : Op) : keeps_quiet op -> muted (run_op op).
Proof.
  pose proof muted_setSensorValue. pose proof muted_begin. pose proof muted_update.
  destruct op as [serial| |r|r|r|r|T r|[|]|bytes]; intros Hq; try contradiction; cbn [run_op];
    unfold setInternalVoltage, setExternalVoltage, setTemperature, setRPM, setDebug, receive;
    mute.
  - intros o a o' Hd E. injection E as _ <-. now split.
  - apply muted_modify. intros o. now destruct (_serial o).
Qed.

End Silence.

(** X25. Without diagnostics the library does not touch the console: from
    a state with the switch off, a history without [setDebug(true)] leaves
    the console exactly as it was, and the switch off. *)
Theorem silent_without_debug (ops : list Op) (o o' : EveryIBus) :
  _debug o = false -> Forall keeps_quiet ops -> exec (run_ops ops) o = Some o' ->
  _debug o' = false /\ Serial o' = Serial o.
Proof.
  revert o. induction ops as [|op ops IH]; intros o Hd Hq Hrun.
  - cbn in Hrun. injection Hrun as <-. now split.
  - apply Forall_cons in Hq as [Hop Hq]. rewrite exec_run_ops_cons in Hrun.
    destruct (exec (run_op op) o) as [o1|] eqn:E; [|discriminate].
    apply exec_unit in E. cbn in Hrun.
    destruct (muted_run_op op Hop o tt o1 Hd E) as [Hd1 Hc1].
    destruct (IH o1 Hd1 Hq Hrun) as [Hd' Hc']. split; congruence.
Qed.

Lemma silent_without_debug_witness :
  _debug (mkEveryIBus (Some (mkSerial [] [0x06; 0xA1; 0xC6; 0x10; 0x82; 0xFE]))
            [mkSensor IBUS_SENSOR_RPM 4294 true; unused; unused; unused]
            0 false 1 1 false [PrintStr "boot"]) = false /\
  Serial (mkEveryIBus (Some (mkSerial [] [0x06; 0xA1; 0xC6; 0x10; 0x82; 0xFE]))
            [mkSensor IBUS_SENSOR_RPM 4294 true; unused; unused; unused]
            0 false 1 1 false [PrintStr "boot"]) = Serial (fresh [PrintStr "boot"]).
Proof.
  apply (silent_without_debug
           [OpBegin (mkSerial [] []); OpSetRPM 4294; OpReceive (request_frame 0x04 0xA1);
            OpUpdate]).
  - reflexivity.
  - repeat constructor.
  - vm_compute. reflexivity.
Defined.

Section Interference.

Lemma quiet_idem (o : EveryIBus) : quiet (quiet o) = quiet o.
Proof. reflexivity. Qed.

Lemma quiet_fixed (o : EveryIBus) : _debug o = false -> Serial o = [] -> quiet o = o.
Proof. destruct o; cbn; now intros -> ->. Qed.

Lemma taken_diagnostics (rest : list Z) (b : bool) (c : list ConsoleItem) (o : EveryIBus) :
  taken rest (set_debug b (set_Serial c o)) = set_debug b (set_Serial c (taken rest o)).
Proof. unfold taken. now destruct o as [[q|] ? ? ? ? ? ? ?]. Qed.

Lemma discard_input_diagnostics (b : bool) (c : list ConsoleItem) (o : EveryIBus) :
  discard_input (set_debug b (set_Serial c o)) = set_debug b (set_Serial c (discard_input o)).
Proof. unfold discard_input. now destruct o as [[q|] ? ? ? ? ? ? ?]. Qed.

(** The polling step does not look at the diagnostics. *)
Lemma protocol_step_diagnostics (b : bool) (c : list ConsoleItem) (o : EveryIBus) :
  protocol_step (set_debug b (set_Serial c o)) = set_debug b (set_Serial c (protocol_step o)).
Proof.
  unfold protocol_step.
  change (_serial (set_debug b (set_Serial c o))) with (_serial o).
  destruct (_serial o) as [p|]; [|reflexivity].
  destruct (rx p) as [|b0 [|b1 [|b2 [|b3 rest]]]]; try reflexivity.
  now rewrite taken_diagnostics, respond_diagnostics, discard_input_diagnostics.
Qed.

(** An operation other than [setDebug] does to the quiet state what it
    does to the state, the diagnostics apart. *)
Lemma run_op_quiet (op : Op) (o : EveryIBus) :
  table_ok o -> is_setDebug op = false ->
  exists o1, run_op op o = Some (tt, o1) /\ table_ok o1 /\
             run_op op (quiet o) = Some (tt, quiet o1).
Proof.
  intros Hok Hop.
  assert (Hokq : table_ok (quiet o)) by exact Hok.
  destruct (run_op_effect op o Hok) as (o1 & E & Hok1 & _).
  destruct (run_op_effect op (quiet o) Hokq) as (o1q & Eq & _).
  exists o1. split; [exact E|]. split; [exact Hok1|].
  assert (Hk : keeps_quiet op) by (destruct op; cbn in Hop; try discriminate; exact I).
  destruct (muted_run_op op Hk (quiet o) tt o1q eq_refl Eq) as [Hd Hc].
  rewrite Eq. do 2 f_equal. rewrite <- (quiet_fixed o1q Hd Hc).
  destruct (op_type op) as [T|] eqn:HT.
  - assert (Hv : exists v, op_value op = Some v)
      by (destruct op; cbn in HT; try discriminate; eexists; reflexivity).
    destruct Hv as [v Hv].
    destruct (run_op_register op T v o HT Hv (proj1 Hok)) as [c E'].
    destruct (run_op_register op T v (quiet o) HT Hv (proj1 Hokq)) as [c' Eq'].
    rewrite E' in E. rewrite Eq' in Eq. injection E as <-. injection Eq as <-.
    now destruct o.
  - destruct op as [serial| |r|r|r|r|T r|b|bytes]; cbn in HT, Hop; try discriminate;
      cbn [run_op] in E, Eq.
    + destruct (begin_run serial o) as [c E']. destruct (begin_run serial (quiet o)) as [c' Eq'].
      rewrite E' in E. rewrite Eq' in Eq. injection E as <-. injection Eq as <-.
      now destruct o.
    + destruct (update_step o Hok) as [c E']. destruct (update_step (quiet o) Hokq) as [c' Eq'].
      rewrite E' in E. rewrite Eq' in Eq. injection E as <-. injection Eq as <-.
      change (quiet o) with (set_debug false (set_Serial [] o)).
      rewrite protocol_step_diagnostics.
      now destruct (protocol_step o).
    + unfold receive, modify in E, Eq. injection E as <-. injection Eq as <-.
      now destruct o as [[p|] ? ? ? ? ? ? ?].
Qed.

Lemma without_setDebug_cons (op : Op) (ops : list Op) :
  without_setDebug (op :: ops) =
  if is_setDebug op then without_setDebug ops else op :: without_setDebug ops.
Proof.
  unfold without_setDebug. rewrite filter_cons.
  destruct (is_setDebug op); case_decide; congruence.
Qed.

(** A history seen without its diagnostics. *)
Lemma run_ops_quiet (ops : list Op) (o : EveryIBus) :
  table_ok o ->
  quiet <$> exec (run_ops ops) o = quiet <$> exec (run_ops (without_setDebug ops)) (quiet o).
Proof.
  revert o. induction ops as [|op ops IH]; intros o Hok; [reflexivity|].
  rewrite without_setDebug_cons. destruct (is_setDebug op) eqn:Hop.
  - destruct op; try discriminate.
    rewrite exec_run_ops_cons.
    change (exec (run_op (OpSetDebug enable)) o) with (Some (set_debug enable o)).
    cbn [mbind option_bind]. now rewrite (IH (set_debug enable o) Hok).
  - destruct (run_op_quiet op o Hok Hop) as (o1 & E & Hok1 & Eq).
    rewrite !exec_run_ops_cons.
    rewrite (proj2 (exec_unit _ _ _) E), (proj2 (exec_unit _ _ _) Eq).
    cbn [mbind option_bind]. now apply IH.
Qed.

End Interference.

(** X26. The diagnostics do not interfere with the protocol (the console
    being a port of its own): two histories that differ only in their calls
    of [setDebug], run from states that differ only in the switch and the
    console, end in states that differ only in the switch and the console.
    The table, the transport with every byte written to it, the counters
    and the discovery flag are the same. *)
Theorem diagnostics_do_not_interfere (ops1 ops2 : list Op) (o1 o2 : EveryIBus) :
  table_ok o1 -> quiet o1 = quiet o2 -> without_setDebug ops1 = without_setDebug ops2 ->
  quiet <$> exec (run_ops ops1) o1 = quiet <$> exec (run_ops ops2) o2.
Proof.
  intros Hok Ho Hops.
  assert (Hok2 : table_ok o2).
  { unfold table_ok. change (_sensors o2) with (_sensors (quiet o2)).
    rewrite <- Ho. exact Hok. }
  now rewrite (run_ops_quiet ops1 o1 Hok), (run_ops_quiet ops2 o2 Hok2), Ho, Hops.
Qed.

Lemma diagnostics_do_not_interfere_witness :
  quiet <$> exec (run_ops [OpSetDebug true; OpReceive (request_frame 0x04 0x81); OpUpdate;
                           OpSetExternalVoltage 1241])
              (set_Serial [PrintStr "boot"] (bench [])) =
  quiet <$> exec (run_ops [OpReceive (request_frame 0x04 0x81); OpUpdate;
                           OpSetExternalVoltage 1241])
              (bench []).
Proof.
  apply diagnostics_do_not_interfere.
  - apply bench_ok.
  - reflexivity.
  - reflexivity.
Defined.
